(** * Namespace deployment scripts: a shallow embedding and its properties

    The repository is a set of operator scripts (deploy_mysql.py,
    deploy_ecom_app.py, deploy_kafka.py, deploy_kubernetes_dashboard.py)
    that inspect a cluster namespace, ask the operator what to do with
    resources found there, apply manifests and wait for pods.

    Layout of this development:
    - [PyStr]: the Python [str] operations the scripts use, on texts whose
      characters are code points below 256;
    - [Proc]: the outside world (subprocesses, the operator's terminal, the
      clock, the file system) as an oracle over the history of events, and the
      script monad with Python's exceptions and [sys.exit];
    - [Kafka], [Dashboard], [Mysql], [Ecom]: the functions of each script;
    - [Scenario]: what is observed of a history, the vocabulary of the
      specification, and the worlds of the examples;
    - the properties: the string operations, the readiness waiters, the
      classification of a listing, the inspection of the namespace, the
      operator's decision, the creation and the deletion of the namespace. *)

From Stdlib Require Import String Ascii List ZArith Bool Lia Arith DecimalString.
Import ListNotations.
Local Open Scope string_scope.

(* ===================================================================== *)
(** ** Python string operations *)
(* ===================================================================== *)

Module PyStr.

(** Code point of a character. *)
Definition ord (c : ascii) : nat := nat_of_ascii c.

Definition code_in (c : ascii) (l : list nat) : bool :=
  existsb (Nat.eqb (ord c)) l.

(** [str.isspace] on one character: the characters [str.strip] and
    [str.split] (without separator) treat as whitespace. *)
Definition isspace (c : ascii) : bool :=
  code_in c [9; 10; 11; 12; 13; 28; 29; 30; 31; 32; 133; 160].

(** Line boundaries of [str.splitlines]. *)
Definition is_linebreak (c : ascii) : bool :=
  code_in c [10; 11; 12; 13; 28; 29; 30; 133].

(** Whitespace that [int] skips around a literal. *)
Definition int_space (c : ascii) : bool :=
  code_in c [9; 10; 11; 12; 13; 32; 133; 160].

(** [str.lower] on one character: A-Z and the upper-case letters of the
    range 192..222 (215, the multiplication sign, excepted) move up by 32. *)
Definition lower_char (c : ascii) : ascii :=
  let n := ord c in
  if ((65 <=? n) && (n <=? 90)
      || (192 <=? n) && (n <=? 222) && negb (n =? 215))%nat
  then ascii_of_nat (n + 32) else c.

Fixpoint lower (s : string) : string :=
  match s with
  | EmptyString => EmptyString
  | String c r => String (lower_char c) (lower r)
  end.

(** A string is true in a condition iff it is not empty. *)
Definition truthy (s : string) : bool :=
  match s with EmptyString => false | _ => true end.

(** [s.startswith(p)]. *)
Definition startswith (s p : string) : bool := String.prefix p s.

(** [needle in hay]. *)
Fixpoint contains (needle hay : string) : bool :=
  String.prefix needle hay
  || match hay with
     | EmptyString => false
     | String _ r => contains needle r
     end.

Fixpoint lstrip_by (sp : ascii -> bool) (s : string) : string :=
  match s with
  | EmptyString => EmptyString
  | String c r => if sp c then lstrip_by sp r else s
  end.

Fixpoint rstrip_by (sp : ascii -> bool) (s : string) : string :=
  match s with
  | EmptyString => EmptyString
  | String c r =>
      match rstrip_by sp r with
      | EmptyString => if sp c then EmptyString else String c EmptyString
      | r' => String c r'
      end
  end.

(** [s.strip()]. *)
Definition strip (s : string) : string :=
  rstrip_by isspace (lstrip_by isspace s).

(** [s.split(sep)] for a one-character separator: never the empty list. *)
Fixpoint split_on (sep : ascii) (s : string) : list string :=
  match s with
  | EmptyString => [EmptyString]
  | String c r =>
      if Ascii.eqb c sep then EmptyString :: split_on sep r
      else match split_on sep r with
           | h :: t => String c h :: t
           | [] => [String c EmptyString]
           end
  end.

(** [s.split()]: the maximal runs of non-whitespace characters. *)
Fixpoint split (s : string) : list string :=
  match s with
  | EmptyString => []
  | String c r =>
      if isspace c then split r
      else match r with
           | EmptyString => [String c EmptyString]
           | String c2 _ =>
               if isspace c2 then String c EmptyString :: split r
               else match split r with
                    | h :: t => String c h :: t
                    | [] => [String c EmptyString]
                    end
           end
  end.

(** [s.splitlines()]: a carriage return followed by a line feed is one
    boundary; no empty last line is produced for a final boundary. *)
Fixpoint splitlines (s : string) : list string :=
  match s with
  | EmptyString => []
  | String c r =>
      if is_linebreak c then
        EmptyString ::
          match r with
          | String c2 r2 =>
              if ((ord c =? 13) && (ord c2 =? 10))%nat
              then splitlines r2 else splitlines r
          | EmptyString => splitlines r
          end
      else match splitlines r with
           | h :: t => String c h :: t
           | [] => [String c EmptyString]
           end
  end.

Definition digit_val (c : ascii) : option Z :=
  let n := ord c in
  if ((48 <=? n) && (n <=? 57))%nat then Some (Z.of_nat (n - 48)) else None.

(** Digits of an integer literal: single underscores are allowed between
    digits only. [prev] tells whether the previous character was a digit. *)
Fixpoint int_digits (acc : Z) (prev : bool) (s : string) : option Z :=
  match s with
  | EmptyString => if prev then Some acc else None
  | String c r =>
      if Ascii.eqb c "_"%char then
        if prev then int_digits acc false r else None
      else match digit_val c with
           | Some d => int_digits (10 * acc + d) true r
           | None => None
           end
  end.

(** [int(s)]: [None] stands for [ValueError]. *)
Definition int (s : string) : option Z :=
  let t := rstrip_by int_space (lstrip_by int_space s) in
  match t with
  | String "+"%char r => int_digits 0 false r
  | String "-"%char r => option_map Z.opp (int_digits 0 false r)
  | _ => int_digits 0 false t
  end.

Definition eqb (a b : string) : bool := String.eqb a b.

(** [x in l] for a list of strings. *)
Definition mem (x : string) (l : list string) : bool :=
  existsb (String.eqb x) l.

(** Line feed and the texts built with it. *)
Definition LF : ascii := ascii_of_nat 10.
Definition nl : string := String LF EmptyString.

(** [sep.join(l)]. *)
Fixpoint join (sep : string) (l : list string) : string :=
  match l with
  | [] => EmptyString
  | [x] => x
  | x :: r => x ++ sep ++ join sep r
  end.

(** A text given line by line. *)
Definition text (ls : list string) : string := join nl ls.

End PyStr.

(* ===================================================================== *)
(** ** The outside world and the script monad *)
(* ===================================================================== *)

Module Proc.

(** What [subprocess.run] is given: an argument vector, or one line for the
    shell ([shell=True]). *)
Inductive Command :=
| Argv (args : list string)
| Shell (line : string).

(** [subprocess.CompletedProcess]. *)
Record CompletedProcess := Completed {
  returncode : Z;
  stdout : string;
  stderr : string
}.

Inductive Level := DEBUG | INFO | ERROR.

(** File-system and repository operations of [os], [shutil], [pathlib] and
    [git]; each one succeeds or fails (a test answers yes or no). *)
Inductive FsOp :=
| Makedirs (path : string)
| Chdir (path : string)
| Exists (path : string)
| IsFile (path : string)
| Copy (src dst : string)
| Rmtree (path : string)
| CloneFrom (url dir : string).

(** One interaction of a script with the outside. *)
Inductive Event :=
| EvRun (c : Command) (r : CompletedProcess)
| EvInput (prompt : string) (answer : option string)
| EvSleep (secs : Z)
| EvLog (lvl : Level) (msg : string)
| EvPrint (msg : string)
| EvUser (name : string)
| EvTemp (path : string)
| EvFs (op : FsOp) (ok : bool).

(** The history of a process, oldest event first. *)
Definition Trace := list Event.

(** The outside world answers each request knowing everything that happened
    before. A started subprocess always completes with an exit status and
    its output; the operator's terminal yields a line or is at end of
    input. *)
Record World := {
  subprocess_result : Trace -> Command -> CompletedProcess;
  terminal_line : Trace -> string -> option string;
  user_name : Trace -> string;
  temp_path : Trace -> string;
  fs_result : Trace -> FsOp -> bool
}.

(** The Python exceptions the scripts meet. [SystemExit] is not one of
    them: no handler of the scripts catches it, and it is the outcome
    [Exited]. *)
Inductive Exn :=
| CalledProcessError (c : Command) (rc : Z)
| GitCommandError
| OSError
| ValueError
| EOFError.

(** [isinstance(e, subprocess.CalledProcessError)]. *)
Definition is_CalledProcessError (e : Exn) : bool :=
  match e with CalledProcessError _ _ => true | _ => false end.

Definition is_GitCommandError (e : Exn) : bool :=
  match e with GitCommandError => true | _ => false end.

Definition is_EOFError (e : Exn) : bool :=
  match e with EOFError => true | _ => false end.

(** [isinstance(e, Exception)]: every exception modelled here. *)
Definition is_Exception (e : Exn) : bool := true.

(** The text of an exception in a message, shortened to its class. *)
Definition str_exn (e : Exn) : string :=
  match e with
  | CalledProcessError _ _ => "CalledProcessError"
  | GitCommandError => "GitCommandError"
  | OSError => "OSError"
  | ValueError => "ValueError"
  | EOFError => "EOFError"
  end.

(** How a piece of script ends: it returns a value, raises, leaves the
    process with [sys.exit], or is still running when the fuel given to an
    unbounded loop is used up. *)
Inductive Outcome (A : Type) :=
| Returned (a : A)
| Raised (e : Exn)
| Exited (code : Z)
| OutOfFuel.
Arguments Returned {A} a.
Arguments Raised {A} e.
Arguments Exited {A} code.
Arguments OutOfFuel {A}.

Definition Script (A : Type) := Trace -> Outcome A * Trace.

Definition ret {A} (a : A) : Script A := fun t => (Returned a, t).

Definition bind {A B} (m : Script A) (k : A -> Script B) : Script B :=
  fun t =>
    match m t with
    | (Returned a, t') => k a t'
    | (Raised e, t') => (Raised e, t')
    | (Exited c, t') => (Exited c, t')
    | (OutOfFuel, t') => (OutOfFuel, t')
    end.

Definition raise {A} (e : Exn) : Script A := fun t => (Raised e, t).

Definition sys_exit {A} (code : Z) : Script A := fun t => (Exited code, t).

Definition out_of_fuel {A} : Script A := fun t => (OutOfFuel, t).

(** [try: body / except <catches> as e: handler e]. *)
Definition try_except {A} (body : Script A) (catches : Exn -> bool)
    (handler : Exn -> Script A) : Script A :=
  fun t =>
    match body t with
    | (Raised e, t') => if catches e then handler e t' else (Raised e, t')
    | r => r
    end.

Definition emit (e : Event) : Script unit := fun t => (Returned tt, (t ++ [e])%list).

Declare Scope script_scope.
Delimit Scope script_scope with script.
Notation "x <- m ;; k" := (bind m (fun x => k))
  (at level 61, m at next level, right associativity) : script_scope.
Notation "m ;; k" := (bind m (fun _ => k))
  (at level 61, right associativity) : script_scope.
Local Open Scope script_scope.

(** [logger.<level>(msg)] and [print(msg)]. *)
Definition log (lvl : Level) (msg : string) : Script unit := emit (EvLog lvl msg).
Definition print (msg : string) : Script unit := emit (EvPrint msg).

(** [time.sleep(secs)]: a negative length is a [ValueError]. *)
Definition sleep (secs : Z) : Script unit :=
  if (secs <? 0)%Z then raise ValueError else emit (EvSleep secs).

(** [str(n)] for an integer. *)
Definition str_Z (n : Z) : string := NilZero.string_of_int (Z.to_int n).

(** [str(l)] for a list of strings without quotes or backslashes. *)
Definition repr_list (l : list string) : string :=
  "[" ++ PyStr.join ", " (map (fun s => "'" ++ s ++ "'") l) ++ "]".

Section WithWorld.
Variable w : World.

(** [subprocess.run(cmd, check=check)]: with [check], a non-zero exit
    status raises [CalledProcessError]. *)
Definition subprocess_run (c : Command) (check : bool) : Script CompletedProcess :=
  fun t =>
    let r := subprocess_result w t c in
    let t' := (t ++ [EvRun c r])%list in
    if check && negb (returncode r =? 0)%Z
    then (Raised (CalledProcessError c (returncode r)), t')
    else (Returned r, t').

(** [input(prompt)]: end of input raises [EOFError]. *)
Definition input (prompt : string) : Script string :=
  fun t =>
    let a := terminal_line w t prompt in
    let t' := (t ++ [EvInput prompt a])%list in
    match a with
    | Some line => (Returned line, t')
    | None => (Raised EOFError, t')
    end.

(** [getpass.getuser()], [pwd.getpwuid(os.getuid()).pw_name]. *)
Definition getuser : Script string :=
  fun t => let u := user_name w t in (Returned u, (t ++ [EvUser u])%list).

(** [tempfile.mkdtemp()]. *)
Definition mkdtemp : Script string :=
  fun t => let d := temp_path w t in (Returned d, (t ++ [EvTemp d])%list).

(** A file-system test such as [os.path.exists]. *)
Definition fs_test (op : FsOp) : Script bool :=
  fun t => let b := fs_result w t op in (Returned b, (t ++ [EvFs op b])%list).

(** A file-system action: [raises] is the exception of its failure. *)
Definition fs_do (op : FsOp) (raises : Exn) : Script unit :=
  fun t =>
    let b := fs_result w t op in
    let t' := (t ++ [EvFs op b])%list in
    if b then (Returned tt, t') else (Raised raises, t').

End WithWorld.

(** [[f for f in files if not test(f)]]: the tests run in order. *)
Fixpoint missing_of (test : string -> Script bool) (files : list string)
  : Script (list string) :=
  match files with
  | [] => ret []
  | f :: rest =>
      present <- test f ;;
      missing <- missing_of test rest ;;
      ret (if present then missing else f :: missing)
  end.

(** The calls of [kubectl apply] in a history. *)
Definition is_apply (e : Event) : bool :=
  match e with
  | EvRun (Argv (prog :: verb :: _)) _ => PyStr.eqb prog "kubectl" && PyStr.eqb verb "apply"
  | _ => false
  end.

Definition apply_calls (t : Trace) : nat := length (filter is_apply t).

(** The commands run in a history, in order. *)
Fixpoint commands (t : Trace) : list Command :=
  match t with
  | [] => []
  | EvRun c _ :: r => c :: commands r
  | _ :: r => commands r
  end.

End Proc.

Import Proc.
Local Open Scope script_scope.
Local Open Scope Z_scope.

(* ===================================================================== *)
(** ** deploy_kafka.py *)
(* ===================================================================== *)

Module Kafka.

Definition NAMESPACE : string := "streaming".
Definition TOPIC_NAME : string := "ecom_transactions".

Definition KAFKA_EXEC_CMD : list string :=
  ["kubectl"; "exec"; "-n"; NAMESPACE; "kafka-0"; "--";
   "kafka-topics"; "--create";
   "--topic"; TOPIC_NAME;
   "--bootstrap-server"; "kafka.streaming.svc.cluster.local:9092";
   "--replication-factor"; "1";
   "--partitions"; "1"].

(** The READY column ["x/y"] as two integers:
    [ready_num, ready_den = map(int, ready.split('/'))]; [None] is the
    [ValueError] of a text that is not two integers around one slash. *)
Definition parse_ready (ready : string) : option (Z * Z) :=
  match PyStr.split_on "/" ready with
  | [a; b] =>
      match PyStr.int a, PyStr.int b with
      | Some x, Some y => Some (x, y)
      | _, _ => None
      end
  | _ => None
  end.

(** The readiness test of one line of the pod listing, as the loop of
    [wait_for_pods] applies it: [None] for a line with fewer than two
    columns (skipped), otherwise whether the pod counts as ready. *)
Definition line_ready (line : string) : option bool :=
  let parts := PyStr.split line in
  if (length parts <? 2)%nat then None
  else match parse_ready (nth 1 parts "") with
       | None => Some false
       | Some (ready_num, ready_den) => Some (ready_num =? ready_den)
       end.

(** The value of [all_ready] after the loop over the lines. *)
Fixpoint all_ready_after (lines : list string) (all_ready : bool) : bool :=
  match lines with
  | [] => all_ready
  | line :: rest =>
      match line_ready line with
      | Some false => all_ready_after rest false
      | _ => all_ready_after rest all_ready
      end
  end.

(** A poll of [wait_for_pods] ends the wait iff this holds of the trimmed
    output of the listing. *)
Definition poll_ready (output : string) : bool :=
  PyStr.truthy output && all_ready_after (PyStr.splitlines output) true.

Definition NAMESPACE_DIR : string := "/opt/minikube/namespaces/streaming".
Definition REQUIRED_FILES : list string := ["kafka.yaml"; "redpanda.yaml"].
Definition GITHUB_REPO : string := "https://github.com/TechSavvyRC/streaming.git".

(** The loop over [data_lines] in step 5 of [deploy_kafka_and_redpanda]:
    whether [extraneous] is set. *)
Fixpoint extraneous_in (data_lines : list string) : bool :=
  match data_lines with
  | [] => false
  | line :: rest =>
      if negb (existsb (fun app => PyStr.contains app line) ["kafka"; "redpanda"])
      then true
      else extraneous_in rest
  end.

Definition rule : string := String.concat "" (repeat "-" 97).

Section WithWorld.
Variable w : World.

(** [run_command(logger, cmd, check=check)]. The handler of [Exception]
    around [subprocess.run] is never entered: a started subprocess
    completes. *)
Definition run_command (cmd : string) (check : bool) : Script string :=
  log INFO ("Executing command: " ++ cmd) ;;
  result <- subprocess_run w (Shell cmd) false ;;
  if check && negb (returncode result =? 0) then
    log ERROR ("Command failed with code " ++ str_Z (returncode result) ++ ": "
               ++ cmd ++ PyStr.nl ++ "Stdout: " ++ stdout result ++ PyStr.nl
               ++ "Stderr: " ++ stderr result) ;;
    sys_exit 1
  else ret (PyStr.strip (stdout result)).

(** The body of [for line in lines] in [wait_for_pods], threading
    [all_ready]. *)
Fixpoint check_lines (lines : list string) (all_ready : bool) : Script bool :=
  match lines with
  | [] => ret all_ready
  | line :: rest =>
      let parts := PyStr.split line in
      if (length parts <? 2)%nat then check_lines rest all_ready
      else
        let ready := nth 1 parts "" in
        match parse_ready ready with
        | None =>
            log ERROR ("Pod '" ++ nth 0 parts "" ++ "' has an unexpected READY format: '"
                       ++ ready ++ "'. Full details: " ++ line) ;;
            check_lines rest false
        | Some (ready_num, ready_den) =>
            if negb (ready_num =? ready_den) then
              log ERROR ("Pod '" ++ nth 0 parts "" ++ "' is not ready: READY state is '"
                         ++ ready ++ "'. Full details: " ++ line) ;;
              check_lines rest false
            else check_lines rest all_ready
        end
  end.

Definition get_pods (namespace : string) : string :=
  "kubectl get pods -n " ++ namespace ++ " --no-headers".

(** [while elapsed < timeout: ...] of [wait_for_pods]; one unit of fuel
    per test of the loop condition. *)
Fixpoint wait_loop (fuel : nat) (namespace : string) (timeout interval elapsed : Z)
  : Script bool :=
  match fuel with
  | O => out_of_fuel
  | S fuel' =>
      if elapsed <? timeout then
        output <- run_command (get_pods namespace) false ;;
        all_ready <- (if PyStr.truthy output
                      then check_lines (PyStr.splitlines output) true
                      else ret false) ;;
        if PyStr.truthy output && all_ready then
          log INFO "All pods are ready (all containers in each pod are running)." ;;
          ret true
        else
          sleep interval ;;
          wait_loop fuel' namespace timeout interval (elapsed + interval)
      else
        log ERROR "Timeout reached waiting for pods to be ready." ;;
        sys_exit 1
  end.

(** [wait_for_pods(logger, namespace, timeout=300, interval=10)]. *)
Definition wait_for_pods (fuel : nat) (namespace : string) (timeout interval : Z)
  : Script bool :=
  log INFO "Waiting for Streaming pods to be in Ready state (all containers ready)..." ;;
  wait_loop fuel namespace timeout interval 0.

(** The [for filename in missing_files] loop of [fetch_missing_files]. *)
Fixpoint copy_missing (temp_dir repo_dir : string) (missing_files : list string)
  : Script unit :=
  match missing_files with
  | [] => ret tt
  | filename :: rest =>
      let src_file := repo_dir ++ "/" ++ filename in
      let dest_file := NAMESPACE_DIR ++ "/" ++ filename in
      present <- fs_test w (Exists src_file) ;;
      if present then
        try_except
          (fs_do w (Copy src_file dest_file) OSError ;;
           log DEBUG ("Copied '" ++ filename ++ "' to namespace directory."))
          is_Exception
          (fun e =>
             log ERROR ("Failed to copy '" ++ filename ++ "': " ++ str_exn e) ;;
             fs_do w (Rmtree temp_dir) OSError ;;
             sys_exit 1) ;;
        copy_missing temp_dir repo_dir rest
      else
        log ERROR ("File '" ++ filename ++ "' not found in the cloned repository.") ;;
        fs_do w (Rmtree temp_dir) OSError ;;
        sys_exit 1
  end.

Definition fetch_missing_files (missing_files : list string) : Script unit :=
  log INFO ("Missing files detected (" ++ PyStr.join ", " missing_files
            ++ "). Fetching from repository...") ;;
  temp_dir <- mkdtemp w ;;
  let repo_dir := temp_dir ++ "/streaming" in
  try_except
    (subprocess_run w (Argv ["git"; "clone"; GITHUB_REPO; repo_dir]) true ;;
     log DEBUG ("Cloned repository into temporary directory '" ++ repo_dir ++ "'."))
    is_CalledProcessError
    (fun e =>
       log ERROR ("Failed to clone repository: " ++ str_exn e) ;;
       fs_do w (Rmtree temp_dir) OSError ;;
       sys_exit 1) ;;
  copy_missing temp_dir repo_dir missing_files ;;
  fs_do w (Rmtree temp_dir) OSError ;;
  log INFO "Successfully fetched missing files.".

(** The [while True] loop of step 6: one unit of fuel per prompt. *)
Fixpoint ask_choice (fuel : nat) : Script string :=
  match fuel with
  | O => out_of_fuel
  | S fuel' =>
      choice <- try_except
                  (answer <- input w "Enter your choice (1 or 2): " ;;
                   ret (PyStr.strip answer))
                  is_EOFError
                  (fun _ => log ERROR "No input provided. Exiting." ;; sys_exit 1) ;;
      if PyStr.mem choice ["1"; "2"] then ret choice
      else
        log INFO "Invalid input. Please enter 1 or 2." ;;
        ask_choice fuel'
  end.

(** The [for i in range(30)] loop of step 7, by the number of rounds left. *)
Fixpoint poll_deleted (left : nat) : Script unit :=
  match left with
  | O => ret tt
  | S left' =>
      sleep 2 ;;
      result <- subprocess_run w (Argv ["kubectl"; "get"; "namespace"; NAMESPACE]) false ;;
      if negb (returncode result =? 0)
      then log DEBUG ("Namespace '" ++ NAMESPACE ++ "' deleted.")
      else poll_deleted left'
  end.

(** Step 7: the namespace is deleted and created again. *)
Definition recreate_namespace : Script unit :=
  log INFO ("Deleting namespace '" ++ NAMESPACE ++ "'...") ;;
  try_except
    (subprocess_run w (Argv ["kubectl"; "delete"; "namespace"; NAMESPACE]) true ;;
     poll_deleted 30 ;;
     subprocess_run w (Argv ["kubectl"; "create"; "namespace"; NAMESPACE]) true ;;
     log INFO ("Namespace '" ++ NAMESPACE ++ "' re-created for fresh deployment."))
    is_CalledProcessError
    (fun e =>
       log ERROR ("Failed to delete or re-create namespace '" ++ NAMESPACE ++ "': "
                  ++ str_exn e) ;;
       sys_exit 1).

Definition log_resources (resources_output : string) : Script unit :=
  log INFO rule ;;
  log INFO "## Resources Running Under 'streaming' Namespace" ;;
  log INFO rule ;;
  log INFO resources_output ;;
  log INFO rule.

(** Steps 8 to 13. *)
Definition deploy_steps (fuel : nat) : Script unit :=
  log INFO "Deploying Kafka resource..." ;;
  try_except
    (subprocess_run w (Argv ["kubectl"; "apply"; "-f"; "kafka.yaml"; "-n"; NAMESPACE]) true ;;
     ret tt)
    is_CalledProcessError
    (fun e => log ERROR ("Failed to deploy Kafka resource: " ++ str_exn e) ;; sys_exit 1) ;;
  ready <- wait_for_pods fuel "streaming" 300 10 ;;
  (if negb ready then sys_exit 1 else ret tt) ;;
  log INFO ("Creating Kafka topic '" ++ TOPIC_NAME ++ "'...") ;;
  try_except
    (subprocess_run w (Argv KAFKA_EXEC_CMD) true ;;
     log INFO ("Kafka topic '" ++ TOPIC_NAME ++ "' created successfully."))
    is_CalledProcessError
    (fun e => log ERROR ("Failed to create Kafka topic: " ++ str_exn e) ;; sys_exit 1) ;;
  log INFO "Deploying Redpanda resource..." ;;
  try_except
    (subprocess_run w (Argv ["kubectl"; "apply"; "-f"; "redpanda.yaml"; "-n"; NAMESPACE]) true ;;
     ret tt)
    is_CalledProcessError
    (fun e => log ERROR ("Failed to deploy Redpanda resource: " ++ str_exn e) ;; sys_exit 1) ;;
  ready <- wait_for_pods fuel "streaming" 300 10 ;;
  (if negb ready then sys_exit 1 else ret tt) ;;
  try_except
    (result <- subprocess_run w
                 (Argv ["kubectl"; "get"; "all"; "-n"; NAMESPACE; "-o"; "wide"]) true ;;
     log_resources (PyStr.strip (stdout result)) ;;
     log INFO "Deployment under the 'streaming' namespace was successful.")
    is_CalledProcessError
    (fun e => log ERROR ("Failed to retrieve final resources: " ++ str_exn e) ;; sys_exit 1).

(** Steps 1 to 4. *)
Definition preconditions : Script unit :=
  try_except
    (fs_do w (Makedirs NAMESPACE_DIR) OSError ;;
     fs_do w (Chdir NAMESPACE_DIR) OSError ;;
     log DEBUG ("Namespace directory '" ++ NAMESPACE_DIR ++ "' is ready."))
    is_Exception
    (fun e =>
       log ERROR ("Failed to create or change directory to '" ++ NAMESPACE_DIR
                  ++ "': " ++ str_exn e) ;;
       sys_exit 1) ;;
  missing_files <- missing_of (fun f => fs_test w (Exists (NAMESPACE_DIR ++ "/" ++ f)))
                     REQUIRED_FILES ;;
  match missing_files with
  | [] => log DEBUG "All required files are present."
  | _ => fetch_missing_files missing_files
  end ;;
  try_except
    (result <- subprocess_run w (Argv ["minikube"; "status"]) true ;;
     if negb (PyStr.contains "Running" (stdout result)) then
       log INFO "Minikube is not running. Please start Minikube and try again." ;;
       sys_exit 0
     else log DEBUG "Minikube status: Running.")
    is_CalledProcessError
    (fun e => log ERROR ("Failed to get Minikube status: " ++ str_exn e) ;; sys_exit 1) ;;
  try_except
    (result <- subprocess_run w (Argv ["kubectl"; "get"; "namespace"; NAMESPACE]) false ;;
     if returncode result =? 0 then
       log DEBUG ("Namespace '" ++ NAMESPACE ++ "' exists.")
     else
       log INFO ("Namespace '" ++ NAMESPACE ++ "' does not exist. Creating...") ;;
       subprocess_run w (Argv ["kubectl"; "create"; "namespace"; NAMESPACE]) true ;;
       log INFO ("Namespace '" ++ NAMESPACE ++ "' created successfully."))
    is_CalledProcessError
    (fun e => log ERROR ("Error checking/creating namespace: " ++ str_exn e) ;; sys_exit 1).

(** Step 5: the listing of the namespace and the value of [extraneous]. *)
Definition inspect : Script (string * bool) :=
  resources_output <-
    try_except
      (result <- subprocess_run w (Argv ["kubectl"; "get"; "all"; "-n"; NAMESPACE]) true ;;
       ret (PyStr.strip (stdout result)))
      is_CalledProcessError
      (fun e =>
         log ERROR ("Error retrieving resources in namespace '" ++ NAMESPACE ++ "': "
                    ++ str_exn e) ;;
         sys_exit 1) ;;
  let resource_lines := PyStr.splitlines resources_output in
  if (length resource_lines <=? 1)%nat then
    log DEBUG ("No resources found in namespace '" ++ NAMESPACE
               ++ "'. Proceeding with deployment.") ;;
    ret (resources_output, false)
  else
    let extraneous := extraneous_in (tl resource_lines) in
    if negb extraneous then
      log_resources resources_output ;;
      log INFO "Expected resources already running. Exiting deployment script." ;;
      sys_exit 0
    else ret (resources_output, extraneous).

(** Step 6: the operator's choice. *)
Definition resolve (fuel : nat) (resources_output : string) (extraneous : bool)
  : Script string :=
  if extraneous then
    log INFO ("Unexpected resources found in namespace '" ++ NAMESPACE ++ "':") ;;
    log INFO rule ;;
    log INFO resources_output ;;
    log INFO rule ;;
    log INFO "Options:" ;;
    log INFO "1. Continue deployment without deleting the existing namespace." ;;
    log INFO "2. Delete the namespace and perform a fresh deployment." ;;
    ask_choice fuel
  else ret "1".

Definition deploy_kafka_and_redpanda (fuel : nat) : Script unit :=
  log INFO "Starting Kafka and Redpanda deployment script." ;;
  preconditions ;;
  found <- inspect ;;
  let '(resources_output, extraneous) := found in
  choice <- resolve fuel resources_output extraneous ;;
  (if extraneous && PyStr.eqb choice "2" then recreate_namespace else ret tt) ;;
  deploy_steps fuel.


End WithWorld.
End Kafka.

(* ===================================================================== *)
(** ** deploy_kubernetes_dashboard.py *)
(* ===================================================================== *)

Module Dashboard.

(** One line of the listing in [wait_for_pods]: skipped with fewer than two
    columns, otherwise ready iff the READY column is the text 1/1. *)
Definition line_ready (line : string) : option bool :=
  let parts := PyStr.split line in
  if (length parts <? 2)%nat then None
  else Some (PyStr.eqb (nth 1 parts "") "1/1").

Fixpoint all_ready_after (lines : list string) (all_ready : bool) : bool :=
  match lines with
  | [] => all_ready
  | line :: rest =>
      match line_ready line with
      | Some false => all_ready_after rest false
      | _ => all_ready_after rest all_ready
      end
  end.

Definition poll_ready (output : string) : bool :=
  PyStr.truthy output && all_ready_after (PyStr.splitlines output) true.

Section WithWorld.
Variable w : World.

(** [run_command(cmd, check=check)], with the module's logger. *)
Definition run_command (cmd : string) (check : bool) : Script string :=
  log INFO ("Executing command: " ++ cmd) ;;
  result <- subprocess_run w (Shell cmd) false ;;
  if check && negb (returncode result =? 0) then
    log ERROR ("Command failed with code " ++ str_Z (returncode result) ++ ": "
               ++ cmd ++ PyStr.nl ++ "Stdout: " ++ stdout result ++ PyStr.nl
               ++ "Stderr: " ++ stderr result) ;;
    sys_exit 1
  else ret (PyStr.strip (stdout result)).

Fixpoint check_lines (lines : list string) (all_ready : bool) : Script bool :=
  match lines with
  | [] => ret all_ready
  | line :: rest =>
      let parts := PyStr.split line in
      if (length parts <? 2)%nat then check_lines rest all_ready
      else
        let ready := nth 1 parts "" in
        if negb (PyStr.eqb ready "1/1") then
          log ERROR ("Pod '" ++ nth 0 parts "" ++ "' is not ready: READY state is '"
                     ++ ready ++ "'. Full details: " ++ line) ;;
          check_lines rest false
        else check_lines rest all_ready
  end.

Definition get_pods (namespace : string) : string :=
  "kubectl get pods -n " ++ namespace ++ " --no-headers".

Fixpoint wait_loop (fuel : nat) (namespace : string) (timeout interval elapsed : Z)
  : Script unit :=
  match fuel with
  | O => out_of_fuel
  | S fuel' =>
      if elapsed <? timeout then
        output <- run_command (get_pods namespace) false ;;
        all_ready <- (if PyStr.truthy output
                      then check_lines (PyStr.splitlines output) true
                      else ret false) ;;
        if PyStr.truthy output && all_ready then
          log INFO "All pods are ready (READY: 1/1)."
        else
          sleep interval ;;
          wait_loop fuel' namespace timeout interval (elapsed + interval)
      else
        log ERROR "Timeout reached waiting for pods to be ready." ;;
        sys_exit 1
  end.

(** [wait_for_pods(namespace, timeout=300, interval=150)]. *)
Definition wait_for_pods (fuel : nat) (namespace : string) (timeout interval : Z)
  : Script unit :=
  log INFO "Waiting for all Kubernetes Dashboard pods to be in Ready state (READY: 1/1)..." ;;
  wait_loop fuel namespace timeout interval 0.

(** A decimal digit, as [\d] matches it. *)
Definition isdigit (c : ascii) : bool :=
  match PyStr.digit_val c with Some _ => true | None => false end.

(** The longest run of digits at the start of a text, and what follows. *)
Fixpoint span_digits (s : string) : string * string :=
  match s with
  | EmptyString => (EmptyString, EmptyString)
  | String c r =>
      if isdigit c then let (d, rest) := span_digits r in (String c d, rest)
      else (EmptyString, s)
  end.

(** The pattern [:(\d+)/TCP] at the start of a text: the digits matched. *)
Definition match_port (s : string) : option string :=
  match s with
  | String ":"%char r =>
      let (d, rest) := span_digits r in
      if PyStr.truthy d && PyStr.startswith rest "/TCP" then Some d else None
  | _ => None
  end.

(** [re.search(r":(\d+)/TCP", output)]: group 1 of the leftmost match. *)
Fixpoint search_port (output : string) : option string :=
  match match_port output with
  | Some d => Some d
  | None =>
      match output with
      | EmptyString => None
      | String _ r => search_port r
      end
  end.

(** [extract_nodeport(namespace)]. *)
Definition extract_nodeport (namespace : string) : Script string :=
  log INFO "Extracting NodePort from service 'kubernetes-dashboard-kong-proxy'..." ;;
  output <- run_command ("kubectl get svc -n " ++ namespace
                         ++ " kubernetes-dashboard-kong-proxy") true ;;
  match search_port output with
  | Some nodeport =>
      log INFO ("Extracted NodePort: " ++ nodeport) ;;
      ret nodeport
  | None =>
      log ERROR "Failed to extract NodePort from service output." ;;
      sys_exit 1
  end.

(** [check_and_create_sa_and_binding(namespace)]. *)
Definition check_and_create_sa_and_binding (namespace : string) : Script unit :=
  sa_check <- subprocess_run w
                (Shell ("kubectl get sa dashboard-admin-sa -n " ++ namespace)) false ;;
  (if negb (returncode sa_check =? 0) then
     log INFO "ServiceAccount 'dashboard-admin-sa' not found. Creating..." ;;
     run_command ("kubectl create serviceaccount dashboard-admin-sa -n " ++ namespace) true ;;
     ret tt
   else log INFO "ServiceAccount 'dashboard-admin-sa' already exists.") ;;
  crb_check <- subprocess_run w
                 (Shell "kubectl get clusterrolebinding dashboard-admin-sa") false ;;
  if negb (returncode crb_check =? 0) then
    log INFO "ClusterRoleBinding 'dashboard-admin-sa' not found. Creating..." ;;
    run_command "kubectl create clusterrolebinding dashboard-admin-sa --clusterrole=cluster-admin --serviceaccount=kubernetes-dashboard:dashboard-admin-sa" true ;;
    ret tt
  else log INFO "ClusterRoleBinding 'dashboard-admin-sa' already exists.".

Definition yaml_files : list string :=
  ["kubernetes-dashboard-ingress.yaml"; "kubernetes-dashboard-secret.yaml"].

(** The second loop of [verify_and_apply_yaml]. *)
Fixpoint apply_yaml (files : list string) : Script unit :=
  match files with
  | [] => ret tt
  | f :: rest =>
      log INFO ("Applying YAML file: " ++ f) ;;
      run_command ("kubectl apply -f " ++ f) true ;;
      apply_yaml rest
  end.

(** [verify_and_apply_yaml()]. *)
Definition verify_and_apply_yaml : Script unit :=
  missing <- missing_of (fun f => fs_test w (IsFile f)) yaml_files ;;
  match missing with
  | [] => apply_yaml yaml_files
  | _ =>
      log ERROR ("Missing YAML file(s): " ++ PyStr.join ", " missing ++ ". Exiting.") ;;
      sys_exit 1
  end.

(** [restart_ingress()]. *)
Definition restart_ingress : Script unit :=
  log INFO "Restarting Nginx Ingress Pods..." ;;
  run_command "kubectl rollout restart deployment ingress-nginx-controller -n ingress-nginx" true ;;
  ret tt.


End WithWorld.
End Dashboard.

(* ===================================================================== *)
(** ** deploy_mysql.py: class DeploymentManager *)
(* ===================================================================== *)

Module Mysql.

Definition namespace_dir : string := "/opt/minikube/namespaces/database".
Definition required_files : list string :=
  ["debug-pod.yaml"; "init-db.sql"; "mysql.yaml"; "phpmyadmin.yaml"].
Definition github_repo : string := "https://github.com/TechSavvyRC/database.git".

(** The loop of [check_existing_resources] over the lines, with its
    [continue] and [break]: whether [unexpected] is set. *)
Fixpoint unexpected_in (lines : list string) : bool :=
  match lines with
  | [] => false
  | line :: rest =>
      if existsb (fun x => PyStr.contains x (PyStr.lower line)) ["mysql"; "phpmyadmin"]
      then unexpected_in rest
      else if PyStr.truthy line && negb (PyStr.startswith line "NAME") then true
      else unexpected_in rest
  end.

(** [check_existing_resources] on the text of the listing. *)
Definition classify (resources : string) : string :=
  if negb (PyStr.truthy resources) then "empty"
  else if unexpected_in (PyStr.split_on PyStr.LF resources) then "mixed"
  else if PyStr.contains "mysql" (PyStr.lower resources)
          || PyStr.contains "phpmyadmin" (PyStr.lower resources)
       then "expected"
  else "empty".

(** The test of the answer in [run]: [response.lower() == 'yes']. *)
Definition wants_delete (response : string) : bool :=
  PyStr.eqb (PyStr.lower response) "yes".

Section WithWorld.
Variable w : World.

Definition print_message (message : string) (level : Level) : Script unit :=
  log level message.

Definition handle_kubectl_output (output : string) : Script unit :=
  if PyStr.truthy (PyStr.strip output)
  then print_message (PyStr.strip output) INFO
  else ret tt.

Definition verify_user : Script unit :=
  current_user <- getuser w ;;
  if negb (PyStr.eqb current_user "muser") then
    print_message ("Error: This script must be run by 'muser'. Current user: "
                   ++ current_user) ERROR ;;
    sys_exit 1
  else ret tt.

Definition verify_directories : Script unit :=
  fs_do w (Makedirs namespace_dir) OSError ;;
  fs_do w (Chdir namespace_dir) OSError.

Definition verify_files : Script unit :=
  missing_files <- missing_of (fun f => fs_test w (Exists (namespace_dir ++ "/" ++ f)))
                     required_files ;;
  match missing_files with
  | [] => ret tt
  | _ =>
      print_message ("Missing files: " ++ repr_list missing_files
                     ++ ". Fetching from GitHub...") INFO ;;
      try_except
        (fs_do w (CloneFrom github_repo namespace_dir) GitCommandError ;;
         print_message "Successfully fetched files from GitHub" INFO)
        is_GitCommandError
        (fun e =>
           print_message ("Error fetching files: " ++ str_exn e) ERROR ;;
           sys_exit 1)
  end.

Definition check_minikube_status : Script unit :=
  try_except
    (result <- subprocess_run w (Argv ["minikube"; "status"]) false ;;
     if negb (PyStr.contains "Running" (stdout result)) then
       print_message "Error: Minikube is not running. Please start Minikube first." ERROR ;;
       sys_exit 1
     else ret tt)
    is_CalledProcessError
    (fun _ =>
       print_message "Error: Failed to check Minikube status" ERROR ;;
       sys_exit 1).

Definition manage_namespace : Script unit :=
  try_except
    (result <- subprocess_run w (Argv ["kubectl"; "get"; "namespace"; "database"]) false ;;
     if negb (returncode result =? 0) then
       subprocess_run w (Argv ["kubectl"; "create"; "namespace"; "database"]) true ;;
       print_message "Created database namespace" INFO
     else
       print_message "Database namespace already exists" INFO)
    is_CalledProcessError
    (fun e =>
       print_message ("Error managing namespace: " ++ str_exn e) ERROR ;;
       sys_exit 1).

Definition get_namespace_resources : Script string :=
  try_except
    (result <- subprocess_run w (Argv ["kubectl"; "get"; "all"; "-n"; "database"]) true ;;
     ret (stdout result))
    is_CalledProcessError
    (fun _ => ret "").

Definition separator : string := String.concat "" (repeat "-" 98).

Definition display_resources : Script unit :=
  resources <- get_namespace_resources ;;
  print_message (PyStr.nl ++ separator) INFO ;;
  print_message "## Resources Running Under 'database' Namespace" INFO ;;
  print_message separator INFO ;;
  print_message resources INFO ;;
  print_message (separator ++ PyStr.nl) INFO.

Definition check_existing_resources : Script string :=
  resources <- get_namespace_resources ;;
  ret (classify resources).

(** [while attempts < max_attempts] of [wait_for_pods_ready], by the
    number of attempts left. *)
Fixpoint wait_attempts (left : nat) (app_label : string) : Script bool :=
  match left with
  | O => ret false
  | S left' =>
      running <-
        try_except
          (result <- subprocess_run w
             (Argv ["kubectl"; "get"; "pods"; "-n"; "database"; "-l"; "app=" ++ app_label;
                    "-o"; "custom-columns=:status.phase"]) true ;;
           ret (PyStr.contains "Running" (stdout result)))
          is_CalledProcessError
          (fun _ => ret false) ;;
      if running then ret true
      else sleep 10 ;; wait_attempts left' app_label
  end.

Definition wait_for_pods_ready (app_label : string) : Script bool :=
  wait_attempts 30 app_label.

Definition deploy_resources (delete_namespace : bool) : Script unit :=
  (if delete_namespace then
     result <- subprocess_run w (Argv ["kubectl"; "delete"; "namespace"; "database"]) true ;;
     handle_kubectl_output (stdout result) ;;
     sleep 10 ;;
     manage_namespace
   else ret tt) ;;
  result <- subprocess_run w
              (Argv ["kubectl"; "apply"; "-f"; "mysql.yaml"; "-n"; "database"]) true ;;
  handle_kubectl_output (stdout result) ;;
  ready <- wait_for_pods_ready "mysql" ;;
  (if negb ready then
     print_message "Error: MySQL pods failed to reach ready state" ERROR ;;
     sys_exit 1
   else ret tt) ;;
  result <- subprocess_run w
              (Argv ["kubectl"; "apply"; "-f"; "phpmyadmin.yaml"; "-n"; "database"]) true ;;
  handle_kubectl_output (stdout result) ;;
  ready <- wait_for_pods_ready "phpmyadmin" ;;
  if negb ready then
    print_message "Error: PhpMyAdmin pods failed to reach ready state" ERROR ;;
    sys_exit 1
  else ret tt.

(** [run] from the classification on. *)
Definition reconcile (resource_status : string) : Script unit :=
  if PyStr.eqb resource_status "expected" then
    print_message "Current resources in database namespace:" INFO ;;
    display_resources ;;
    print_message "Deployment already exists with expected resources" INFO
  else
    (if PyStr.eqb resource_status "mixed" then
       print_message "Found existing resources in database namespace:" INFO ;;
       display_resources ;;
       response <- input w "Do you want to delete the namespace and start fresh? (yes/no): " ;;
       if wants_delete response
       then deploy_resources true
       else deploy_resources false
     else deploy_resources false) ;;
    print_message "Final deployment status:" INFO ;;
    display_resources ;;
    print_message "Deployment completed successfully" INFO.

(** The steps of [run] before the inspection of the namespace. *)
Definition preconditions : Script unit :=
  verify_user ;;
  verify_directories ;;
  verify_files ;;
  check_minikube_status ;;
  manage_namespace.

Definition run : Script unit :=
  preconditions ;;
  resource_status <- check_existing_resources ;;
  reconcile resource_status.


End WithWorld.
End Mysql.

(* ===================================================================== *)
(** ** deploy_ecom_app.py *)
(* ===================================================================== *)

Module Ecom.

Definition BASE_DIR : string := "/opt/minikube/namespaces/application/".
Definition REQUIRED_FILES : list string :=
  ["Dockerfile"; "ecom_app.yaml"; "ecom_transactions.py"; "debug_pod.yaml"].
Definition GIT_REPO_URL : string := "https://github.com/TechSavvyRC/application.git".

(** The loop of [resources_belong_to_app] over the lines. *)
Fixpoint lines_belong_to_app (lines : list string) : bool :=
  match lines with
  | [] => true
  | line :: rest =>
      if PyStr.startswith line "NAME" then lines_belong_to_app rest
      else if PyStr.eqb (PyStr.strip line) "" then lines_belong_to_app rest
      else
        let name := nth 0 (PyStr.split line) "" in
        if negb (PyStr.contains "ecommerce-application" name) then false
        else lines_belong_to_app rest
  end.

Definition resources_belong_to_app (resources_output : string) : bool :=
  lines_belong_to_app (PyStr.splitlines resources_output).

(** The operator's answer as [manage_existing_resources] reads it. *)
Definition read_choice (answer : string) : string :=
  PyStr.lower (PyStr.strip answer).

Section WithWorld.
Variable w : World.

Definition check_user : Script unit :=
  user <- getuser w ;;
  if negb (PyStr.eqb user "muser") then
    log ERROR "This script must be executed by 'muser'." ;;
    sys_exit 1
  else log INFO "User check passed: running as 'muser'.".

Definition ensure_directory (directory : string) : Script unit :=
  present <- fs_test w (Exists directory) ;;
  if negb present then
    try_except
      (fs_do w (Makedirs directory) OSError ;;
       log INFO ("Created directory: " ++ directory))
      is_Exception
      (fun e =>
         log ERROR ("Failed to create directory " ++ directory ++ ": " ++ str_exn e) ;;
         sys_exit 1)
  else ret tt.

Definition change_directory (directory : string) : Script unit :=
  try_except
    (fs_do w (Chdir directory) OSError ;;
     log INFO ("Changed directory to " ++ directory))
    is_Exception
    (fun e =>
       log ERROR ("Failed to change directory to " ++ directory ++ ": " ++ str_exn e) ;;
       sys_exit 1).

(** [for file in REQUIRED_FILES] of [fetch_files]. *)
Fixpoint copy_fetched (temp_dir : string) (files : list string) : Script unit :=
  match files with
  | [] => ret tt
  | file :: rest =>
      let src := temp_dir ++ "/" ++ file in
      present <- fs_test w (IsFile src) ;;
      if present then
        fs_do w (Copy src ".") OSError ;;
        log INFO ("Fetched " ++ file ++ " from repository.") ;;
        copy_fetched temp_dir rest
      else
        log ERROR (file ++ " not found in repository.") ;;
        sys_exit 1
  end.

Definition fetch_files : Script unit :=
  let temp_dir := "temp_repo" in
  try_except
    (subprocess_run w (Argv ["git"; "clone"; GIT_REPO_URL; temp_dir]) true ;;
     copy_fetched temp_dir REQUIRED_FILES ;;
     fs_do w (Rmtree temp_dir) OSError)
    is_Exception
    (fun e =>
       log ERROR ("Failed to fetch files from GitHub: " ++ str_exn e) ;;
       sys_exit 1).

Definition verify_files : Script unit :=
  missing <- missing_of (fun f => fs_test w (IsFile f)) REQUIRED_FILES ;;
  match missing with
  | [] => log INFO "All required files are present."
  | _ =>
      log INFO ("Missing files: " ++ repr_list missing
                ++ ". Fetching from GitHub repository...") ;;
      fetch_files
  end.

Definition check_minikube_status : Script unit :=
  try_except
    (result <- subprocess_run w (Argv ["minikube"; "status"]) false ;;
     if negb (returncode result =? 0) || negb (PyStr.contains "Running" (stdout result)) then
       log ERROR "Minikube is not running. Please start Minikube (e.g. 'minikube start') and try again." ;;
       sys_exit 1
     else log INFO "Minikube status: Running")
    is_Exception
    (fun e =>
       log ERROR ("Error checking Minikube status: " ++ str_exn e) ;;
       sys_exit 1).

Definition ensure_namespace (namespace : string) : Script unit :=
  try_except
    (subprocess_run w (Argv ["kubectl"; "get"; "namespace"; namespace]) true ;;
     log INFO ("Namespace '" ++ namespace ++ "' exists."))
    is_CalledProcessError
    (fun _ =>
       log INFO ("Namespace '" ++ namespace ++ "' does not exist. Creating it...") ;;
       subprocess_run w (Argv ["kubectl"; "create"; "namespace"; namespace]) true ;;
       log INFO ("Namespace '" ++ namespace ++ "' created.")).

(** [subprocess.check_output] is [subprocess.run] with [check=True],
    returning the standard output. *)
Definition get_resources (namespace : string) : Script string :=
  try_except
    (result <- subprocess_run w (Argv ["kubectl"; "get"; "all"; "-n"; namespace]) true ;;
     ret (PyStr.strip (stdout result)))
    is_CalledProcessError
    (fun e =>
       log ERROR ("Error getting resources from namespace '" ++ namespace ++ "': "
                  ++ str_exn e) ;;
       ret "").

Definition rule : string := String.concat "" (repeat "-" 97).

Definition display_resources (resources_output : string) : Script unit :=
  print (rule ++ PyStr.nl ++ "## Resources Running Under Application Namespace"
         ++ PyStr.nl ++ rule) ;;
  print resources_output ;;
  print rule ;;
  log INFO "Displayed resources under the 'application' namespace.".

Definition deploy_resources : Script unit :=
  try_except
    (subprocess_run w (Argv ["kubectl"; "apply"; "-f"; "ecom_app.yaml"]) true ;;
     log INFO "Deployment command executed successfully.")
    is_CalledProcessError
    (fun e =>
       log ERROR ("Failed to deploy ecommerce application resource: " ++ str_exn e) ;;
       sys_exit 1).

(** [manage_existing_resources]: the value is Python's [None] (a plain
    [return]) or [True]. *)
Definition manage_existing_resources (namespace : string) : Script (option bool) :=
  resources_output <- get_resources namespace ;;
  if PyStr.truthy resources_output then
    if resources_belong_to_app resources_output then
      log INFO "All running resources belong to 'ecommerce-application'." ;;
      display_resources resources_output ;;
      log INFO "Exiting since application resources are already running." ;;
      ret None
    else
      print "Some resources are already running under the 'application' namespace:" ;;
      display_resources resources_output ;;
      answer <- input w "Enter 'continue' to deploy without deleting, or 'delete' to delete the namespace and deploy new resources: " ;;
      let choice := read_choice answer in
      if PyStr.eqb choice "delete" then
        log INFO "User opted to delete the namespace." ;;
        subprocess_run w (Argv ["kubectl"; "delete"; "namespace"; namespace]) true ;;
        sleep 5 ;;
        ensure_namespace namespace ;;
        ret (Some true)
      else if PyStr.eqb choice "continue" then
        log INFO "User opted to continue without deleting the namespace." ;;
        ret (Some true)
      else
        log INFO "Invalid selection. Exiting." ;;
        sys_exit 1
  else
    log INFO ("No resources found in namespace '" ++ namespace ++ "'.") ;;
    ret (Some true).

Definition display_deployed_resources (namespace : string) : Script unit :=
  resources_output <- get_resources namespace ;;
  if PyStr.truthy resources_output then display_resources resources_output
  else log INFO ("No resources found in namespace '" ++ namespace
                 ++ "' after deployment.").

(** The steps of [perform_installation] before the inspection. *)
Definition preconditions : Script unit :=
  check_user ;;
  ensure_directory BASE_DIR ;;
  change_directory BASE_DIR ;;
  verify_files ;;
  check_minikube_status ;;
  ensure_namespace "application".

(** [not x] for a value that is [None] or a boolean. *)
Definition falsy (x : option bool) : bool :=
  match x with Some true => false | _ => true end.

Definition perform_installation : Script unit :=
  preconditions ;;
  proceed <- manage_existing_resources "application" ;;
  if falsy proceed then ret tt
  else
    deploy_resources ;;
    display_deployed_resources "application" ;;
    log INFO "Ecommerce application resource deployment under the 'application' namespace is successful.".


End WithWorld.
End Ecom.

(* ===================================================================== *)
(** ** Worlds given by a script, and what is observed of a history *)
(* ===================================================================== *)

Module Scenario.

(** The seconds slept in a history. *)
Fixpoint slept (t : Trace) : Z :=
  match t with
  | [] => 0
  | EvSleep secs :: r => secs + slept r
  | _ :: r => slept r
  end.

Definition is_input (e : Event) : bool :=
  match e with EvInput _ _ => true | _ => false end.

Definition same_command (a b : Command) : bool :=
  match a, b with
  | Argv x, Argv y => if list_eq_dec string_dec x y then true else false
  | Shell x, Shell y => PyStr.eqb x y
  | _, _ => false
  end.

Definition is_run_of (c : Command) (e : Event) : bool :=
  match e with EvRun c' _ => same_command c c' | _ => false end.

(** How often [c] was run in a history. *)
Definition times_run (c : Command) (t : Trace) : nat :=
  length (filter (is_run_of c) t).

(** The number of pod listings of [namespace] in a history. *)
Definition polls (namespace : string) (t : Trace) : nat :=
  times_run (Shell (Kafka.get_pods namespace)) t.

(** The world in which the k-th run of a command completes as [respond]
    says, the operator answers the k-th prompt with [answers k] (or the
    terminal is at its end), the user is [user] and every file operation
    succeeds (every test says yes). *)
Definition scripted (respond : Command -> nat -> CompletedProcess)
    (answers : nat -> option string) (user : string) : World :=
  {| subprocess_result := fun t c => respond c (times_run c t);
     terminal_line := fun t _ => answers (length (filter is_input t));
     user_name := fun _ => user;
     temp_path := fun _ => "/tmp/tmp0";
     fs_result := fun _ _ => true |}.

(** The world of a snapshot sequence: the k-th listing of the pods of any
    namespace prints [snapshots k] and succeeds; nothing else prints. *)
Definition snapshot_world (snapshots : nat -> string) : World :=
  {| subprocess_result := fun t c =>
       match c with
       | Shell line => Completed 0 (snapshots (times_run c t)) ""
       | Argv _ => Completed 0 "" ""
       end;
     terminal_line := fun _ _ => None;
     user_name := fun _ => "muser";
     temp_path := fun _ => "/tmp/tmp0";
     fs_result := fun _ _ => true |}.

(** A listing in which every line has the READY column [ratio], and there
    is a line. *)
Definition shows_ratio (ratio : string) (listing : string) : Prop :=
  let lines := PyStr.splitlines (PyStr.strip listing) in
  lines <> [] /\
  Forall (fun line => exists name rest, PyStr.split line = name :: ratio :: rest) lines.

(** The output of the next listing, as [run_command] returns it. *)
Definition poll_output (w : World) (namespace : string) (t : Trace) : string :=
  PyStr.strip (stdout (subprocess_result w
    (t ++ [EvLog INFO ("Executing command: " ++ Kafka.get_pods namespace)])%list
    (Shell (Kafka.get_pods namespace)))).

Definition is_log (e : Event) : bool :=
  match e with EvLog _ _ => true | _ => false end.

(** *** The vocabulary of the specification *)

Inductive Classification := Empty | AllOwned | Mixed.

(** The classification of the specification, on the entries of a snapshot:
    Empty without entries, AllOwned when every entry satisfies the
    ownership predicate, Mixed otherwise. *)
Definition spec_classify (owned : string -> bool) (entries : list string)
  : Classification :=
  match entries with
  | [] => Empty
  | _ => if forallb owned entries then AllOwned else Mixed
  end.

(** The name of a resource: the first column of its line. *)
Definition name_of (line : string) : string := nth 0 (PyStr.split line) "".

(** deploy_mysql.py. The three ways [run] goes on the value of
    [check_existing_resources]. *)
Definition mysql_classification (resources : string) : Classification :=
  if PyStr.eqb (Mysql.classify resources) "expected" then AllOwned
  else if PyStr.eqb (Mysql.classify resources) "mixed" then Mixed
  else Empty.

(** The lines [check_existing_resources] takes for resources: not empty and
    not starting with NAME. *)
Definition mysql_entry (line : string) : bool :=
  PyStr.truthy line && negb (PyStr.startswith line "NAME").

Definition mysql_entries (resources : string) : list string :=
  filter mysql_entry (PyStr.split_on PyStr.LF resources).

(** Its ownership test, applied to a text. *)
Definition mysql_owned (s : string) : bool :=
  existsb (fun x => PyStr.contains x (PyStr.lower s)) ["mysql"; "phpmyadmin"].

(** deploy_ecom_app.py. The three ways [manage_existing_resources] goes on
    the trimmed listing. *)
Definition ecom_classification (resources_output : string) : Classification :=
  if PyStr.truthy resources_output then
    if Ecom.resources_belong_to_app resources_output then AllOwned else Mixed
  else Empty.

(** The lines [resources_belong_to_app] takes for resources: not starting
    with NAME and not blank. *)
Definition ecom_entry (line : string) : bool :=
  negb (PyStr.startswith line "NAME") && negb (PyStr.eqb (PyStr.strip line) "").

Definition ecom_entries (resources_output : string) : list string :=
  filter ecom_entry (PyStr.splitlines resources_output).

Definition ecom_owned (name : string) : bool :=
  PyStr.contains "ecommerce-application" name.

(** The number of rounds after which the time slept reaches [timeout]. *)
Definition rounds (timeout interval : Z) : nat :=
  Z.to_nat ((timeout + interval - 1) / interval).

(** The words deploy_mysql.py looks for occur somewhere in the text. *)
Definition mysql_mentions (resources : string) : bool :=
  PyStr.contains "mysql" (PyStr.lower resources)
  || PyStr.contains "phpmyadmin" (PyStr.lower resources).

(** *** Scripts all of whose events satisfy a test *)

(** Whatever the history and however it ends, the script only adds events,
    and each of them passes [P]. *)
Definition only (P : Event -> bool) {A : Type} (m : Script A) : Prop :=
  forall t, exists evs, snd (m t) = (t ++ evs)%list /\ forallb P evs = true.

Definition not_apply (e : Event) : bool := negb (is_apply e).

Definition any_event (e : Event) : bool := true.

(** The commands that change the namespace: [kubectl apply], [delete] and
    [create]. *)
Definition is_mutation (e : Event) : bool :=
  match e with
  | EvRun (Argv (prog :: verb :: _)) _ =>
      PyStr.eqb prog "kubectl" && PyStr.mem verb ["apply"; "delete"; "create"]
  | _ => false
  end.

Definition not_mutation (e : Event) : bool := negb (is_mutation e).

(** *** Commands and worlds of the examples *)

Definition mysql_get_all : Command := Argv ["kubectl"; "get"; "all"; "-n"; "database"].

Definition ecom_get_all (namespace : string) : Command :=
  Argv ["kubectl"; "get"; "all"; "-n"; namespace].

Definition mysql_apply (manifest : string) : Command :=
  Argv ["kubectl"; "apply"; "-f"; manifest; "-n"; "database"].

Definition mysql_prompt : string :=
  "Do you want to delete the namespace and start fresh? (yes/no): ".

(** Whether the arguments of a command start with [words]. *)
Definition starts_with (words : list string) (c : Command) : bool :=
  match c with
  | Argv args =>
      if list_eq_dec string_dec (firstn (length words) args) words then true else false
  | Shell _ => false
  end.

Definition ok (out : string) : CompletedProcess := Completed 0 out "".

(** A running cluster in which every command succeeds, the listing of all
    resources of any namespace prints [listing], the pods are reported
    Running and the operator answers the k-th prompt with [answers k]. *)
Definition cluster (listing : string) (answers : nat -> option string) : World :=
  scripted
    (fun c _ =>
       if starts_with ["minikube"; "status"] c then ok "host: Running"
       else if starts_with ["kubectl"; "get"; "all"] c then ok listing
       else if starts_with ["kubectl"; "get"; "pods"] c then ok "Running"
       else ok "")
    answers "muser".

(** The listing of the scenario of the specification: one foreign pod. *)
Definition foreign_listing : string :=
  PyStr.text ["NAME READY STATUS RESTARTS AGE"; "foo-bar 1/1 Running 0 5m"].

Definition get_namespace (namespace : string) : Command :=
  Argv ["kubectl"; "get"; "namespace"; namespace].

Definition create_namespace (namespace : string) : Command :=
  Argv ["kubectl"; "create"; "namespace"; namespace].

Definition delete_namespace (namespace : string) : Command :=
  Argv ["kubectl"; "delete"; "namespace"; namespace].

(** The world in which every command fails as when the cluster cannot be
    reached. *)
Definition unreachable : World :=
  scripted (fun _ _ => Completed 1 "" "Unable to connect to the server")
    (fun _ => None) "muser".

(** The world in which every command succeeds and prints nothing: the
    listing of an empty namespace. *)
Definition empty_namespace : World :=
  scripted (fun _ _ => Completed 0 "" "No resources found in database namespace.")
    (fun _ => None) "muser".

(** The world of a race: the namespace is not there when looked for, and
    is there when the script comes to create it. *)
Definition race : World :=
  scripted
    (fun c _ =>
       if starts_with ["kubectl"; "get"; "namespace"] c
       then Completed 1 "" "Error from server (NotFound): namespace not found"
       else if starts_with ["kubectl"; "create"; "namespace"] c
       then Completed 1 "" "Error from server (AlreadyExists): namespace already exists"
       else ok "")
    (fun _ => None) "muser".

(** A text of whitespace only (or empty). *)
Fixpoint blank (s : string) : bool :=
  match s with
  | EmptyString => true
  | String c r => PyStr.isspace c && blank r
  end.

(** Whether [c] was run in a history. *)
Definition ran (c : Command) (t : Trace) : bool :=
  existsb (same_command c) (commands t).

(** *** A cluster in which a deleted namespace lingers *)

Definition is_delete (e : Event) : bool :=
  match e with
  | EvRun c _ => starts_with ["kubectl"; "delete"; "namespace"] c
  | _ => false
  end.

Definition is_create (e : Event) : bool :=
  match e with
  | EvRun c _ => starts_with ["kubectl"; "create"; "namespace"] c
  | _ => false
  end.

(** The events after the last deletion of a namespace, if there is one. *)
Fixpoint since_delete (t : Trace) : option Trace :=
  match t with
  | [] => None
  | e :: r =>
      match since_delete r with
      | Some s => Some s
      | None => if is_delete e then Some r else None
      end
  end.

(** The history up to the first [kubectl apply]. *)
Fixpoint before_first_apply (t : Trace) : Trace :=
  match t with
  | [] => []
  | e :: r => if is_apply e then [] else e :: before_first_apply r
  end.

(** The deletion is complete once 15 seconds have been slept after it. *)
Definition gone (t : Trace) : bool :=
  match since_delete t with
  | Some s => 15 <=? slept s
  | None => false
  end.

Definition recreated (t : Trace) : bool :=
  match since_delete t with
  | Some s => existsb is_create s
  | None => false
  end.

(** The cluster: the namespace holds a foreign pod; [kubectl delete
    namespace] returns at once and the namespace, with the pod, stays for 15
    seconds; until then it is found by [kubectl get namespace], listed by
    [kubectl get all], and cannot be created. The pods asked for by the
    waiters are ready and running. *)
Definition lingering (answers : nat -> option string) : World :=
  {| subprocess_result := fun t c =>
       if starts_with ["minikube"; "status"] c then ok "host: Running"
       else if starts_with ["kubectl"; "get"; "namespace"] c then
         if gone t && negb (recreated t)
         then Completed 1 "" "Error from server (NotFound): namespace not found"
         else ok "NAME STATUS AGE"
       else if starts_with ["kubectl"; "create"; "namespace"] c then
         if gone t && negb (recreated t)
         then ok "namespace created"
         else Completed 1 "" "Error from server (AlreadyExists): namespace already exists"
       else if starts_with ["kubectl"; "get"; "all"] c then
         if gone t then ok "" else ok foreign_listing
       else if starts_with ["kubectl"; "get"; "pods"] c then ok "Running"
       else match c with
            | Shell _ => ok "kafka-0 1/1 Running 0 1m"
            | Argv _ => ok ""
            end;
     terminal_line := fun t _ => answers (length (filter is_input t));
     user_name := fun _ => "muser";
     temp_path := fun _ => "/tmp/tmp0";
     fs_result := fun _ _ => true |}.

(** A look at the namespace that did not find it. *)
Definition saw_absent (namespace : string) (e : Event) : bool :=
  match e with
  | EvRun c r => same_command (get_namespace namespace) c && negb (returncode r =? 0)
  | _ => false
  end.

(** *** How a script may end *)



Definition no_exn (e : Exn) : bool := false.



Definition no_status (c : Z) : bool := false.

(** The listing of the phases of the pods of an application in
    deploy_mysql.py. *)
Definition mysql_pods_phase (app_label : string) : Command :=
  Argv ["kubectl"; "get"; "pods"; "-n"; "database"; "-l"; "app=" ++ app_label;
        "-o"; "custom-columns=:status.phase"].

(** Whether a listing of phases succeeded and mentions Running. *)
Definition reports_running (r : CompletedProcess) : bool :=
  (returncode r =? 0) && PyStr.contains "Running" (stdout r).

(** The manifests applied in a history, in order, each with the exit
    status of its [kubectl apply]. *)
Fixpoint applied (t : Trace) : list (Command * Z) :=
  match t with
  | [] => []
  | e :: r =>
      match e with
      | EvRun c res => if is_apply e then (c, returncode res) :: applied r else applied r
      | _ => applied r
      end
  end.

(** Events that are not the run of a command. *)
Definition not_run (e : Event) : bool :=
  match e with EvRun _ _ => false | _ => true end.

(** Events that are neither the run of a command nor a file operation. *)
Definition not_run_nor_fs (e : Event) : bool :=
  match e with EvRun _ _ | EvFs _ _ | EvTemp _ => false | _ => true end.

(** Events that are not a [kubectl] command. *)
Definition not_kubectl (e : Event) : bool :=
  match e with
  | EvRun (Argv (prog :: _)) _ => negb (PyStr.eqb prog "kubectl")
  | EvRun (Shell line) _ => negb (PyStr.startswith line "kubectl")
  | _ => true
  end.

Definition not_input (e : Event) : bool := negb (is_input e).

Definition not_sleep (e : Event) : bool :=
  match e with EvSleep _ => false | _ => true end.

(** A listing of the phases of [app_label] that reports Running. *)
Definition running_listing (app_label : string) (e : Event) : bool :=
  match e with
  | EvRun c r => same_command (mysql_pods_phase app_label) c && reports_running r
  | _ => false
  end.

(** Neither a [kubectl apply] nor a question to the operator. *)
Definition calm (e : Event) : bool := not_apply e && not_input e.

(** The lines deploy_kafka.py takes for its own. *)
Definition kafka_owned (line : string) : bool :=
  existsb (fun app => PyStr.contains app line) ["kafka"; "redpanda"].

Definition kafka_get_all : Command := Argv ["kubectl"; "get"; "all"; "-n"; "streaming"].

Definition kafka_apply (manifest : string) : Command :=
  Argv ["kubectl"; "apply"; "-f"; manifest; "-n"; "streaming"].

(** A listing of the streaming namespace with resources of Kafka only. *)
Definition kafka_listing : string :=
  PyStr.text ["NAME READY STATUS RESTARTS AGE"; "pod/kafka-0 1/1 Running 0 5m"].

(** *** What may escape a script *)



(** *** The cluster is asked for after [minikube status] only *)

Definition minikube_status : Command := Argv ["minikube"; "status"].

(** A run of [minikube status] whose output mentions Running. *)
Definition status_running (e : Event) : bool :=
  match e with
  | EvRun c r => same_command minikube_status c && PyStr.contains "Running" (stdout r)
  | _ => false
  end.

(** No [kubectl] command comes before the first run of [minikube status]
    that reported Running. *)
Fixpoint guarded_by_status (t : Trace) : bool :=
  match t with
  | [] => true
  | e :: r => status_running e || (not_kubectl e && guarded_by_status r)
  end.

(** The script only adds events; they are guarded by the status, and when the
    script returns the status was reported Running. *)
Definition checks_status {A : Type} (m : Script A) : Prop :=
  forall t, exists evs,
    snd (m t) = (t ++ evs)%list
    /\ guarded_by_status evs = true
    /\ (forall a, fst (m t) = Returned a -> existsb status_running evs = true).

(** The commands run in a history, in order, each with its exit status. *)
Fixpoint runs (t : Trace) : list (Command * Z) :=
  match t with
  | [] => []
  | EvRun c r :: rest => (c, returncode r) :: runs rest
  | _ :: rest => runs rest
  end.

(** The file operations of a history, in order, each with its result. *)
Fixpoint fs_ops (t : Trace) : list (FsOp * bool) :=
  match t with
  | [] => []
  | EvFs op b :: rest => (op, b) :: fs_ops rest
  | _ :: rest => fs_ops rest
  end.

(** A world like [cluster], for another user. *)
Definition cluster_of (user : string) : World :=
  scripted (fun _ _ => ok "") (fun _ => None) user.

(** *** The NodePort of the dashboard *)

(** A text of decimal digits only. *)
Fixpoint all_digits (s : string) : bool :=
  match s with
  | EmptyString => true
  | String c r => Dashboard.isdigit c && all_digits r
  end.

(** A text without a colon. *)
Fixpoint no_colon (s : string) : bool :=
  match s with
  | EmptyString => true
  | String c r => negb (Ascii.eqb c ":"%char) && no_colon r
  end.

(** The service listing asked for by [extract_nodeport]. *)
Definition get_proxy_service (namespace : string) : Command :=
  Shell ("kubectl get svc -n " ++ namespace ++ " kubernetes-dashboard-kong-proxy").

Definition apply_file (f : string) : Command := Shell ("kubectl apply -f " ++ f).

(** The world of a cluster whose proxy service is listed as [listing]. *)
Definition proxy_world (listing : string) : World :=
  scripted (fun _ _ => ok listing) (fun _ => None) "muser".

(** The number of prompts answered (or met by the end of input) in a
    history. *)
Definition prompts (t : Trace) : nat := length (filter is_input t).

(** The operator of the examples: 3, then an empty line, then 2 between
    spaces. *)
Definition hesitant (k : nat) : option string :=
  match k with
  | 0%nat => Some "3"
  | 1%nat => Some ""
  | _ => Some " 2 "
  end.

(** *** Look-ups and creations of deploy_kubernetes_dashboard.py *)

Definition get_sa (namespace : string) : Command :=
  Shell ("kubectl get sa dashboard-admin-sa -n " ++ namespace).

Definition create_sa (namespace : string) : Command :=
  Shell ("kubectl create serviceaccount dashboard-admin-sa -n " ++ namespace).

Definition get_crb : Command := Shell "kubectl get clusterrolebinding dashboard-admin-sa".

Definition create_crb : Command :=
  Shell "kubectl create clusterrolebinding dashboard-admin-sa --clusterrole=cluster-admin --serviceaccount=kubernetes-dashboard:dashboard-admin-sa".

(** The commands of a look-up that ended with status [rc], followed, when
    it failed, by a creation that ended with status [c]. *)
Definition ensured (look create : Command) (rc c : Z) : list (Command * Z) :=
  if rc =? 0 then [(look, rc)] else [(look, rc); (create, c)].

(** *** Fetching the files of a repository *)

(** The removal of the directory [path]. *)
Definition is_removal (path : string) (op : FsOp * bool) : bool :=
  match fst op with
  | Rmtree p => PyStr.eqb p path
  | _ => false
  end.


(** The same for deploy_ecom_app.py. *)
Definition ecom_copied (temp_dir : string) (file : string) : list (FsOp * bool) :=
  [(IsFile (temp_dir ++ "/" ++ file), true);
   (Copy (temp_dir ++ "/" ++ file) ".", true)].


Definition ecom_clone : Command :=
  Argv ["git"; "clone"; Ecom.GIT_REPO_URL; "temp_repo"].

(** The tests of deploy_mysql.py for its required files, with their
    results. *)
Definition mysql_tests (results : list bool) : list (FsOp * bool) :=
  combine (map (fun f => Exists (Mysql.namespace_dir ++ "/" ++ f)) Mysql.required_files)
          results.

(** A world in which the files in [absent] are missing from wherever they
    are looked for, and everything else succeeds. *)
Definition missing_files_world (absent : list string) : World :=
  {| subprocess_result := fun _ _ => ok "";
     terminal_line := fun _ _ => None;
     user_name := fun _ => "muser";
     temp_path := fun _ => "/tmp/tmp0";
     fs_result := fun _ op =>
       match op with
       | Exists p | IsFile p => negb (existsb (fun f => PyStr.contains f p) absent)
       | _ => true
       end |}.

(** *** The stages of the deployment of deploy_kafka.py *)

Inductive Stage :=
| Applied (manifest : Command) (rc : Z)
| PodsReady
| TopicCreated (rc : Z).

(** The stage an event marks, if any: a [kubectl apply] with its exit
    status, the creation of the topic with its exit status, or a listing of
    the pods of the streaming namespace that the waiter takes for ready. *)
Definition stage_of (e : Event) : option Stage :=
  match e with
  | EvRun c r =>
      if is_apply e then Some (Applied c (returncode r))
      else if same_command c (Argv Kafka.KAFKA_EXEC_CMD)
      then Some (TopicCreated (returncode r))
      else if same_command c (Shell (Kafka.get_pods "streaming"))
              && Kafka.poll_ready (PyStr.strip (stdout r))
      then Some PodsReady
      else None
  | _ => None
  end.

Fixpoint stages (t : Trace) : list Stage :=
  match t with
  | [] => []
  | e :: r =>
      match stage_of e with
      | Some s => s :: stages r
      | None => stages r
      end
  end.

Definition no_stage (e : Event) : bool :=
  match stage_of e with None => true | Some _ => false end.

(** When the script returns, the events it has added mark the stages [S],
    in this order. *)
Definition yields (S : list Stage) {A : Type} (m : Script A) : Prop :=
  forall t a t', m t = (Returned a, t') ->
    exists evs, t' = (t ++ evs)%list /\ stages evs = S.

(** When the script returns, [e] is the last event of the history. *)
Definition closes (e : Event) {A : Type} (m : Script A) : Prop :=
  forall t a t', m t = (Returned a, t') -> exists pre, t' = (pre ++ [e])%list.

(** A cluster in which every command succeeds, the namespace of deploy_kafka.py
    holds a foreign pod, and the pods listed by the waiter are ready. *)
Definition streaming_cluster (answers : nat -> option string) : World :=
  scripted
    (fun c _ =>
       if starts_with ["minikube"; "status"] c then ok "host: Running"
       else if starts_with ["kubectl"; "get"; "all"] c then ok foreign_listing
       else match c with
            | Shell _ => ok "kafka-0 1/1 Running 0 1m"
            | Argv _ => ok ""
            end)
    answers "muser".

(** *** What a script returns *)

(** Whenever the script returns, the value passes [Q]. *)
Definition gives {A : Type} (Q : A -> Prop) (m : Script A) : Prop :=
  forall t a t', m t = (Returned a, t') -> Q a.

Definition ecom_apply : Command := Argv ["kubectl"; "apply"; "-f"; "ecom_app.yaml"].

End Scenario.
Import Scenario.

(* ===================================================================== *)
(** ** Properties of the string operations *)
(* ===================================================================== *)

Lemma splitlines_nil_iff (s : string) : PyStr.splitlines s = [] <-> s = "".
Proof.
  split; [|intros ->; reflexivity].
  destruct s as [|c r]; [reflexivity|]. simpl.
  destruct (PyStr.is_linebreak c); [discriminate|].
  destruct (PyStr.splitlines r); discriminate.
Qed.

Lemma truthy_true_iff (s : string) : PyStr.truthy s = true <-> s <> "".
Proof. destruct s; simpl; split; congruence. Qed.

Lemma truthy_false_iff (s : string) : PyStr.truthy s = false <-> s = "".
Proof. destruct s; simpl; split; congruence. Qed.
Example split_example : PyStr.split "  kafka-0   1/1  Running " = ["kafka-0"; "1/1"; "Running"].
Proof. reflexivity. Qed.
Example splitlines_example : PyStr.splitlines (PyStr.text ["a"; ""; "b"; ""]) = ["a"; ""; "b"].
Proof. reflexivity. Qed.
Example split_on_example : PyStr.split_on "/" "1/1/" = ["1"; "1"; ""].
Proof. reflexivity. Qed.
Example int_examples : map PyStr.int ["1"; "+1"; "-1"; "1_0"; "_1"; "1_"; "1__0"; ""; "+"; "007"; " 1 "]
  = [Some 1; Some 1; Some (-1); Some 10; None; None; None; None; None; Some 7; Some 1]%Z.
Proof. reflexivity. Qed.
Example strip_lower_contains_example : PyStr.strip "  Yes " = "Yes" /\ PyStr.lower "YeS" = "yes" /\ PyStr.contains "mysql" "pod/mysql-0" = true.
Proof. repeat split. Qed.
Example empty_text_examples : PyStr.split_on PyStr.LF "" = [""] /\ PyStr.splitlines "" = [] /\ PyStr.split "" = [].
Proof. repeat split. Qed.

(* ===================================================================== *)
(** ** Observations of a history *)
(* ===================================================================== *)

Local Open Scope list_scope.

Lemma times_run_app (c : Command) (a b : Trace) :
  times_run c (a ++ b) = (times_run c a + times_run c b)%nat.
Proof. unfold times_run. now rewrite filter_app, length_app. Qed.

Lemma times_run_logs (c : Command) (l : Trace) :
  forallb is_log l = true -> times_run c l = 0%nat.
Proof.
  unfold times_run. induction l as [|e l IH]; [reflexivity|].
  simpl. intros H. apply andb_prop in H as [He Hl].
  destruct e; try discriminate. simpl. auto.
Qed.

Lemma same_command_refl (c : Command) : same_command c c = true.
Proof.
  destruct c; simpl.
  - destruct (list_eq_dec string_dec args args); congruence.
  - apply String.eqb_refl.
Qed.

Lemma slept_app (a b : Trace) : slept (a ++ b) = slept a + slept b.
Proof.
  induction a as [|e a IH]; [reflexivity|].
  simpl. destruct e; rewrite ?IH; lia.
Qed.

Lemma slept_logs (l : Trace) : forallb is_log l = true -> slept l = 0.
Proof.
  induction l as [|e l IH]; [reflexivity|].
  simpl. intros H. apply andb_prop in H as [He Hl].
  destruct e; try discriminate. auto.
Qed.

Lemma apply_calls_app (a b : Trace) :
  apply_calls (a ++ b) = (apply_calls a + apply_calls b)%nat.
Proof. unfold apply_calls. now rewrite filter_app, length_app. Qed.

Lemma polls_snoc_logs (ns : string) (t logs : Trace) (r : CompletedProcess) (m : string) :
  forallb is_log logs = true ->
  polls ns ([EvLog INFO m; EvRun (Shell (Kafka.get_pods ns)) r] ++ logs) = 1%nat.
Proof.
  intros H. unfold polls. rewrite times_run_app, (times_run_logs _ _ H).
  unfold times_run. simpl. unfold PyStr.eqb. now rewrite String.eqb_refl.
Qed.

(* ===================================================================== *)
(** ** The readiness waiter of deploy_kafka.py *)
(* ===================================================================== *)

Lemma apply_calls_logs (l : Trace) : forallb is_log l = true -> apply_calls l = 0%nat.
Proof.
  unfold apply_calls. induction l as [|e l IH]; [reflexivity|].
  simpl. intros H. apply andb_prop in H as [He Hl].
  destruct e; try discriminate. simpl. auto.
Qed.

Section KafkaWaiter.
Variable w : World.

Local Arguments String.append : simpl never.

Lemma kafka_run_command_unchecked (cmd : string) (t : Trace) :
  let t1 := t ++ [EvLog INFO ("Executing command: " ++ cmd)%string] in
  let r := subprocess_result w t1 (Shell cmd) in
  Kafka.run_command w cmd false t
  = (Returned (PyStr.strip (stdout r)), t1 ++ [EvRun (Shell cmd) r]).
Proof. reflexivity. Qed.

Lemma kafka_check_lines_spec (lines : list string) :
  forall (b : bool) (t : Trace),
  exists logs,
    Kafka.check_lines lines b t
    = (Returned (Kafka.all_ready_after lines b), t ++ logs)
    /\ forallb is_log logs = true.
Proof.
  induction lines as [|line rest IH]; intros b t.
  - exists []. rewrite app_nil_r. now split.
  - simpl. unfold Kafka.line_ready.
    destruct (length (PyStr.split line) <? 2)%nat; [apply IH|].
    destruct (Kafka.parse_ready (nth 1 (PyStr.split line) "")) as [[x y]|].
    + destruct (x =? y); simpl; [apply IH|].
      unfold bind, log, emit.
      match goal with |- context [Kafka.check_lines rest false ?t'] =>
        destruct (IH false t') as (logs & E & L) end.
      eexists (EvLog ERROR _ :: logs). rewrite E. split; [|exact L].
      now rewrite <- app_assoc.
    + unfold bind, log, emit.
      match goal with |- context [Kafka.check_lines rest false ?t'] =>
        destruct (IH false t') as (logs & E & L) end.
      eexists (EvLog ERROR _ :: logs). rewrite E. split; [|exact L].
      now rewrite <- app_assoc.
Qed.

(** One round of the loop: the listing is taken; if it is ready the wait
    ends with [True], otherwise the script sleeps and goes round again. *)
Lemma kafka_wait_round (fuel : nat) (ns : string) (timeout interval elapsed : Z)
    (t : Trace) :
  elapsed < timeout ->
  exists round,
    polls ns round = 1%nat /\ slept round = 0 /\ apply_calls round = 0%nat /\
    Kafka.wait_loop w (S fuel) ns timeout interval elapsed t
    = if Kafka.poll_ready (poll_output w ns t) then
        (Returned true,
         t ++ round ++
           [EvLog INFO "All pods are ready (all containers in each pod are running)."])
      else if interval <? 0 then (Raised ValueError, t ++ round)
      else Kafka.wait_loop w fuel ns timeout interval (elapsed + interval)
             (t ++ round ++ [EvSleep interval]).
Proof.
  intros Hlt. apply Z.ltb_lt in Hlt.
  cbn [Kafka.wait_loop]. rewrite Hlt.
  unfold bind at 1. rewrite kafka_run_command_unchecked. cbv zeta.
  fold (poll_output w ns t).
  set (r := subprocess_result w _ _).
  set (t1 := (t ++ _) ++ _).
  assert (Et1 : forall l, t1 ++ l
      = t ++ ([EvLog INFO ("Executing command: " ++ Kafka.get_pods ns)%string;
               EvRun (Shell (Kafka.get_pods ns)) r] ++ l)).
  { intros l. subst t1. now rewrite <- !app_assoc. }
  unfold Kafka.poll_ready.
  destruct (PyStr.truthy (poll_output w ns t)) eqn:Htr.
  - destruct (kafka_check_lines_spec (PyStr.splitlines (poll_output w ns t)) true t1)
      as (logs & E & L).
    exists ([EvLog INFO ("Executing command: " ++ Kafka.get_pods ns)%string;
             EvRun (Shell (Kafka.get_pods ns)) r] ++ logs).
    split; [now apply polls_snoc_logs|].
    split; [rewrite slept_app, (slept_logs _ L); reflexivity|].
    split; [rewrite apply_calls_app, (apply_calls_logs _ L); reflexivity|].
    unfold bind at 1. rewrite E. cbn [andb].
    destruct (Kafka.all_ready_after _ true).
    + unfold bind, log, emit, ret. f_equal.
      now rewrite <- app_assoc, Et1, <- app_assoc.
    + unfold bind at 1. unfold sleep.
      destruct (interval <? 0).
      * unfold raise. f_equal. apply Et1.
      * unfold emit. f_equal. now rewrite <- app_assoc, Et1, <- app_assoc.
  - exists [EvLog INFO ("Executing command: " ++ Kafka.get_pods ns)%string;
            EvRun (Shell (Kafka.get_pods ns)) r].
    split; [apply (polls_snoc_logs ns t [] r); reflexivity|].
    split; [reflexivity|]. split; [reflexivity|].
    unfold bind at 1. unfold ret at 1. cbn [andb].
    unfold bind at 1. unfold sleep.
    destruct (interval <? 0).
    + unfold raise. f_equal. rewrite <- (app_nil_r t1), Et1. now rewrite app_nil_r.
    + unfold emit. f_equal. apply Et1.
Qed.

End KafkaWaiter.

Lemma rounds_spec (timeout interval : Z) :
  0 < interval ->
  timeout <= Z.of_nat (rounds timeout interval) * interval /\
  (rounds timeout interval <> 0%nat ->
   (Z.of_nat (rounds timeout interval) - 1) * interval < timeout).
Proof.
  intros Hi. unfold rounds.
  pose proof (Z.div_mod (timeout + interval - 1) interval ltac:(lia)) as Hd.
  pose proof (Z.mod_pos_bound (timeout + interval - 1) interval Hi) as Hm.
  set (q := (timeout + interval - 1) / interval) in *.
  destruct (Z.le_gt_cases 0 q) as [Hq|Hq].
  - rewrite Z2Nat.id by assumption. split; [nia|intros _; nia].
  - replace (Z.to_nat q) with 0%nat by lia.
    split; [simpl; nia|intros H; now elim H].
Qed.

Section KafkaWaiterLoop.
Variable w : World.
Variables (ns : string) (timeout interval : Z).

Lemma kafka_wait_loop_expired (fuel : nat) (elapsed : Z) (t : Trace) :
  timeout <= elapsed ->
  Kafka.wait_loop w (S fuel) ns timeout interval elapsed t
  = (Exited 1, t ++ 
      [EvLog ERROR "Timeout reached waiting for pods to be ready."]).
Proof.
  intros H. cbn [Kafka.wait_loop].
  destruct (Z.ltb_spec elapsed timeout); [lia|]. reflexivity.
Qed.

(** While no listing is ready the loop goes round until [elapsed] reaches
    [timeout], and the process exits with status 1. *)
Lemma kafka_wait_loop_times_out :
  0 < interval ->
  (forall t, Kafka.poll_ready (poll_output w ns t) = false) ->
  forall (n : nat) (elapsed : Z) (fuel : nat) (t : Trace),
    timeout <= elapsed + Z.of_nat n * interval ->
    (n <> 0%nat -> elapsed + (Z.of_nat n - 1) * interval < timeout) ->
    (n < fuel)%nat ->
    exists t',
      Kafka.wait_loop w fuel ns timeout interval elapsed t
      = (Exited 1, t ++ t' ++ 
      [EvLog ERROR "Timeout reached waiting for pods to be ready."])
      /\ polls ns t' = n /\ slept t' = Z.of_nat n * interval
      /\ apply_calls t' = 0%nat.
Proof.
  intros Hi Hnr. induction n as [|n IH]; intros elapsed fuel t Hup Hlow Hf.
  - destruct fuel as [|fuel]; [lia|].
    exists []. rewrite kafka_wait_loop_expired by lia. now repeat split.
  - destruct fuel as [|fuel]; [lia|].
    assert (Hlt : elapsed < timeout) by (specialize (Hlow ltac:(lia)); nia).
    destruct (kafka_wait_round w fuel ns timeout interval elapsed t Hlt)
      as (round & Hp & Hs & Ha & E).
    rewrite E, Hnr. destruct (Z.ltb_spec interval 0); [lia|].
    destruct (IH (elapsed + interval) fuel (t ++ round ++ [EvSleep interval]))
      as (t' & E' & Hp' & Hs' & Ha'); [lia| intros; specialize (Hlow ltac:(lia)); lia |lia|].
    exists (round ++ [EvSleep interval] ++ t').
    rewrite E'. split; [now rewrite <- !app_assoc|].
    unfold polls in *. rewrite !times_run_app, !slept_app, !apply_calls_app.
    rewrite Hp, Hp', Hs, Hs', Ha, Ha'.
    cbn [times_run filter is_run_of length slept apply_calls is_apply].
    repeat split; nia.
Qed.

(** However the loop ends, the last thing it did was to report the
    outcome: nothing is listed and nothing is slept after that. *)
Lemma kafka_wait_loop_outcome (fuel : nat) :
  forall (elapsed : Z) (t t1 : Trace) (o : Outcome bool),
    Kafka.wait_loop w fuel ns timeout interval elapsed t = (o, t1) ->
    match o with
    | Returned b => b = true /\ exists t', t1 = t ++ t' ++ [EvLog INFO "All pods are ready (all containers in each pod are running)."]
    | Exited code => code = 1 /\ exists t', t1 = t ++ t' ++ 
      [EvLog ERROR "Timeout reached waiting for pods to be ready."]
    | Raised e => e = ValueError /\ interval < 0
    | OutOfFuel => True
    end.
Proof.
  induction fuel as [|fuel IH]; intros elapsed t t1 o E.
  - cbn in E. injection E as <- <-. exact I.
  - destruct (Z.lt_ge_cases elapsed timeout) as [Hlt|Hge].
    + destruct (kafka_wait_round w fuel ns timeout interval elapsed t Hlt)
        as (round & _ & _ & _ & E').
      rewrite E' in E. clear E'.
      destruct (Kafka.poll_ready _).
      * injection E as <- <-. split; [reflexivity|]. now exists round.
      * destruct (Z.ltb_spec interval 0).
        -- injection E as <- <-. now split.
        -- apply IH in E. destruct o as [b|e|c|]; try exact E.
           ++ destruct E as (Hb & t' & ->). split; [exact Hb|].
              exists (round ++ [EvSleep interval] ++ t'). now rewrite <- !app_assoc.
           ++ destruct E as (Hb & t' & ->). split; [exact Hb|].
              exists (round ++ [EvSleep interval] ++ t'). now rewrite <- !app_assoc.
    + rewrite kafka_wait_loop_expired in E by assumption.
      injection E as <- <-. split; [reflexivity|]. now exists [].
Qed.

End KafkaWaiterLoop.

(** In the world of a snapshot sequence the next listing is the snapshot
    whose index is the number of listings taken so far. *)
Lemma poll_output_snapshot_world (s : nat -> string) (ns : string) (t : Trace) :
  poll_output (snapshot_world s) ns t = PyStr.strip (s (polls ns t)).
Proof.
  unfold poll_output, polls. cbn. now rewrite times_run_app, Nat.add_0_r.
Qed.

(** The waiter as a function of the snapshot sequence: it returns at the
    first ready snapshot, after that many rounds, and asks for no snapshot
    after it. *)
Lemma kafka_wait_loop_first_ready (s : nat -> string) (ns : string)
    (timeout interval : Z) :
  0 <= interval ->
  forall (k : nat) (elapsed : Z) (fuel : nat) (t : Trace),
    (forall j, (j < k)%nat -> Kafka.poll_ready (PyStr.strip (s (polls ns t + j)%nat)) = false) ->
    Kafka.poll_ready (PyStr.strip (s (polls ns t + k)%nat)) = true ->
    elapsed + Z.of_nat k * interval < timeout ->
    (k < fuel)%nat ->
    exists t',
      Kafka.wait_loop (snapshot_world s) fuel ns timeout interval elapsed t
      = (Returned true,
         t ++ t' ++ [EvLog INFO "All pods are ready (all containers in each pod are running)."])
      /\ polls ns t' = S k /\ slept t' = Z.of_nat k * interval
      /\ apply_calls t' = 0%nat.
Proof.
  intros Hi. induction k as [|k IH]; intros elapsed fuel t Hnot Hrdy Hlt Hf.
  - destruct fuel as [|fuel]; [lia|].
    destruct (kafka_wait_round (snapshot_world s) fuel ns timeout interval elapsed t
                ltac:(lia)) as (round & Hp & Hs & Ha & E).
    rewrite E, poll_output_snapshot_world. rewrite Nat.add_0_r in Hrdy. rewrite Hrdy.
    exists round. repeat split; assumption.
  - destruct fuel as [|fuel]; [lia|].
    destruct (kafka_wait_round (snapshot_world s) fuel ns timeout interval elapsed t
                ltac:(nia)) as (round & Hp & Hs & Ha & E).
    rewrite E, poll_output_snapshot_world.
    rewrite <- (Nat.add_0_r (polls ns t)), (Hnot 0%nat) by lia.
    destruct (Z.ltb_spec interval 0); [lia|].
    assert (Hpolls : polls ns (t ++ round ++ [EvSleep interval]) = S (polls ns t)).
    { unfold polls in *. rewrite !times_run_app, Hp. cbn. lia. }
    destruct (IH (elapsed + interval) fuel (t ++ round ++ [EvSleep interval]))
      as (t' & E' & Hp' & Hs' & Ha').
    + intros j Hj. rewrite Hpolls. replace (S (polls ns t) + j)%nat
        with (polls ns t + S j)%nat by lia. apply Hnot. lia.
    + rewrite Hpolls. replace (S (polls ns t) + k)%nat
        with (polls ns t + S k)%nat by lia. exact Hrdy.
    + lia.
    + lia.
    + exists (round ++ [EvSleep interval] ++ t').
      rewrite E'. split; [now rewrite <- !app_assoc|].
      unfold polls in *. rewrite !times_run_app, !slept_app, !apply_calls_app.
      rewrite Hp, Hp', Hs, Hs', Ha, Ha'.
    cbn [times_run filter is_run_of length slept apply_calls is_apply].
    repeat split; nia.
Qed.

Lemma kafka_all_ready_after_false (lines : list string) :
  Kafka.all_ready_after lines false = false.
Proof.
  induction lines as [|l r IH]; [reflexivity|].
  simpl. now destruct (Kafka.line_ready l) as [[|]|].
Qed.

Lemma kafka_line_ready_ratio (line name ratio : string) (rest : list string) :
  PyStr.split line = name :: ratio :: rest ->
  Kafka.line_ready line
  = Some match Kafka.parse_ready ratio with
         | Some (x, y) => x =? y
         | None => false
         end.
Proof.
  intros E. unfold Kafka.line_ready. rewrite E. cbn [length Nat.ltb Nat.leb nth].
  now destruct (Kafka.parse_ready ratio) as [[x y]|].
Qed.

(** A listing whose READY column reads x/y on every line is ready iff
    x = y. *)
Lemma kafka_poll_ready_ratio (ratio listing : string) (x y : Z) :
  Kafka.parse_ready ratio = Some (x, y) ->
  shows_ratio ratio listing ->
  Kafka.poll_ready (PyStr.strip listing) = (x =? y).
Proof.
  intros Hp [Hne Hall]. unfold Kafka.poll_ready.
  assert (Ht : PyStr.truthy (PyStr.strip listing) = true).
  { apply truthy_true_iff. intros E. apply Hne. now rewrite E. }
  rewrite Ht. cbn [andb].
  destruct (PyStr.splitlines (PyStr.strip listing)) as [|l ls]; [congruence|].
  clear Hne Ht.
  assert (G : forall lines,
             Forall (fun line => exists name rest,
                       PyStr.split line = name :: ratio :: rest) lines ->
             forall b, Kafka.all_ready_after lines b
                       = match lines with [] => b | _ => b && (x =? y) end).
  { clear - Hp. intros lines Hall.
    induction Hall as [|line lines (name & rest & E) _ IH]; intros b; [reflexivity|].
    cbn [Kafka.all_ready_after].
    rewrite (kafka_line_ready_ratio _ _ _ _ E), Hp.
    destruct (x =? y) eqn:Exy.
    - rewrite IH. destruct lines, b; reflexivity.
    - rewrite kafka_all_ready_after_false. now rewrite andb_false_r. }
  now rewrite (G _ Hall).
Qed.

Lemma kafka_parse_ready_0_1 : Kafka.parse_ready "0/1" = Some (0, 1).
Proof. reflexivity. Qed.

Lemma kafka_parse_ready_1_1 : Kafka.parse_ready "1/1" = Some (1, 1).
Proof. reflexivity. Qed.

(** C4. The readiness waiter of deploy_kafka.py as a function of the
    sequence of pod listings. (1) With timeout 10 and interval 1, when the
    first listing shows 0/1 and the second 1/1, whatever the later ones,
    [wait_for_pods] returns [True] after exactly two listings and one sleep
    of one second. (2) When every listing shows 0/1 and the interval is
    positive, it exits with status 1 after as many listings as it takes for
    the slept time to reach the timeout: ten for timeout 10 and interval 1.
    (3) In every world, however the wait ends, the report of the outcome is
    the last event: nothing is listed or slept after it, and the value
    returned is never [False]. *)
Theorem readiness_waiter_of_snapshots :
  (forall (s : nat -> string) (ns : string) (fuel : nat),
      shows_ratio "0/1" (s 0%nat) -> shows_ratio "1/1" (s 1%nat) ->
      (2 <= fuel)%nat ->
      exists t,
        Kafka.wait_for_pods (snapshot_world s) fuel ns 10 1 []
        = (Returned true,
           t ++ [EvLog INFO "All pods are ready (all containers in each pod are running)."])
        /\ polls ns t = 2%nat /\ slept t = 1)
  /\
  (forall (w : World) (ns : string) (timeout interval : Z) (fuel : nat) (t0 : Trace),
      0 < interval ->
      (forall t, shows_ratio "0/1"
                   (stdout (subprocess_result w t (Shell (Kafka.get_pods ns))))) ->
      (rounds timeout interval < fuel)%nat ->
      exists t,
        Kafka.wait_for_pods w fuel ns timeout interval t0
        = (Exited 1, t0 ++ t ++ [EvLog ERROR "Timeout reached waiting for pods to be ready."])
        /\ polls ns t = rounds timeout interval
        /\ slept t = Z.of_nat (rounds timeout interval) * interval
        /\ timeout <= slept t
        /\ (rounds timeout interval <> 0%nat -> slept t - interval < timeout))
  /\ rounds 10 1 = 10%nat
  /\
  (forall (w : World) (ns : string) (timeout interval : Z) (fuel : nat)
          (t0 t1 : Trace) (o : Outcome bool),
      Kafka.wait_for_pods w fuel ns timeout interval t0 = (o, t1) ->
      match o with
      | Returned b =>
          b = true /\
          exists t, t1 = t0 ++ t ++
            [EvLog INFO "All pods are ready (all containers in each pod are running)."]
      | Exited code =>
          code = 1 /\
          exists t, t1 = t0 ++ t ++
            [EvLog ERROR "Timeout reached waiting for pods to be ready."]
      | Raised e => e = ValueError /\ interval < 0
      | OutOfFuel => True
      end).
Proof.
  split; [|split; [|split; [reflexivity|]]].
  - intros s ns fuel H0 H1 Hf.
    unfold Kafka.wait_for_pods, bind, log, emit. cbn [app].
    set (t := [EvLog INFO _]).
    destruct (kafka_wait_loop_first_ready s ns 10 1 ltac:(lia) 1 0 fuel t)
      as (t' & E & Hp & Hs & _).
    + intros j Hj. replace j with 0%nat by lia. cbn.
      apply (kafka_poll_ready_ratio _ _ _ _ kafka_parse_ready_0_1 H0).
    + cbn. apply (kafka_poll_ready_ratio _ _ _ _ kafka_parse_ready_1_1 H1).
    + lia.
    + lia.
    + exists (t ++ t'). rewrite E. split; [now rewrite <- app_assoc|].
      unfold polls in *. rewrite times_run_app, slept_app, Hp, Hs. now split.
  - intros w ns timeout interval fuel t0 Hi Hall Hf.
    unfold Kafka.wait_for_pods, bind, log, emit.
    destruct (rounds_spec timeout interval Hi) as [Hup Hlow].
    assert (Hnr : forall t, Kafka.poll_ready (poll_output w ns t) = false).
    { intros t. apply (kafka_poll_ready_ratio _ _ _ _ kafka_parse_ready_0_1 (Hall _)). }
    destruct (kafka_wait_loop_times_out w ns timeout interval Hi Hnr
                (rounds timeout interval) 0 fuel
                (t0 ++ [EvLog INFO
                  "Waiting for Streaming pods to be in Ready state (all containers ready)..."]))
      as (t' & E & Hp & Hs & _); [lia | intros H; specialize (Hlow H); lia | lia |].
    eexists (_ :: t'). rewrite E. split; [now rewrite <- app_assoc|].
    unfold polls in *. cbn [times_run filter is_run_of length slept].
    fold (times_run (Shell (Kafka.get_pods ns)) t'). rewrite Hp, Hs.
    repeat split; lia.
  - intros w ns timeout interval fuel t0 t1 o E.
    unfold Kafka.wait_for_pods, bind, log, emit in E.
    apply kafka_wait_loop_outcome in E.
    destruct o as [b|e|c|]; try exact E.
    + destruct E as (Hb & t' & ->). split; [exact Hb|].
      eexists (_ :: t'). now rewrite <- app_assoc.
    + destruct E as (Hb & t' & ->). split; [exact Hb|].
      eexists (_ :: t'). now rewrite <- app_assoc.
Qed.

Lemma shows_ratio_single (name ratio status : string) :
  PyStr.splitlines (PyStr.strip (name ++ " " ++ ratio ++ " " ++ status)%string)
  = [(name ++ " " ++ ratio ++ " " ++ status)%string] ->
  (exists rest, PyStr.split (name ++ " " ++ ratio ++ " " ++ status)%string
                = name :: ratio :: rest) ->
  shows_ratio ratio (name ++ " " ++ ratio ++ " " ++ status)%string.
Proof.
  intros E [rest Hs]. unfold shows_ratio. rewrite E. split; [discriminate|].
  constructor; [|constructor]. now exists name, rest.
Qed.

(** The two-listing scenario of C4 on a concrete sequence. *)
Lemma readiness_waiter_of_snapshots_witness :
  exists t,
    Kafka.wait_for_pods
      (snapshot_world (fun k => match k with
                                | 1%nat => "kafka-0 1/1 Running"
                                | _ => "kafka-0 0/1 Running"
                                end))
      5 "streaming" 10 1 []
    = (Returned true,
       t ++ [EvLog INFO "All pods are ready (all containers in each pod are running)."])
    /\ polls "streaming" t = 2%nat /\ slept t = 1.
Proof.
  apply (proj1 readiness_waiter_of_snapshots).
  - apply (shows_ratio_single "kafka-0" "0/1" "Running"); [reflexivity|].
    eexists. reflexivity.
  - apply (shows_ratio_single "kafka-0" "1/1" "Running"); [reflexivity|].
    eexists. reflexivity.
  - lia.
Defined.

Section KafkaNeverReady.
Variable w : World.
Variables (ns : string) (timeout interval : Z).

(** While no listing is ready the wait does not return, whatever the
    interval and the fuel. *)
Lemma kafka_wait_loop_never_ready :
  (forall t, Kafka.poll_ready (poll_output w ns t) = false) ->
  forall (fuel : nat) (elapsed : Z) (t t1 : Trace) (b : bool),
    Kafka.wait_loop w fuel ns timeout interval elapsed t <> (Returned b, t1).
Proof.
  intros Hnr. induction fuel as [|fuel IH]; intros elapsed t t1 b E.
  - discriminate E.
  - destruct (Z.lt_ge_cases elapsed timeout) as [Hlt|Hge].
    + destruct (kafka_wait_round w fuel ns timeout interval elapsed t Hlt)
        as (round & _ & _ & _ & E').
      rewrite E', Hnr in E. destruct (interval <? 0); [discriminate E|].
      now apply IH in E.
    + rewrite kafka_wait_loop_expired in E by assumption. discriminate E.
Qed.

End KafkaNeverReady.

(* ===================================================================== *)
(** ** The readiness waiter of deploy_kubernetes_dashboard.py *)
(* ===================================================================== *)

(** Both waiters list the pods with the same command. *)
Lemma dashboard_get_pods_same (ns : string) : Dashboard.get_pods ns = Kafka.get_pods ns.
Proof. reflexivity. Qed.

Section DashboardWaiter.
Variable w : World.

Local Arguments String.append : simpl never.

Lemma dashboard_run_command_unchecked (cmd : string) (t : Trace) :
  let t1 := t ++ [EvLog INFO ("Executing command: " ++ cmd)%string] in
  let r := subprocess_result w t1 (Shell cmd) in
  Dashboard.run_command w cmd false t
  = (Returned (PyStr.strip (stdout r)), t1 ++ [EvRun (Shell cmd) r]).
Proof. reflexivity. Qed.

Lemma dashboard_check_lines_spec (lines : list string) :
  forall (b : bool) (t : Trace),
  exists logs,
    Dashboard.check_lines lines b t
    = (Returned (Dashboard.all_ready_after lines b), t ++ logs)
    /\ forallb is_log logs = true.
Proof.
  induction lines as [|line rest IH]; intros b t.
  - exists []. rewrite app_nil_r. now split.
  - simpl. unfold Dashboard.line_ready.
    destruct (length (PyStr.split line) <? 2)%nat; [apply IH|].
    destruct (PyStr.eqb (nth 1 (PyStr.split line) "") "1/1"); simpl; [apply IH|].
    unfold bind, log, emit.
    match goal with |- context [Dashboard.check_lines rest false ?t'] =>
      destruct (IH false t') as (logs & E & L) end.
    eexists (EvLog ERROR _ :: logs). rewrite E. split; [|exact L].
    now rewrite <- app_assoc.
Qed.

Lemma dashboard_wait_round (fuel : nat) (ns : string) (timeout interval elapsed : Z)
    (t : Trace) :
  elapsed < timeout ->
  exists round,
    polls ns round = 1%nat /\ slept round = 0 /\ apply_calls round = 0%nat /\
    Dashboard.wait_loop w (S fuel) ns timeout interval elapsed t
    = if Dashboard.poll_ready (poll_output w ns t) then
        (Returned tt, t ++ round ++ [EvLog INFO "All pods are ready (READY: 1/1)."])
      else if interval <? 0 then (Raised ValueError, t ++ round)
      else Dashboard.wait_loop w fuel ns timeout interval (elapsed + interval)
             (t ++ round ++ [EvSleep interval]).
Proof.
  intros Hlt. apply Z.ltb_lt in Hlt.
  cbn [Dashboard.wait_loop]. rewrite Hlt.
  unfold bind at 1. rewrite dashboard_run_command_unchecked. cbv zeta.
  change (Dashboard.get_pods ns) with (Kafka.get_pods ns).
  fold (poll_output w ns t).
  set (r := subprocess_result w _ _).
  set (t1 := (t ++ _) ++ _).
  assert (Et1 : forall l, t1 ++ l
      = t ++ ([EvLog INFO ("Executing command: " ++ Kafka.get_pods ns)%string;
               EvRun (Shell (Kafka.get_pods ns)) r] ++ l)).
  { intros l. subst t1. now rewrite <- !app_assoc. }
  unfold Dashboard.poll_ready.
  destruct (PyStr.truthy (poll_output w ns t)) eqn:Htr.
  - destruct (dashboard_check_lines_spec (PyStr.splitlines (poll_output w ns t)) true t1)
      as (logs & E & L).
    exists ([EvLog INFO ("Executing command: " ++ Kafka.get_pods ns)%string;
             EvRun (Shell (Kafka.get_pods ns)) r] ++ logs).
    split; [now apply polls_snoc_logs|].
    split; [rewrite slept_app, (slept_logs _ L); reflexivity|].
    split; [rewrite apply_calls_app, (apply_calls_logs _ L); reflexivity|].
    unfold bind at 1. rewrite E. cbn [andb].
    destruct (Dashboard.all_ready_after _ true).
    + unfold log, emit. f_equal.
      now rewrite <- app_assoc, Et1, <- app_assoc.
    + unfold bind at 1. unfold sleep.
      destruct (interval <? 0).
      * unfold raise. f_equal. apply Et1.
      * unfold emit. f_equal. now rewrite <- app_assoc, Et1, <- app_assoc.
  - exists [EvLog INFO ("Executing command: " ++ Kafka.get_pods ns)%string;
            EvRun (Shell (Kafka.get_pods ns)) r].
    split; [apply (polls_snoc_logs ns t [] r); reflexivity|].
    split; [reflexivity|]. split; [reflexivity|].
    unfold bind at 1. unfold ret at 1. cbn [andb].
    unfold bind at 1. unfold sleep.
    destruct (interval <? 0).
    + unfold raise. f_equal. rewrite <- (app_nil_r t1), Et1. now rewrite app_nil_r.
    + unfold emit. f_equal. apply Et1.
Qed.

Variables (ns : string) (timeout interval : Z).

Lemma dashboard_wait_loop_expired (fuel : nat) (elapsed : Z) (t : Trace) :
  timeout <= elapsed ->
  Dashboard.wait_loop w (S fuel) ns timeout interval elapsed t
  = (Exited 1, t ++ 
      [EvLog ERROR "Timeout reached waiting for pods to be ready."]).
Proof.
  intros H. cbn [Dashboard.wait_loop].
  destruct (Z.ltb_spec elapsed timeout); [lia|]. reflexivity.
Qed.

Lemma dashboard_wait_loop_times_out :
  0 < interval ->
  (forall t, Dashboard.poll_ready (poll_output w ns t) = false) ->
  forall (n : nat) (elapsed : Z) (fuel : nat) (t : Trace),
    timeout <= elapsed + Z.of_nat n * interval ->
    (n <> 0%nat -> elapsed + (Z.of_nat n - 1) * interval < timeout) ->
    (n < fuel)%nat ->
    exists t',
      Dashboard.wait_loop w fuel ns timeout interval elapsed t
      = (Exited 1, t ++ t' ++ 
      [EvLog ERROR "Timeout reached waiting for pods to be ready."])
      /\ polls ns t' = n /\ slept t' = Z.of_nat n * interval
      /\ apply_calls t' = 0%nat.
Proof.
  intros Hi Hnr. induction n as [|n IH]; intros elapsed fuel t Hup Hlow Hf.
  - destruct fuel as [|fuel]; [lia|].
    exists []. rewrite dashboard_wait_loop_expired by lia. now repeat split.
  - destruct fuel as [|fuel]; [lia|].
    assert (Hlt : elapsed < timeout) by (specialize (Hlow ltac:(lia)); nia).
    destruct (dashboard_wait_round fuel ns timeout interval elapsed t Hlt)
      as (round & Hp & Hs & Ha & E).
    rewrite E, Hnr. destruct (Z.ltb_spec interval 0); [lia|].
    destruct (IH (elapsed + interval) fuel (t ++ round ++ [EvSleep interval]))
      as (t' & E' & Hp' & Hs' & Ha'); [lia| intros; specialize (Hlow ltac:(lia)); lia |lia|].
    exists (round ++ [EvSleep interval] ++ t').
    rewrite E'. split; [now rewrite <- !app_assoc|].
    unfold polls in *. rewrite !times_run_app, !slept_app, !apply_calls_app.
    rewrite Hp, Hp', Hs, Hs', Ha, Ha'.
    cbn [times_run filter is_run_of length slept apply_calls is_apply].
    repeat split; nia.
Qed.

Lemma dashboard_wait_loop_never_ready :
  (forall t, Dashboard.poll_ready (poll_output w ns t) = false) ->
  forall (fuel : nat) (elapsed : Z) (t t1 : Trace) (u : unit),
    Dashboard.wait_loop w fuel ns timeout interval elapsed t <> (Returned u, t1).
Proof.
  intros Hnr. induction fuel as [|fuel IH]; intros elapsed t t1 b E.
  - discriminate E.
  - destruct (Z.lt_ge_cases elapsed timeout) as [Hlt|Hge].
    + destruct (dashboard_wait_round fuel ns timeout interval elapsed t Hlt)
        as (round & _ & _ & _ & E').
      rewrite E', Hnr in E. destruct (interval <? 0); [discriminate E|].
      now apply IH in E.
    + rewrite dashboard_wait_loop_expired in E by assumption. discriminate E.
Qed.

End DashboardWaiter.

(** C10. Readiness over an empty pod set is not vacuously true. In every
    world in which each listing of the pods of the namespace has no line
    (once trimmed), the waiters of deploy_kafka.py and of
    deploy_kubernetes_dashboard.py never return, whatever the timeout, the
    interval and the fuel; and with a positive interval they exit with
    status 1 after the rounds it takes for the slept time to reach the
    timeout. *)
Theorem empty_pod_set_is_never_ready
    (w : World) (ns : string) (timeout interval : Z) (t0 : Trace)
    (Hempty : forall t,
        PyStr.splitlines
          (PyStr.strip (stdout (subprocess_result w t (Shell (Kafka.get_pods ns))))) = []) :
  (forall fuel t1 b,
      Kafka.wait_for_pods w fuel ns timeout interval t0 <> (Returned b, t1))
  /\ (forall fuel t1 u,
      Dashboard.wait_for_pods w fuel ns timeout interval t0 <> (Returned u, t1))
  /\ (0 < interval ->
      forall fuel, (rounds timeout interval < fuel)%nat ->
      (exists t,
          Kafka.wait_for_pods w fuel ns timeout interval t0
          = (Exited 1,
             t0 ++ t ++ [EvLog ERROR "Timeout reached waiting for pods to be ready."])
          /\ polls ns t = rounds timeout interval
          /\ timeout <= slept t)
      /\ (exists t,
          Dashboard.wait_for_pods w fuel ns timeout interval t0
          = (Exited 1,
             t0 ++ t ++ [EvLog ERROR "Timeout reached waiting for pods to be ready."])
          /\ polls ns t = rounds timeout interval
          /\ timeout <= slept t)).
Proof.
  assert (Hk : forall t, Kafka.poll_ready (poll_output w ns t) = false).
  { intros t. unfold Kafka.poll_ready, poll_output.
    specialize (Hempty (t ++ [EvLog INFO ("Executing command: " ++ Kafka.get_pods ns)%string])).
    apply splitlines_nil_iff in Hempty. now rewrite Hempty. }
  assert (Hd : forall t, Dashboard.poll_ready (poll_output w ns t) = false).
  { intros t. unfold Dashboard.poll_ready, poll_output.
    specialize (Hempty (t ++ [EvLog INFO ("Executing command: " ++ Kafka.get_pods ns)%string])).
    apply splitlines_nil_iff in Hempty. now rewrite Hempty. }
  split; [|split].
  - intros fuel t1 b. unfold Kafka.wait_for_pods, bind, log, emit.
    now apply kafka_wait_loop_never_ready.
  - intros fuel t1 u. unfold Dashboard.wait_for_pods, bind, log, emit.
    now apply dashboard_wait_loop_never_ready.
  - intros Hi fuel Hf.
    destruct (rounds_spec timeout interval Hi) as [Hup Hlow].
    split.
    + unfold Kafka.wait_for_pods, bind, log, emit.
      destruct (kafka_wait_loop_times_out w ns timeout interval Hi Hk
                  (rounds timeout interval) 0 fuel
                  (t0 ++ [EvLog INFO
                    "Waiting for Streaming pods to be in Ready state (all containers ready)..."]))
        as (t' & E & Hp & Hs & _); [lia | intros H; specialize (Hlow H); lia | lia |].
      eexists (_ :: t'). rewrite E. split; [now rewrite <- app_assoc|].
      unfold polls in *. cbn [times_run filter is_run_of length slept].
      fold (times_run (Shell (Kafka.get_pods ns)) t'). rewrite Hp, Hs.
      split; lia.
    + unfold Dashboard.wait_for_pods, bind, log, emit.
      destruct (dashboard_wait_loop_times_out w ns timeout interval Hi Hd
                  (rounds timeout interval) 0 fuel
                  (t0 ++ [EvLog INFO
                    "Waiting for all Kubernetes Dashboard pods to be in Ready state (READY: 1/1)..."]))
        as (t' & E & Hp & Hs & _); [lia | intros H; specialize (Hlow H); lia | lia |].
      eexists (_ :: t'). rewrite E. split; [now rewrite <- app_assoc|].
      unfold polls in *. cbn [times_run filter is_run_of length slept].
      fold (times_run (Shell (Kafka.get_pods ns)) t'). rewrite Hp, Hs.
      split; lia.
Qed.

(** C10 in the world where every listing is empty, with the default
    timeout of 300 seconds and interval of 10 seconds of deploy_kafka.py:
    thirty listings, then exit. *)
Lemma empty_pod_set_is_never_ready_witness :
  exists t,
    Kafka.wait_for_pods (snapshot_world (fun _ => "")) 31 "streaming" 300 10 []
    = (Exited 1, [] ++ t ++ [EvLog ERROR "Timeout reached waiting for pods to be ready."])
    /\ polls "streaming" t = 30%nat
    /\ 300 <= slept t.
Proof.
  refine (proj1 (proj2 (proj2
            (empty_pod_set_is_never_ready (snapshot_world (fun _ => "")) "streaming"
               300 10 [] _)) _ 31%nat _)).
  - intros t. reflexivity.
  - lia.
  - vm_compute. lia.
Defined.

(* ===================================================================== *)
(** ** The readiness predicate *)
(* ===================================================================== *)

Lemma kafka_all_ready_after_true (lines : list string) :
  Kafka.all_ready_after lines true = true
  <-> Forall (fun line => Kafka.line_ready line <> Some false) lines.
Proof.
  induction lines as [|l r IH]; [now split|].
  cbn [Kafka.all_ready_after].
  destruct (Kafka.line_ready l) as [[|]|] eqn:E.
  - rewrite IH. split; [intros H; constructor; [congruence|exact H]|now inversion 1].
  - rewrite kafka_all_ready_after_false. split; [discriminate|].
    inversion 1; congruence.
  - rewrite IH. split; [intros H; constructor; [congruence|exact H]|now inversion 1].
Qed.

Lemma dashboard_all_ready_after_false (lines : list string) :
  Dashboard.all_ready_after lines false = false.
Proof.
  induction lines as [|l r IH]; [reflexivity|].
  simpl. now destruct (Dashboard.line_ready l) as [[|]|].
Qed.

Lemma dashboard_all_ready_after_true (lines : list string) :
  Dashboard.all_ready_after lines true = true
  <-> Forall (fun line => Dashboard.line_ready line <> Some false) lines.
Proof.
  induction lines as [|l r IH]; [now split|].
  cbn [Dashboard.all_ready_after].
  destruct (Dashboard.line_ready l) as [[|]|] eqn:E.
  - rewrite IH. split; [intros H; constructor; [congruence|exact H]|now inversion 1].
  - rewrite dashboard_all_ready_after_false. split; [discriminate|].
    inversion 1; congruence.
  - rewrite IH. split; [intros H; constructor; [congruence|exact H]|now inversion 1].
Qed.

(** One attempt of the waiter of deploy_mysql.py: the READY column is not
    read; the attempt succeeds iff the listing of phases succeeded and
    contains the word Running. *)
Lemma mysql_wait_attempt (w : World) (left : nat) (app_label : string) (t : Trace) :
  let c := Argv ["kubectl"; "get"; "pods"; "-n"; "database"; "-l";
                 ("app=" ++ app_label)%string; "-o"; "custom-columns=:status.phase"] in
  let r := subprocess_result w t c in
  Mysql.wait_attempts w (S left) app_label t
  = if (returncode r =? 0) && PyStr.contains "Running" (stdout r)
    then (Returned true, t ++ [EvRun c r])
    else Mysql.wait_attempts w left app_label (t ++ [EvRun c r; EvSleep 10]).
Proof.
  cbv zeta. cbn [Mysql.wait_attempts].
  unfold bind at 1. unfold try_except, bind at 1, subprocess_run.
  cbn [andb]. destruct (returncode _ =? 0) eqn:Erc; cbn [negb andb].
  - unfold ret at 1. destruct (PyStr.contains "Running" _); [reflexivity|].
    unfold bind, sleep, emit. cbn. now rewrite <- app_assoc.
  - cbn [is_CalledProcessError]. unfold ret at 1.
    unfold bind, sleep, emit. cbn. now rewrite <- app_assoc.
Qed.

(** C5 (amended). The readiness predicate of each waiter, on a line of the
    listing with at least two columns whose second column is [ready].
    deploy_kafka.py: when [ready] reads as two integers x/y the pod counts
    as ready iff x = y, and y >= 1 is not asked for; when it does not read
    so the pod is not ready. deploy_kubernetes_dashboard.py: the pod counts
    as ready iff [ready] is the text 1/1. In both, a listing ends the wait
    iff it is not empty and no line with two columns fails the predicate, and
    a round of the loop returns when the listing does so and otherwise sleeps
    and goes round again. deploy_mysql.py does not read the ratio: an attempt
    succeeds iff the listing of the pods' phases succeeded and contains the
    word Running. *)
Theorem readiness_predicate_of_each_waiter :
  (forall line name ready rest x y,
      PyStr.split line = name :: ready :: rest ->
      Kafka.parse_ready ready = Some (x, y) ->
      (Kafka.line_ready line = Some true <-> x = y))
  /\ (forall line name ready rest,
      PyStr.split line = name :: ready :: rest ->
      Kafka.parse_ready ready = None ->
      Kafka.line_ready line = Some false)
  /\ (forall line name ready rest,
      PyStr.split line = name :: ready :: rest ->
      (Dashboard.line_ready line = Some true <-> ready = "1/1"))
  /\ (forall output,
      Kafka.poll_ready output = true
      <-> output <> "" /\
          Forall (fun line => Kafka.line_ready line <> Some false)
                 (PyStr.splitlines output))
  /\ (forall output,
      Dashboard.poll_ready output = true
      <-> output <> "" /\
          Forall (fun line => Dashboard.line_ready line <> Some false)
                 (PyStr.splitlines output))
  /\ (forall w fuel ns timeout interval elapsed t,
      elapsed < timeout ->
      exists round,
        polls ns round = 1%nat /\
        Kafka.wait_loop w (S fuel) ns timeout interval elapsed t
        = if Kafka.poll_ready (poll_output w ns t) then
            (Returned true,
             t ++ round ++
               [EvLog INFO "All pods are ready (all containers in each pod are running)."])
          else if interval <? 0 then (Raised ValueError, t ++ round)
          else Kafka.wait_loop w fuel ns timeout interval (elapsed + interval)
                 (t ++ round ++ [EvSleep interval]))
  /\ (forall w fuel ns timeout interval elapsed t,
      elapsed < timeout ->
      exists round,
        polls ns round = 1%nat /\
        Dashboard.wait_loop w (S fuel) ns timeout interval elapsed t
        = if Dashboard.poll_ready (poll_output w ns t) then
            (Returned tt, t ++ round ++ [EvLog INFO "All pods are ready (READY: 1/1)."])
          else if interval <? 0 then (Raised ValueError, t ++ round)
          else Dashboard.wait_loop w fuel ns timeout interval (elapsed + interval)
                 (t ++ round ++ [EvSleep interval]))
  /\ (forall w left app_label t,
      let c := Argv ["kubectl"; "get"; "pods"; "-n"; "database"; "-l";
                     ("app=" ++ app_label)%string; "-o"; "custom-columns=:status.phase"] in
      let r := subprocess_result w t c in
      Mysql.wait_attempts w (S left) app_label t
      = if (returncode r =? 0) && PyStr.contains "Running" (stdout r)
        then (Returned true, t ++ [EvRun c r])
        else Mysql.wait_attempts w left app_label (t ++ [EvRun c r; EvSleep 10])).
Proof.
  repeat apply conj.
  - intros line name ready rest x y Hs Hp.
    rewrite (kafka_line_ready_ratio _ _ _ _ Hs), Hp.
    split; [intros [= H]; now apply Z.eqb_eq|intros ->; now rewrite Z.eqb_refl].
  - intros line name ready rest Hs Hp.
    now rewrite (kafka_line_ready_ratio _ _ _ _ Hs), Hp.
  - intros line name ready rest Hs. unfold Dashboard.line_ready. rewrite Hs.
    cbn [length Nat.ltb Nat.leb nth]. unfold PyStr.eqb.
    split; [intros [= H]; now apply String.eqb_eq|intros ->; reflexivity].
  - intros output. unfold Kafka.poll_ready.
    rewrite andb_true_iff, truthy_true_iff, kafka_all_ready_after_true. reflexivity.
  - intros output. unfold Dashboard.poll_ready.
    rewrite andb_true_iff, truthy_true_iff, dashboard_all_ready_after_true. reflexivity.
  - intros w fuel ns timeout interval elapsed t Hlt.
    destruct (kafka_wait_round w fuel ns timeout interval elapsed t Hlt)
      as (round & Hp & _ & _ & E).
    now exists round.
  - intros w fuel ns timeout interval elapsed t Hlt.
    destruct (dashboard_wait_round w fuel ns timeout interval elapsed t Hlt)
      as (round & Hp & _ & _ & E).
    now exists round.
  - intros w left app_label t. apply mysql_wait_attempt.
Qed.

(** The amended C5 on a pod of deploy_kafka.py with one container that is
    ready. *)
Lemma readiness_predicate_of_each_waiter_witness :
  Kafka.line_ready "kafka-0 1/1 Running 0 2m" = Some true <-> 1 = 1.
Proof.
  apply (proj1 readiness_predicate_of_each_waiter
           "kafka-0 1/1 Running 0 2m" "kafka-0" "1/1" ["Running"; "0"; "2m"] 1 1).
  - reflexivity.
  - reflexivity.
Defined.

(** C5 as stated fails. A READY column 0/0 has x = y but not y >= 1, and
    the waiter of deploy_kafka.py counts the pod as ready and returns at the
    first listing; a READY column 2/2 has x = y and y >= 1, and the waiter of
    deploy_kubernetes_dashboard.py counts the pod as not ready and exits
    with status 1 when the timeout is reached. *)
Lemma readiness_predicate_counterexample :
  (Kafka.parse_ready "0/0" = Some (0, 0)
   /\ Kafka.line_ready "kafka-0 0/0 Pending 0 1s" = Some true
   /\ ~ (0 = 0 /\ 0 >= 1)
   /\ fst (Kafka.wait_for_pods (snapshot_world (fun _ => "kafka-0 0/0 Pending 0 1s"))
             2 "streaming" 300 10 []) = Returned true)
  /\ (Kafka.parse_ready "2/2" = Some (2, 2)
      /\ Dashboard.line_ready "kubernetes-dashboard-web 2/2 Running 0 1m" = Some false
      /\ (2 = 2 /\ 2 >= 1)
      /\ fst (Dashboard.wait_for_pods
                (snapshot_world (fun _ => "kubernetes-dashboard-web 2/2 Running 0 1m"))
                3 "kubernetes-dashboard" 300 150 []) = Exited 1).
Proof.
  repeat apply conj; try reflexivity; try lia.
Qed.

(* ===================================================================== *)
(** ** Classification of a listing *)
(* ===================================================================== *)

Lemma prefix_empty (s : string) : String.prefix "" s = true.
Proof. now destruct s. Qed.

Lemma prefix_app (n a b : string) :
  String.prefix n a = true -> String.prefix n (a ++ b)%string = true.
Proof.
  revert n. induction a as [|c' a IH]; intros n H.
  - destruct n; [apply prefix_empty|discriminate].
  - destruct n as [|c n]; [apply prefix_empty|]. simpl in *.
    destruct (ascii_dec c c'); [auto|discriminate].
Qed.

Lemma contains_app_l (n a b : string) :
  PyStr.contains n a = true -> PyStr.contains n (a ++ b)%string = true.
Proof.
  induction a as [|c a IH]; intros H.
  - simpl in H. rewrite orb_false_r in H. destruct n; [|discriminate].
    destruct b; reflexivity || (cbn; now rewrite prefix_empty).
  - cbn [PyStr.contains] in H. apply orb_true_iff in H as [H|H].
    + change (String c a ++ b)%string with (String c (a ++ b)%string).
      cbn [PyStr.contains].
      change (String c (a ++ b)%string) with (String c a ++ b)%string.
      now rewrite (prefix_app _ _ b H).
    + change (String c a ++ b)%string with (String c (a ++ b)%string).
      cbn [PyStr.contains]. rewrite (IH H). apply orb_true_r.
Qed.

Lemma contains_app_r (n a b : string) :
  PyStr.contains n b = true -> PyStr.contains n (a ++ b)%string = true.
Proof.
  intros H. induction a as [|c a IH]; [exact H|].
  change (String c a ++ b)%string with (String c (a ++ b)%string).
  cbn [PyStr.contains]. rewrite IH. apply orb_true_r.
Qed.

Lemma lower_app (a b : string) :
  PyStr.lower (a ++ b)%string = (PyStr.lower a ++ PyStr.lower b)%string.
Proof. induction a as [|c a IH]; [reflexivity|]. simpl. now rewrite IH. Qed.

Lemma split_on_head (sep : ascii) (s h : string) (t : list string) :
  PyStr.split_on sep s = h :: t -> exists b, s = (h ++ b)%string.
Proof.
  revert h t. induction s as [|c r IH]; intros h t E.
  - injection E as <- <-. now exists "".
  - simpl in E. destruct (Ascii.eqb c sep).
    + injection E as <- <-. now exists (String c r).
    + destruct (PyStr.split_on sep r) as [|h' t'] eqn:Er.
      * injection E as <- <-. destruct r as [|c' r'].
        -- now exists "".
        -- simpl in Er. destruct (Ascii.eqb c' sep); [discriminate|].
           destruct (PyStr.split_on sep r'); discriminate.
      * injection E as <- <-. destruct (IH _ _ eq_refl) as [b ->].
        now exists b.
Qed.

(** A piece of [s.split(sep)] is a part of [s]. *)
Lemma split_on_in (sep : ascii) (s l : string) :
  In l (PyStr.split_on sep s) -> exists a b, s = (a ++ l ++ b)%string.
Proof.
  revert l. induction s as [|c r IH]; intros l H.
  - destruct H as [<-|[]]. now exists "", "".
  - simpl in H. destruct (Ascii.eqb c sep).
    + destruct H as [<-|H]; [now exists "", (String c r)|].
      destruct (IH _ H) as (a & b & ->). now exists (String c a), b.
    + destruct (PyStr.split_on sep r) as [|h t] eqn:Er.
      * destruct H as [<-|[]].
        destruct r as [|c' r']; [now exists "", ""|].
        simpl in Er. destruct (Ascii.eqb c' sep); [discriminate|].
        destruct (PyStr.split_on sep r'); discriminate.
      * destruct H as [<-|H].
        -- destruct (split_on_head _ _ _ _ Er) as [b ->]. now exists "", b.
        -- destruct (IH l (or_intror H)) as (a & b & ->).
           now exists (String c a), b.
Qed.

(** A word found in a line of a text, lower-cased, is found in the text,
    lower-cased. *)
Lemma contains_lower_line (word resources line : string) :
  In line (PyStr.split_on PyStr.LF resources) ->
  PyStr.contains word (PyStr.lower line) = true ->
  PyStr.contains word (PyStr.lower resources) = true.
Proof.
  intros Hin Hc. destruct (split_on_in _ _ _ Hin) as (a & b & ->).
  rewrite !lower_app. apply contains_app_r, contains_app_l, Hc.
Qed.

Lemma mysql_unexpected_in_spec (lines : list string) :
  Mysql.unexpected_in lines
  = negb (forallb mysql_owned (filter mysql_entry lines)).
Proof.
  induction lines as [|l r IH]; [reflexivity|].
  cbn [Mysql.unexpected_in filter]. fold (mysql_owned l). fold (mysql_entry l).
  destruct (mysql_owned l) eqn:Eo.
  - rewrite IH. destruct (mysql_entry l); [|reflexivity].
    cbn [forallb]. now rewrite Eo.
  - destruct (mysql_entry l); [|exact IH].
    cbn [forallb]. now rewrite Eo.
Qed.

Lemma ecom_lines_belong_spec (lines : list string) :
  Ecom.lines_belong_to_app lines
  = forallb ecom_owned (map name_of (filter ecom_entry lines)).
Proof.
  induction lines as [|l r IH]; [reflexivity|].
  cbn [Ecom.lines_belong_to_app filter]. unfold ecom_entry at 1.
  destruct (PyStr.startswith l "NAME"); [exact IH|].
  destruct (PyStr.eqb (PyStr.strip l) ""); [exact IH|].
  cbn [negb andb map forallb]. fold (name_of l). fold (ecom_owned (name_of l)).
  rewrite IH. now destruct (ecom_owned (name_of l)).
Qed.

Lemma spec_classify_forallb (owned : string -> bool) (entries : list string) :
  entries <> [] ->
  spec_classify owned entries = if forallb owned entries then AllOwned else Mixed.
Proof. destruct entries; [congruence|reflexivity]. Qed.

Lemma mysql_entries_mention (resources : string) :
  mysql_entries resources <> [] ->
  forallb mysql_owned (mysql_entries resources) = true ->
  mysql_mentions resources = true.
Proof.
  unfold mysql_entries. intros Hne Hall.
  destruct (filter mysql_entry (PyStr.split_on PyStr.LF resources)) as [|e es] eqn:E;
    [congruence|].
  assert (Hin : In e (PyStr.split_on PyStr.LF resources)).
  { eapply proj1. apply filter_In. rewrite E. now left. }
  cbn [forallb] in Hall. apply andb_prop in Hall as [He _].
  unfold mysql_owned in He. cbn [existsb] in He. rewrite orb_false_r in He.
  unfold mysql_mentions.
  apply orb_true_iff in He as [He|He];
    rewrite (contains_lower_line _ _ _ Hin He); [reflexivity|apply orb_true_r].
Qed.

(** C1 (amended). The classification of each script against the trichotomy
    of the specification. deploy_ecom_app.py: the entries are the lines not
    starting with NAME and not blank, the predicate tests the name (the
    first column); the script's classification is the trichotomy whenever
    the listing has an entry or is empty, and a listing that is not empty
    but has no entry is AllOwned. deploy_mysql.py: the entries are the lines
    not empty and not starting with NAME, the predicate tests the whole
    lower-cased line; the script's classification is the trichotomy
    whenever the listing has an entry or does not mention mysql or
    phpmyadmin at all, and a listing without entry that mentions one of them
    is AllOwned. *)
Theorem classification_of_listings :
  (forall resources_output,
      ecom_entries resources_output <> [] \/ resources_output = "" ->
      ecom_classification resources_output
      = spec_classify ecom_owned (map name_of (ecom_entries resources_output)))
  /\ (forall resources_output,
      resources_output <> "" -> ecom_entries resources_output = [] ->
      ecom_classification resources_output = AllOwned)
  /\ (forall resources,
      mysql_entries resources <> [] \/ mysql_mentions resources = false ->
      mysql_classification resources
      = spec_classify mysql_owned (mysql_entries resources))
  /\ (forall resources,
      mysql_entries resources = [] -> mysql_mentions resources = true ->
      mysql_classification resources = AllOwned).
Proof.
  assert (Hm : forall resources,
             mysql_classification resources
             = if negb (PyStr.truthy resources) then Empty
               else if negb (forallb mysql_owned (mysql_entries resources)) then Mixed
               else if mysql_mentions resources then AllOwned else Empty).
  { intros resources. unfold mysql_classification, Mysql.classify.
    rewrite mysql_unexpected_in_spec. fold (mysql_entries resources).
    fold (mysql_mentions resources).
    destruct (PyStr.truthy resources); [|reflexivity]. cbn [negb].
    destruct (forallb mysql_owned (mysql_entries resources)); [|reflexivity].
    cbn [negb]. now destruct (mysql_mentions resources). }
  repeat apply conj.
  - intros out H. unfold ecom_classification, Ecom.resources_belong_to_app.
    rewrite ecom_lines_belong_spec. fold (ecom_entries out).
    destruct H as [H| ->]; [|reflexivity].
    assert (Ht : PyStr.truthy out = true).
    { apply truthy_true_iff. intros ->. now apply H. }
    rewrite Ht. rewrite spec_classify_forallb; [reflexivity|].
    destruct (ecom_entries out); [congruence|discriminate].
  - intros out Hne He. unfold ecom_classification, Ecom.resources_belong_to_app.
    rewrite ecom_lines_belong_spec. fold (ecom_entries out). rewrite He.
    apply truthy_true_iff in Hne. now rewrite Hne.
  - intros resources H. rewrite Hm.
    destruct (PyStr.truthy resources) eqn:Ht; cbn [negb].
    + destruct (mysql_entries resources) as [|e es] eqn:E.
      * destruct H as [H|H]; [congruence|]. cbn. now rewrite H.
      * rewrite spec_classify_forallb by discriminate.
        destruct (forallb mysql_owned (e :: es)) eqn:Ef; [|reflexivity].
        cbn [negb]. rewrite mysql_entries_mention; [reflexivity| |];
          rewrite E; [discriminate|exact Ef].
    + apply truthy_false_iff in Ht. subst resources. reflexivity.
  - intros resources He Hmn. rewrite Hm, He, Hmn.
    destruct (PyStr.truthy resources) eqn:Ht; [reflexivity|].
    apply truthy_false_iff in Ht. subst resources. discriminate Hmn.
Qed.

(** The amended C1 on a listing of deploy_ecom_app.py with one resource of
    the application and one foreign pod: Mixed. *)
Lemma classification_of_listings_witness :
  ecom_classification
    (PyStr.text ["NAME READY STATUS RESTARTS AGE";
                 "pod/ecommerce-application-0 1/1 Running 0 2m";
                 "pod/foo-bar 1/1 Running 0 5m"])
  = spec_classify ecom_owned
      (map name_of (ecom_entries
         (PyStr.text ["NAME READY STATUS RESTARTS AGE";
                      "pod/ecommerce-application-0 1/1 Running 0 2m";
                      "pod/foo-bar 1/1 Running 0 5m"]))).
Proof.
  apply (proj1 classification_of_listings).
  left. vm_compute. discriminate.
Defined.

(** C1 as stated fails. For deploy_ecom_app.py a listing of one header
    line has no entry and is classified AllOwned, not Empty: the script
    returns without deploying. For deploy_mysql.py the predicate is not
    applied to the name: a service named service/cache whose external name
    mentions mysql does not satisfy it by name, so the trichotomy on names
    says Mixed, and the script says expected (AllOwned). *)
Lemma classification_counterexample :
  (ecom_entries "NAME READY STATUS RESTARTS AGE" = []
   /\ spec_classify ecom_owned
        (map name_of (ecom_entries "NAME READY STATUS RESTARTS AGE")) = Empty
   /\ ecom_classification "NAME READY STATUS RESTARTS AGE" = AllOwned
   /\ fst (Ecom.manage_existing_resources
             (scripted (fun _ _ => Completed 0 "NAME READY STATUS RESTARTS AGE" "")
                (fun _ => None) "muser")
             "application" []) = Returned None)
  /\ (let listing :=
        PyStr.text ["NAME TYPE CLUSTER-IP EXTERNAL-IP PORT(S) AGE";
                    "service/cache ExternalName <none> mysql.example.com 3306/TCP 5d"] in
      map name_of (mysql_entries listing) = ["service/cache"]
      /\ mysql_owned "service/cache" = false
      /\ spec_classify mysql_owned (map name_of (mysql_entries listing)) = Mixed
      /\ Mysql.classify listing = "expected"
      /\ mysql_classification listing = AllOwned).
Proof. repeat apply conj; reflexivity. Qed.

(* ===================================================================== *)
(** ** Scripts that only add events of one kind *)
(* ===================================================================== *)

Section Only.
Variable P : Event -> bool.
Variable w : World.

Lemma only_ret {A} (a : A) : only P (ret a).
Proof. intros t. exists []. now rewrite app_nil_r. Qed.

Lemma only_raise {A} (e : Exn) : only P (@raise A e).
Proof. intros t. exists []. now rewrite app_nil_r. Qed.

Lemma only_sys_exit {A} (c : Z) : only P (@sys_exit A c).
Proof. intros t. exists []. now rewrite app_nil_r. Qed.

Lemma only_out_of_fuel {A} : only P (@out_of_fuel A).
Proof. intros t. exists []. now rewrite app_nil_r. Qed.

Lemma only_bind {A B} (m : Script A) (k : A -> Script B) :
  only P m -> (forall a, only P (k a)) -> only P (bind m k).
Proof.
  intros Hm Hk t. unfold bind. destruct (Hm t) as (e1 & E1 & P1).
  destruct (m t) as [[a|e|c|] t1]; cbn [snd] in *; subst t1;
    try (exists e1; now split).
  destruct (Hk a (t ++ e1)) as (e2 & E2 & P2).
  exists (e1 ++ e2). rewrite E2, app_assoc, forallb_app, P1, P2. now split.
Qed.

Lemma only_try_except {A} (body : Script A) (catches : Exn -> bool)
    (handler : Exn -> Script A) :
  only P body -> (forall e, only P (handler e)) ->
  only P (try_except body catches handler).
Proof.
  intros Hm Hk t. unfold try_except. destruct (Hm t) as (e1 & E1 & P1).
  destruct (body t) as [[a|e|c|] t1]; cbn [snd] in *; subst t1;
    try (exists e1; now split).
  destruct (catches e); [|exists e1; now split].
  destruct (Hk e (t ++ e1)) as (e2 & E2 & P2).
  exists (e1 ++ e2). rewrite E2, app_assoc, forallb_app, P1, P2. now split.
Qed.

Lemma only_emit (e : Event) : P e = true -> only P (emit e).
Proof. intros H t. exists [e]. cbn. now rewrite H. Qed.

Lemma only_log (l : Level) (m : string) : P (EvLog l m) = true -> only P (log l m).
Proof. apply only_emit. Qed.

Lemma only_print (m : string) : P (EvPrint m) = true -> only P (print m).
Proof. apply only_emit. Qed.

Lemma only_sleep (secs : Z) : P (EvSleep secs) = true -> only P (sleep secs).
Proof.
  intros H. unfold sleep. destruct (secs <? 0); [apply only_raise|now apply only_emit].
Qed.

Lemma only_subprocess_run (c : Command) (check : bool) :
  (forall r, P (EvRun c r) = true) -> only P (subprocess_run w c check).
Proof.
  intros H t. unfold subprocess_run. eexists [_].
  destruct (check && _); cbn; now rewrite H.
Qed.

Lemma only_input (prompt : string) :
  (forall a, P (EvInput prompt a) = true) -> only P (input w prompt).
Proof.
  intros H t. unfold input. exists [EvInput prompt (terminal_line w t prompt)].
  destruct (terminal_line w t prompt); cbn; now rewrite H.
Qed.

Lemma only_getuser : (forall u, P (EvUser u) = true) -> only P (getuser w).
Proof. intros H t. unfold getuser. eexists [_]. cbn. now rewrite H. Qed.

Lemma only_mkdtemp : (forall d, P (EvTemp d) = true) -> only P (mkdtemp w).
Proof. intros H t. unfold mkdtemp. eexists [_]. cbn. now rewrite H. Qed.

Lemma only_fs_test (op : FsOp) : (forall b, P (EvFs op b) = true) -> only P (fs_test w op).
Proof. intros H t. unfold fs_test. eexists [_]. cbn. now rewrite H. Qed.

Lemma only_fs_do (op : FsOp) (e : Exn) :
  (forall b, P (EvFs op b) = true) -> only P (fs_do w op e).
Proof.
  intros H t. unfold fs_do. exists [EvFs op (fs_result w t op)].
  destruct (fs_result w t op); cbn; now rewrite H.
Qed.

Lemma only_missing_of (test : string -> Script bool) (files : list string) :
  (forall f, only P (test f)) -> only P (missing_of test files).
Proof.
  intros H. induction files as [|f r IH]; cbn [missing_of]; [apply only_ret|].
  apply only_bind; [apply H|intros present].
  apply only_bind; [exact IH|intros missing]. apply only_ret.
Qed.

End Only.

(** The script steps through its text: binds, handlers, branches and the
    primitive operations, whose events are tested by computation. *)
Ltac only_step :=
  first
    [ apply only_ret | apply only_raise | apply only_sys_exit | apply only_out_of_fuel
    | apply only_bind; [|intros ?]
    | apply only_try_except; [|intros ?]
    | apply only_log; reflexivity
    | apply only_print; reflexivity
    | apply only_sleep; reflexivity
    | apply only_subprocess_run; intros ?; reflexivity
    | apply only_input; intros ?; reflexivity
    | apply only_getuser; intros ?; reflexivity
    | apply only_mkdtemp; intros ?; reflexivity
    | apply only_fs_test; intros ?; reflexivity
    | apply only_fs_do; intros ?; reflexivity
    | apply only_missing_of; intros ?
    | match goal with
      | |- only _ (if ?b then _ else _) => destruct b
      | |- only _ (match ?x with _ => _ end) => destruct x
      end ].

Ltac only_steps := repeat only_step.

Section OnlyScripts.
Variable w : World.

Lemma mysql_preconditions_not_apply : only not_apply (Mysql.preconditions w).
Proof.
  unfold Mysql.preconditions, Mysql.verify_user, Mysql.verify_directories,
    Mysql.verify_files, Mysql.check_minikube_status, Mysql.manage_namespace,
    Mysql.print_message.
  only_steps.
Qed.

Lemma mysql_get_namespace_resources_not_mutation :
  only not_mutation (Mysql.get_namespace_resources w).
Proof. unfold Mysql.get_namespace_resources. only_steps. Qed.

Lemma mysql_display_resources_not_mutation : only not_mutation (Mysql.display_resources w).
Proof.
  unfold Mysql.display_resources, Mysql.get_namespace_resources, Mysql.print_message.
  only_steps.
Qed.

Lemma ecom_preconditions_not_apply : only not_apply (Ecom.preconditions w).
Proof.
  unfold Ecom.preconditions, Ecom.check_user, Ecom.ensure_directory,
    Ecom.change_directory, Ecom.verify_files, Ecom.fetch_files,
    Ecom.check_minikube_status, Ecom.ensure_namespace.
  only_steps.
  all: try (generalize Ecom.REQUIRED_FILES; intros files;
            induction files as [|f r IH]; cbn [Ecom.copy_fetched]; only_steps; exact IH).
Qed.

End OnlyScripts.

(* ===================================================================== *)
(** ** The inspection of the namespace *)
(* ===================================================================== *)

Lemma only_run {A} (P : Event -> bool) (m : Script A) (t t' : Trace) (o : Outcome A) :
  only P m -> m t = (o, t') -> exists evs, t' = t ++ evs /\ forallb P evs = true.
Proof. intros H E. destruct (H t) as (evs & E' & HP). rewrite E in E'. now exists evs. Qed.

Lemma not_apply_calls (evs : Trace) : forallb not_apply evs = true -> apply_calls evs = 0%nat.
Proof.
  unfold apply_calls. induction evs as [|e r IH]; [reflexivity|].
  cbn [forallb filter]. intros H. apply andb_prop in H as [He Hr].
  unfold not_apply in He. destruct (is_apply e); [discriminate|]. auto.
Qed.

Lemma not_mutation_not_apply (evs : Trace) :
  forallb not_mutation evs = true -> forallb not_apply evs = true.
Proof.
  induction evs as [|e r IH]; [reflexivity|].
  cbn [forallb]. intros H. apply andb_prop in H as [He Hr].
  rewrite (IH Hr), andb_true_r. unfold not_mutation, not_apply in *.
  destruct e as [[[|prog [|verb args]]|]| | | | | | |]; try reflexivity.
  cbn [is_apply is_mutation PyStr.mem existsb] in *.
  fold (PyStr.eqb verb "apply") in He.
  destruct (PyStr.eqb prog "kubectl"); [|reflexivity].
  now destruct (PyStr.eqb verb "apply").
Qed.

Section Inspection.
Variable w : World.

Local Arguments String.append : simpl never.

(** [get_namespace_resources] of deploy_mysql.py runs the listing once and
    adds nothing else to the history: it returns the standard output when
    the command succeeds and the empty text when it fails. *)
Lemma mysql_get_namespace_resources_spec (t : Trace) :
  let r := subprocess_result w t mysql_get_all in
  Mysql.get_namespace_resources w t
  = (Returned (if returncode r =? 0 then stdout r else ""), t ++ [EvRun mysql_get_all r]).
Proof.
  cbv zeta. unfold Mysql.get_namespace_resources, try_except, bind, subprocess_run.
  fold mysql_get_all. cbn [andb].
  now destruct (returncode (subprocess_result w t mysql_get_all) =? 0).
Qed.

(** [get_resources] of deploy_ecom_app.py: the trimmed standard output
    when the listing succeeds; when it fails, an error is logged and the
    empty text is returned. *)
Lemma ecom_get_resources_spec (namespace : string) (t : Trace) :
  let c := ecom_get_all namespace in
  let r := subprocess_result w t c in
  Ecom.get_resources w namespace t
  = if returncode r =? 0
    then (Returned (PyStr.strip (stdout r)), t ++ [EvRun c r])
    else (Returned "",
          t ++ [EvRun c r;
                EvLog ERROR ("Error getting resources from namespace '" ++ namespace
                             ++ "': CalledProcessError")%string]).
Proof.
  cbv zeta. unfold Ecom.get_resources, try_except, bind, subprocess_run.
  fold (ecom_get_all namespace). cbn [andb].
  destruct (returncode (subprocess_result w t (ecom_get_all namespace)) =? 0);
    cbn [negb is_CalledProcessError]; [reflexivity|].
  unfold log, emit, ret. cbn [str_exn]. now rewrite <- app_assoc.
Qed.

Lemma mysql_display_resources_returns (t : Trace) :
  exists evs,
    Mysql.display_resources w t = (Returned tt, t ++ evs)
    /\ forallb not_mutation evs = true.
Proof.
  destruct (mysql_display_resources_not_mutation w t) as (evs & E & HP).
  exists evs. split; [|exact HP].
  rewrite <- E. unfold Mysql.display_resources, bind, Mysql.print_message, log, emit.
  rewrite mysql_get_namespace_resources_spec. reflexivity.
Qed.

Lemma ecom_display_resources_returns (resources_output : string) (t : Trace) :
  exists evs,
    Ecom.display_resources resources_output t = (Returned tt, t ++ evs)
    /\ forallb not_mutation evs = true.
Proof.
  eexists [EvPrint _; EvPrint _; EvPrint _; EvLog _ _]. split; [|reflexivity].
  unfold Ecom.display_resources, bind, print, log, emit.
  now rewrite <- !app_assoc.
Qed.

End Inspection.

(** C2. Deploy is strictly idempotent. deploy_mysql.py: when the steps
    before the inspection pass and [check_existing_resources] says
    expected, [run] returns normally, its last event is the message that the
    deployment already exists, and it has run no [kubectl apply].
    deploy_ecom_app.py: when the steps before the inspection pass and the
    listing is not empty and all of the application, [perform_installation]
    returns normally, its last event is the message that the resources are
    already running, and it has run no [kubectl apply]. The history [t0] is
    any: in particular the one a first run has left. *)
Theorem deploy_is_idempotent :
  (forall (w : World) (t0 t1 t2 : Trace),
      Mysql.preconditions w t0 = (Returned tt, t1) ->
      Mysql.check_existing_resources w t1 = (Returned "expected", t2) ->
      exists evs,
        Mysql.run w t0
        = (Returned tt,
           t0 ++ evs ++ [EvLog INFO "Deployment already exists with expected resources"])
        /\ apply_calls evs = 0%nat)
  /\ (forall (w : World) (t0 t1 t2 : Trace) (resources_output : string),
      Ecom.preconditions w t0 = (Returned tt, t1) ->
      Ecom.get_resources w "application" t1 = (Returned resources_output, t2) ->
      ecom_classification resources_output = AllOwned ->
      exists evs,
        Ecom.perform_installation w t0
        = (Returned tt,
           t0 ++ evs ++ [EvLog INFO "Exiting since application resources are already running."])
        /\ apply_calls evs = 0%nat)
  /\ (forall (w : World) (t t0 t1 t2 : Trace),
      Mysql.run w t = (Returned tt, t0) ->
      Mysql.preconditions w t0 = (Returned tt, t1) ->
      Mysql.check_existing_resources w t1 = (Returned "expected", t2) ->
      exists evs,
        (Mysql.run w ;; Mysql.run w)%script t
        = (Returned tt,
           t0 ++ evs ++ [EvLog INFO "Deployment already exists with expected resources"])
        /\ apply_calls evs = 0%nat).
Proof.
  assert (Hmysql : forall (w : World) (t0 t1 t2 : Trace),
      Mysql.preconditions w t0 = (Returned tt, t1) ->
      Mysql.check_existing_resources w t1 = (Returned "expected", t2) ->
      exists evs,
        Mysql.run w t0
        = (Returned tt,
           t0 ++ evs ++ [EvLog INFO "Deployment already exists with expected resources"])
        /\ apply_calls evs = 0%nat).
  { intros w t0 t1 t2 Hpre Hchk.
    destruct (only_run _ _ _ _ _ (mysql_preconditions_not_apply w) Hpre) as (e1 & -> & P1).
    assert (Hc : only not_mutation (Mysql.check_existing_resources w)).
    { unfold Mysql.check_existing_resources, Mysql.get_namespace_resources. only_steps. }
    destruct (only_run _ _ _ _ _ Hc Hchk) as (e2 & -> & P2).
    unfold Mysql.run. unfold bind at 1. rewrite Hpre. unfold bind at 1. rewrite Hchk.
    unfold Mysql.reconcile. cbn [PyStr.eqb String.eqb Ascii.eqb Bool.eqb].
    unfold bind at 1. unfold Mysql.print_message at 1, log, emit.
    unfold bind at 1.
    destruct (mysql_display_resources_returns w
                (((t0 ++ e1) ++ e2) ++ [EvLog INFO "Current resources in database namespace:"]))
      as (e3 & E3 & P3).
    rewrite E3. unfold Mysql.print_message, log, emit.
    exists (e1 ++ e2 ++ [EvLog INFO "Current resources in database namespace:"] ++ e3).
    split; [now rewrite <- !app_assoc|].
    rewrite !apply_calls_app, (not_apply_calls _ P1),
      (not_apply_calls _ (not_mutation_not_apply _ P2)),
      (not_apply_calls _ (not_mutation_not_apply _ P3)). reflexivity. }
  split; [exact Hmysql|split].
  - intros w t0 t1 t2 out Hpre Hget Hcls.
    destruct (only_run _ _ _ _ _ (ecom_preconditions_not_apply w) Hpre) as (e1 & -> & P1).
    assert (Hg : only not_mutation (Ecom.get_resources w "application")).
    { unfold Ecom.get_resources. only_steps. }
    destruct (only_run _ _ _ _ _ Hg Hget) as (e2 & -> & P2).
    unfold ecom_classification in Hcls.
    destruct (PyStr.truthy out) eqn:Ht; [|discriminate].
    destruct (Ecom.resources_belong_to_app out) eqn:Hb; [|discriminate].
    unfold Ecom.perform_installation. unfold bind at 1. rewrite Hpre.
    unfold bind at 1. unfold Ecom.manage_existing_resources.
    unfold bind at 1. rewrite Hget, Ht, Hb.
    unfold bind at 1. unfold log at 1, emit.
    unfold bind at 1.
    destruct (ecom_display_resources_returns out
                (((t0 ++ e1) ++ e2)
                   ++ [EvLog INFO "All running resources belong to 'ecommerce-application'."]))
      as (e3 & E3 & P3).
    rewrite E3. unfold bind, log, emit, ret. cbn [Ecom.falsy].
    exists (e1 ++ e2
              ++ [EvLog INFO "All running resources belong to 'ecommerce-application'."] ++ e3).
    split; [now rewrite <- !app_assoc|].
    rewrite !apply_calls_app, (not_apply_calls _ P1),
      (not_apply_calls _ (not_mutation_not_apply _ P2)),
      (not_apply_calls _ (not_mutation_not_apply _ P3)). reflexivity.
  - intros w t t0 t1 t2 Hfirst Hpre Hchk.
    unfold bind at 1. rewrite Hfirst. now apply (Hmysql w t0 t1 t2).
Qed.

(** C2 on a cluster whose database namespace holds one pod of MySQL: the
    run of deploy_mysql.py returns without a [kubectl apply]. *)
Lemma deploy_is_idempotent_witness :
  exists evs,
    Mysql.run (cluster (PyStr.text ["NAME READY STATUS RESTARTS AGE";
                                    "pod/mysql-0 1/1 Running 0 2m"])
                      (fun _ => None)) []
    = (Returned tt,
       [] ++ evs ++ [EvLog INFO "Deployment already exists with expected resources"])
    /\ apply_calls evs = 0%nat.
Proof.
  eapply (proj1 deploy_is_idempotent); reflexivity.
Defined.

(* ===================================================================== *)
(** ** The operator's decision *)
(* ===================================================================== *)

Section Decision.
Variable w : World.

Lemma mysql_wait_attempts_any (left : nat) (app_label : string) :
  only any_event (Mysql.wait_attempts w left app_label).
Proof.
  induction left as [|left IH]; cbn [Mysql.wait_attempts]; only_steps. exact IH.
Qed.

Lemma mysql_manage_namespace_any : only any_event (Mysql.manage_namespace w).
Proof. unfold Mysql.manage_namespace, Mysql.print_message. only_steps. Qed.

Lemma mysql_display_resources_any : only any_event (Mysql.display_resources w).
Proof.
  unfold Mysql.display_resources, Mysql.get_namespace_resources, Mysql.print_message.
  only_steps.
Qed.

(** A script that starts by running [c] leaves a history in which the run
    of [c] is the next event. *)
Lemma snd_bind_run {A} (c : Command) (check : bool) (k : CompletedProcess -> Script A)
    (t : Trace) :
  (forall r, only any_event (k r)) ->
  exists rest,
    snd (bind (subprocess_run w c check) k t)
    = t ++ [EvRun c (subprocess_result w t c)] ++ rest.
Proof.
  intros Hk. unfold bind, subprocess_run.
  destruct (check && _).
  - now exists [].
  - destruct (Hk (subprocess_result w t c) (t ++ [EvRun c (subprocess_result w t c)]))
      as (rest & E & _).
    exists rest. rewrite E. now rewrite <- app_assoc.
Qed.

Lemma snd_bind_prefix {A B} (m : Script A) (k : A -> Script B) (t pre : Trace) :
  (exists rest, snd (m t) = t ++ pre ++ rest) ->
  (forall a, only any_event (k a)) ->
  exists rest, snd (bind m k t) = t ++ pre ++ rest.
Proof.
  intros [rest E] Hk. unfold bind.
  destruct (m t) as [[a|e|c|] t1]; cbn [snd] in *; subst t1; try now exists rest.
  destruct (Hk a (t ++ pre ++ rest)) as (rest' & E' & _).
  exists (rest ++ rest'). rewrite E'. now rewrite <- !app_assoc.
Qed.

(** Without deletion, [deploy_resources] of deploy_mysql.py starts with
    the application of mysql.yaml. *)
Lemma mysql_deploy_resources_starts_with_apply (t : Trace) :
  exists rest,
    snd (Mysql.deploy_resources w false t)
    = t ++ [EvRun (mysql_apply "mysql.yaml")
              (subprocess_result w t (mysql_apply "mysql.yaml"))] ++ rest.
Proof.
  unfold Mysql.deploy_resources. unfold bind at 1. unfold ret at 1.
  apply snd_bind_run. intros r.
  unfold Mysql.handle_kubectl_output, Mysql.print_message, Mysql.wait_for_pods_ready.
  only_steps; apply mysql_wait_attempts_any.
Qed.

End Decision.

(** C6 (amended). deploy_ecom_app.py: when the steps before the inspection
    pass, the listing is Mixed and the operator's answer, trimmed and
    lower-cased, is neither delete nor continue (abort, for one),
    [perform_installation] leaves the process with status 1 after the
    message of an invalid selection; it has run no [kubectl apply], and from
    the inspection on no [kubectl] command that applies, deletes or creates.
    deploy_mysql.py has no such decision: when the listing is mixed, every
    answer other than yes goes on to deploy, and the application of
    mysql.yaml is the first thing done after the answer. *)
Theorem abort_at_mixed_namespace :
  (forall (w : World) (t0 t1 t2 : Trace) (resources_output answer : string),
      Ecom.preconditions w t0 = (Returned tt, t1) ->
      Ecom.get_resources w "application" t1 = (Returned resources_output, t2) ->
      ecom_classification resources_output = Mixed ->
      (forall t prompt, terminal_line w t prompt = Some answer) ->
      Ecom.read_choice answer <> "delete" ->
      Ecom.read_choice answer <> "continue" ->
      exists before after,
        t1 = t0 ++ before /\
        Ecom.perform_installation w t0
        = (Exited 1, t1 ++ after ++ [EvLog INFO "Invalid selection. Exiting."])
        /\ apply_calls (before ++ after) = 0%nat
        /\ forallb not_mutation after = true)
  /\ (forall (w : World) (t : Trace) (answer : string),
      (forall t prompt, terminal_line w t prompt = Some answer) ->
      Mysql.wants_delete answer = false ->
      exists shown t' rest,
        forallb not_mutation shown = true /\
        t' = t ++ shown ++ [EvInput mysql_prompt (Some answer)] /\
        snd (Mysql.reconcile w "mixed" t)
        = t' ++ [EvRun (mysql_apply "mysql.yaml")
                   (subprocess_result w t' (mysql_apply "mysql.yaml"))] ++ rest).
Proof.
  split.
  - intros w t0 t1 t2 out answer Hpre Hget Hcls Hans Hd Hc.
    destruct (only_run _ _ _ _ _ (ecom_preconditions_not_apply w) Hpre) as (e1 & -> & P1).
    assert (Hg : only not_mutation (Ecom.get_resources w "application")).
    { unfold Ecom.get_resources. only_steps. }
    destruct (only_run _ _ _ _ _ Hg Hget) as (e2 & -> & P2).
    unfold ecom_classification in Hcls.
    destruct (PyStr.truthy out) eqn:Ht; [|discriminate].
    destruct (Ecom.resources_belong_to_app out) eqn:Hb; [discriminate|].
    unfold Ecom.perform_installation. unfold bind at 1. rewrite Hpre.
    unfold bind at 1. unfold Ecom.manage_existing_resources.
    unfold bind at 1. rewrite Hget, Ht, Hb.
    unfold bind at 1. unfold print at 1, emit.
    unfold bind at 1.
    match goal with |- context [Ecom.display_resources out ?t'] =>
      destruct (ecom_display_resources_returns out t') as (e3 & E3 & P3) end.
    rewrite E3. unfold bind at 1. unfold input. rewrite Hans.
    apply String.eqb_neq in Hd, Hc. unfold PyStr.eqb. rewrite Hd, Hc.
    unfold bind, log, emit, sys_exit.
    exists e1. eexists (e2 ++ [EvPrint _] ++ e3 ++ [EvInput _ (Some answer)]).
    split; [reflexivity|]. split; [now rewrite <- !app_assoc|].
    split.
    + rewrite !apply_calls_app, (not_apply_calls _ P1),
        (not_apply_calls _ (not_mutation_not_apply _ P2)),
        (not_apply_calls _ (not_mutation_not_apply _ P3)). reflexivity.
    + rewrite !forallb_app, P2, P3. reflexivity.
  - intros w t answer Hans Hno.
    destruct (mysql_display_resources_returns w
                (t ++ [EvLog INFO "Found existing resources in database namespace:"]))
      as (e3 & E3 & P3).
    exists ([EvLog INFO "Found existing resources in database namespace:"] ++ e3).
    eexists. 
    destruct (mysql_deploy_resources_starts_with_apply w
                (t ++ ([EvLog INFO "Found existing resources in database namespace:"] ++ e3)
                   ++ [EvInput mysql_prompt (Some answer)])) as (rest & Er).
    pose (M := (Mysql.print_message "Found existing resources in database namespace:" INFO ;;
                Mysql.display_resources w ;;
                response <- input w mysql_prompt ;;
                if Mysql.wants_delete response
                then Mysql.deploy_resources w true
                else Mysql.deploy_resources w false)%script).
    pose (K := fun _ : unit =>
                 (Mysql.print_message "Final deployment status:" INFO ;;
                  Mysql.display_resources w ;;
                  Mysql.print_message "Deployment completed successfully" INFO)%script).
    assert (Hm : exists rest,
      snd (M t)
      = t ++ (([EvLog INFO "Found existing resources in database namespace:"] ++ e3)
                ++ [EvInput mysql_prompt (Some answer)]
                ++ [EvRun (mysql_apply "mysql.yaml")
                      (subprocess_result w
                         (t ++ ([EvLog INFO "Found existing resources in database namespace:"] ++ e3)
                            ++ [EvInput mysql_prompt (Some answer)])
                         (mysql_apply "mysql.yaml"))]) ++ rest).
    { exists rest. unfold M. unfold bind at 1. unfold Mysql.print_message at 1, log, emit.
      unfold bind at 1. rewrite E3. unfold bind at 1. unfold input. rewrite Hans, Hno.
      repeat rewrite <- app_assoc in *. rewrite Er. reflexivity. }
    apply snd_bind_prefix with (k := K) in Hm.
    + destruct Hm as (rest' & Hm). exists rest'.
      split; [exact P3|]. split; [reflexivity|].
      change (Mysql.reconcile w "mixed" t) with (bind M K t).
      rewrite Hm. now rewrite <- !app_assoc.
    + intros u. unfold K, Mysql.print_message. only_steps.
Qed.

(** The amended C6 on the scenario of the specification: a foreign pod in
    the namespace of deploy_ecom_app.py and the answer abort. *)
Lemma abort_at_mixed_namespace_witness :
  exists t1 before after,
    t1 = [] ++ before /\
    Ecom.perform_installation (cluster foreign_listing (fun _ => Some "abort")) []
    = (Exited 1, t1 ++ after ++ [EvLog INFO "Invalid selection. Exiting."])
    /\ apply_calls (before ++ after) = 0%nat
    /\ forallb not_mutation after = true.
Proof.
  eexists.
  eapply (proj1 abort_at_mixed_namespace) with (answer := "abort").
  - reflexivity.
  - reflexivity.
  - reflexivity.
  - intros t prompt. reflexivity.
  - discriminate.
  - discriminate.
Defined.

(** C6 as stated fails for deploy_mysql.py. With a foreign pod in the
    namespace the listing is mixed; whether the operator answers abort or no,
    [run] goes on, applies mysql.yaml and phpmyadmin.yaml, and returns
    normally. *)
Lemma abort_counterexample :
  mysql_classification foreign_listing = Mixed
  /\ fst (Mysql.run (cluster foreign_listing (fun _ => Some "abort")) []) = Returned tt
  /\ apply_calls (snd (Mysql.run (cluster foreign_listing (fun _ => Some "abort")) []))
     = 2%nat
  /\ fst (Mysql.run (cluster foreign_listing (fun _ => Some "no")) []) = Returned tt
  /\ apply_calls (snd (Mysql.run (cluster foreign_listing (fun _ => Some "no")) []))
     = 2%nat.
Proof. repeat apply conj; vm_compute; reflexivity. Qed.

(* ===================================================================== *)
(** ** The snapshot of the namespace and the creation of the namespace *)
(* ===================================================================== *)

(** C7 (amended). The snapshot operation runs the listing once.
    deploy_mysql.py returns its standard output when the command succeeds
    and the empty text when it fails, and logs nothing in either case;
    deploy_ecom_app.py returns the trimmed standard output when it succeeds,
    and when it fails logs an error and returns the empty text. So the empty
    text is what the callers get both for a namespace without resources and
    for a failed listing: after a failed listing [check_existing_resources]
    says empty. *)
Theorem snapshot_of_failed_listing :
  (forall (w : World) (t : Trace),
      let r := subprocess_result w t mysql_get_all in
      Mysql.get_namespace_resources w t
      = (Returned (if returncode r =? 0 then stdout r else ""),
         t ++ [EvRun mysql_get_all r]))
  /\ (forall (w : World) (namespace : string) (t : Trace),
      let c := ecom_get_all namespace in
      let r := subprocess_result w t c in
      Ecom.get_resources w namespace t
      = if returncode r =? 0
        then (Returned (PyStr.strip (stdout r)), t ++ [EvRun c r])
        else (Returned "",
              t ++ [EvRun c r;
                    EvLog ERROR ("Error getting resources from namespace '" ++ namespace
                                 ++ "': CalledProcessError")%string]))
  /\ (forall (w : World) (t : Trace),
      returncode (subprocess_result w t mysql_get_all) <> 0 ->
      Mysql.check_existing_resources w t
      = (Returned "empty",
         t ++ [EvRun mysql_get_all (subprocess_result w t mysql_get_all)])).
Proof.
  repeat apply conj.
  - intros w t. apply mysql_get_namespace_resources_spec.
  - intros w namespace t. apply ecom_get_resources_spec.
  - intros w t Hrc. unfold Mysql.check_existing_resources, bind.
    rewrite mysql_get_namespace_resources_spec. cbv zeta.
    apply Z.eqb_neq in Hrc. now rewrite Hrc.
Qed.

(** The amended C7 in the world where the cluster cannot be reached. *)
Lemma snapshot_of_failed_listing_witness :
  Mysql.check_existing_resources unreachable []
  = (Returned "empty",
     [] ++ [EvRun mysql_get_all (subprocess_result unreachable [] mysql_get_all)]).
Proof.
  apply (proj2 (proj2 snapshot_of_failed_listing) unreachable []).
  vm_compute. discriminate.
Defined.

(** C7 as stated fails. A listing that fails and the listing of an empty
    namespace give the same value, the empty text. deploy_mysql.py logs
    nothing about the failure and classifies the namespace as empty;
    deploy_ecom_app.py logs an error, then reports that no resources were
    found and tells its caller to go on with the deployment. *)
Lemma snapshot_counterexample :
  fst (Mysql.get_namespace_resources unreachable []) = Returned ""
  /\ fst (Mysql.get_namespace_resources empty_namespace []) = Returned ""
  /\ filter is_log (snd (Mysql.get_namespace_resources unreachable [])) = []
  /\ fst (Mysql.check_existing_resources unreachable []) = Returned "empty"
  /\ fst (Ecom.get_resources unreachable "application" []) = Returned ""
  /\ fst (Ecom.get_resources empty_namespace "application" []) = Returned ""
  /\ fst (Ecom.manage_existing_resources unreachable "application" []) = Returned (Some true).
Proof. repeat apply conj; reflexivity. Qed.

Section Namespace.
Variable w : World.

Local Arguments String.append : simpl never.

Lemma mysql_manage_namespace_spec (t : Trace) :
  let g := subprocess_result w t (get_namespace "database") in
  let t1 := t ++ [EvRun (get_namespace "database") g] in
  let c := subprocess_result w t1 (create_namespace "database") in
  Mysql.manage_namespace w t
  = if returncode g =? 0 then
      (Returned tt, t1 ++ [EvLog INFO "Database namespace already exists"])
    else if returncode c =? 0 then
      (Returned tt,
       t1 ++ [EvRun (create_namespace "database") c;
              EvLog INFO "Created database namespace"])
    else
      (Exited 1,
       t1 ++ [EvRun (create_namespace "database") c;
              EvLog ERROR "Error managing namespace: CalledProcessError"]).
Proof.
  cbv zeta. unfold Mysql.manage_namespace, try_except, bind, subprocess_run.
  fold (get_namespace "database"). fold (create_namespace "database").
  cbn [andb].
  destruct (returncode (subprocess_result w t (get_namespace "database")) =? 0);
    cbn [negb]; [reflexivity|].
  destruct (returncode (subprocess_result w _ (create_namespace "database")) =? 0);
    cbn [negb is_CalledProcessError].
  - unfold Mysql.print_message, log, emit. now rewrite <- app_assoc.
  - unfold Mysql.print_message, log, emit, sys_exit. cbn [str_exn].
    now rewrite <- app_assoc.
Qed.

Lemma ecom_ensure_namespace_spec (namespace : string) (t : Trace) :
  let g := subprocess_result w t (get_namespace namespace) in
  let t1 := t ++ [EvRun (get_namespace namespace) g] in
  let t2 := t1 ++ [EvLog INFO ("Namespace '" ++ namespace
                               ++ "' does not exist. Creating it...")%string] in
  let c := subprocess_result w t2 (create_namespace namespace) in
  Ecom.ensure_namespace w namespace t
  = if returncode g =? 0 then
      (Returned tt, t1 ++ [EvLog INFO ("Namespace '" ++ namespace ++ "' exists.")%string])
    else if returncode c =? 0 then
      (Returned tt,
       t2 ++ [EvRun (create_namespace namespace) c;
              EvLog INFO ("Namespace '" ++ namespace ++ "' created.")%string])
    else
      (Raised (CalledProcessError (create_namespace namespace) (returncode c)),
       t2 ++ [EvRun (create_namespace namespace) c]).
Proof.
  cbv zeta. unfold Ecom.ensure_namespace, try_except, bind, subprocess_run.
  fold (get_namespace namespace). fold (create_namespace namespace).
  cbn [andb].
  destruct (returncode (subprocess_result w t (get_namespace namespace)) =? 0);
    cbn [negb is_CalledProcessError]; [reflexivity|].
  unfold log, emit.
  destruct (returncode (subprocess_result w _ (create_namespace namespace)) =? 0);
    cbn [negb]; [|reflexivity].
  now rewrite <- app_assoc.
Qed.

End Namespace.

(** C8 (amended). [manage_namespace] of deploy_mysql.py and
    [ensure_namespace] of deploy_ecom_app.py look for the namespace first.
    When the check succeeds they return and create nothing. When it fails
    they run the creation, once; they return when it succeeds, and fail
    whenever it exits with a non-zero status, whatever the reason:
    deploy_mysql.py logs an error and exits with status 1, deploy_ecom_app.py
    lets the [CalledProcessError] through. A namespace that turns up between
    the check and the creation is such a failure. *)
Theorem ensure_namespace_outcomes :
  (forall (w : World) (t : Trace),
      let g := subprocess_result w t (get_namespace "database") in
      let t1 := t ++ [EvRun (get_namespace "database") g] in
      let c := subprocess_result w t1 (create_namespace "database") in
      Mysql.manage_namespace w t
      = if returncode g =? 0 then
          (Returned tt, t1 ++ [EvLog INFO "Database namespace already exists"])
        else if returncode c =? 0 then
          (Returned tt,
           t1 ++ [EvRun (create_namespace "database") c;
                  EvLog INFO "Created database namespace"])
        else
          (Exited 1,
           t1 ++ [EvRun (create_namespace "database") c;
                  EvLog ERROR "Error managing namespace: CalledProcessError"]))
  /\ (forall (w : World) (namespace : string) (t : Trace),
      let g := subprocess_result w t (get_namespace namespace) in
      let t1 := t ++ [EvRun (get_namespace namespace) g] in
      let t2 := t1 ++ [EvLog INFO ("Namespace '" ++ namespace
                                   ++ "' does not exist. Creating it...")%string] in
      let c := subprocess_result w t2 (create_namespace namespace) in
      Ecom.ensure_namespace w namespace t
      = if returncode g =? 0 then
          (Returned tt,
           t1 ++ [EvLog INFO ("Namespace '" ++ namespace ++ "' exists.")%string])
        else if returncode c =? 0 then
          (Returned tt,
           t2 ++ [EvRun (create_namespace namespace) c;
                  EvLog INFO ("Namespace '" ++ namespace ++ "' created.")%string])
        else
          (Raised (CalledProcessError (create_namespace namespace) (returncode c)),
           t2 ++ [EvRun (create_namespace namespace) c])).
Proof.
  split.
  - intros w t. apply mysql_manage_namespace_spec.
  - intros w namespace t. apply ecom_ensure_namespace_spec.
Qed.

(** C8 as stated fails. In the world of a race the check does not find the
    namespace and the creation fails because the namespace already exists:
    deploy_mysql.py exits with status 1 and deploy_ecom_app.py raises, where
    the claim has them succeed. *)
Lemma ensure_namespace_counterexample :
  stderr (subprocess_result race [] (create_namespace "database"))
  = "Error from server (AlreadyExists): namespace already exists"
  /\ fst (Mysql.manage_namespace race []) = Exited 1
  /\ fst (Ecom.ensure_namespace race "application" [])
     = Raised (CalledProcessError (create_namespace "application") 1).
Proof. repeat apply conj; reflexivity. Qed.

(* ===================================================================== *)
(** ** The reading of the operator's answer *)
(* ===================================================================== *)

Lemma lstrip_blank (ws : string) : blank ws = true -> PyStr.lstrip_by PyStr.isspace ws = "".
Proof.
  induction ws as [|c r IH]; [reflexivity|]. cbn. intros H.
  apply andb_prop in H as [Hc Hr]. rewrite Hc. auto.
Qed.

Lemma rstrip_blank (ws : string) : blank ws = true -> PyStr.rstrip_by PyStr.isspace ws = "".
Proof.
  induction ws as [|c r IH]; [reflexivity|]. cbn. intros H.
  apply andb_prop in H as [Hc Hr]. now rewrite (IH Hr), Hc.
Qed.

Lemma lstrip_blank_app (ws a : string) :
  blank ws = true ->
  PyStr.lstrip_by PyStr.isspace (ws ++ a)%string = PyStr.lstrip_by PyStr.isspace a.
Proof.
  induction ws as [|c r IH]; [reflexivity|]. cbn. intros H.
  apply andb_prop in H as [Hc Hr]. rewrite Hc. auto.
Qed.

Lemma rstrip_app_blank (a ws : string) :
  blank ws = true ->
  PyStr.rstrip_by PyStr.isspace (a ++ ws)%string = PyStr.rstrip_by PyStr.isspace a.
Proof.
  intros H. induction a as [|c r IH]; [now apply rstrip_blank|].
  cbn. now rewrite IH.
Qed.

(** Whitespace around an answer does not change what [strip] returns. *)
Lemma strip_surrounded (ws1 a ws2 : string) :
  blank ws1 = true -> blank ws2 = true ->
  PyStr.strip (ws1 ++ a ++ ws2)%string = PyStr.strip a.
Proof.
  intros H1 H2. unfold PyStr.strip. rewrite (lstrip_blank_app _ _ H1). clear H1.
  induction a as [|c r IH].
  - cbn. now rewrite (lstrip_blank _ H2).
  - cbn [String.append PyStr.lstrip_by]. destruct (PyStr.isspace c); [exact IH|].
    change (String c (r ++ ws2)%string) with (String c r ++ ws2)%string.
    now apply rstrip_app_blank.
Qed.

Lemma isspace_lower_char (c : ascii) :
  PyStr.isspace (PyStr.lower_char c) = PyStr.isspace c.
Proof.
  destruct c as [[|] [|] [|] [|] [|] [|] [|] [|]]; reflexivity.
Qed.

Lemma lower_lstrip (s : string) :
  PyStr.lower (PyStr.lstrip_by PyStr.isspace s)
  = PyStr.lstrip_by PyStr.isspace (PyStr.lower s).
Proof.
  induction s as [|c r IH]; [reflexivity|].
  cbn [PyStr.lower PyStr.lstrip_by]. rewrite isspace_lower_char.
  now destruct (PyStr.isspace c).
Qed.

Lemma lower_rstrip (s : string) :
  PyStr.lower (PyStr.rstrip_by PyStr.isspace s)
  = PyStr.rstrip_by PyStr.isspace (PyStr.lower s).
Proof.
  induction s as [|c r IH]; [reflexivity|].
  cbn [PyStr.lower PyStr.rstrip_by]. rewrite <- IH, isspace_lower_char.
  destruct (PyStr.rstrip_by PyStr.isspace r); [|reflexivity].
  now destruct (PyStr.isspace c).
Qed.

(** [lower] and [strip] commute. *)
Lemma lower_strip (s : string) : PyStr.lower (PyStr.strip s) = PyStr.strip (PyStr.lower s).
Proof. unfold PyStr.strip. now rewrite lower_rstrip, lower_lstrip. Qed.

(** deploy_ecom_app.py reads the answer through [strip] and [lower]:
    answers that differ in surrounding whitespace or in letter case only are
    read alike. *)
Lemma ecom_read_choice_trims (ws1 a ws2 : string) :
  blank ws1 = true -> blank ws2 = true ->
  Ecom.read_choice (ws1 ++ a ++ ws2)%string = Ecom.read_choice a.
Proof. intros H1 H2. unfold Ecom.read_choice. now rewrite strip_surrounded. Qed.

Lemma ecom_read_choice_case (a b : string) :
  PyStr.lower a = PyStr.lower b -> Ecom.read_choice a = Ecom.read_choice b.
Proof. intros H. unfold Ecom.read_choice. now rewrite !lower_strip, H. Qed.

(** deploy_kafka.py reads the choice through [strip]. *)
Lemma kafka_choice_trims (w : World) (fuel : nat) (ws1 a ws2 : string) (t : Trace) :
  blank ws1 = true -> blank ws2 = true ->
  terminal_line w t "Enter your choice (1 or 2): " = Some (ws1 ++ a ++ ws2)%string ->
  PyStr.mem (PyStr.strip a) ["1"; "2"] = true ->
  Kafka.ask_choice w (S fuel) t
  = (Returned (PyStr.strip a),
     t ++ [EvInput "Enter your choice (1 or 2): " (Some (ws1 ++ a ++ ws2)%string)]).
Proof.
  intros H1 H2 Ht Hm. cbn [Kafka.ask_choice].
  unfold bind at 1. unfold try_except, bind at 1, input. rewrite Ht.
  unfold ret at 1. rewrite strip_surrounded by assumption. now rewrite Hm.
Qed.

(** deploy_mysql.py reads the answer through [lower] only. *)
Lemma mysql_wants_delete_case (a b : string) :
  PyStr.lower a = PyStr.lower b -> Mysql.wants_delete a = Mysql.wants_delete b.
Proof. intros H. unfold Mysql.wants_delete. now rewrite H. Qed.

(** C9 fails for deploy_mysql.py. The answers yes and yes followed by a
    space differ in surrounding whitespace only, and are read differently:
    after the first the namespace is deleted before the deployment, after the
    second it is not. The same two answers are read alike by
    deploy_ecom_app.py. *)
Theorem mysql_answer_is_not_trimmed :
  PyStr.strip "yes " = PyStr.strip "yes"
  /\ Mysql.wants_delete "yes" = true
  /\ Mysql.wants_delete "YES" = true
  /\ Mysql.wants_delete "yes " = false
  /\ ran (delete_namespace "database")
         (snd (Mysql.run (cluster foreign_listing (fun _ => Some "yes")) [])) = true
  /\ ran (delete_namespace "database")
         (snd (Mysql.run (cluster foreign_listing (fun _ => Some "yes ")) [])) = false
  /\ Ecom.read_choice "delete " = Ecom.read_choice "delete"
  /\ Ecom.read_choice "DELETE" = Ecom.read_choice "delete".
Proof. repeat apply conj; vm_compute; reflexivity. Qed.

(* ===================================================================== *)
(** ** The deletion of the namespace before a fresh deployment *)
(* ===================================================================== *)



(** C3 fails for deploy_mysql.py (and deploy_ecom_app.py). In the cluster
    where a deleted namespace lingers for 15 seconds the operator asks for a
    fresh start. deploy_mysql.py sleeps 10 seconds after the deletion, looks
    for the namespace once, finds it, creates nothing, and applies mysql.yaml
    while the namespace still lists the foreign pod; deploy_ecom_app.py does
    the same after 5 seconds. deploy_kafka.py, in the same cluster, looks
    every two seconds until the namespace is not found (eight looks, sixteen
    seconds), creates it again, and applies kafka.yaml to a namespace that
    lists nothing. *)
Theorem fixed_delay_before_fresh_deployment :
  (let w := lingering (fun _ => Some "yes") in
   let t := before_first_apply (snd (Mysql.run w [])) in
   fst (Mysql.run w []) = Returned tt
   /\ apply_calls (snd (Mysql.run w [])) = 2%nat
   /\ option_map slept (since_delete t) = Some 10
   /\ option_map (times_run (get_namespace "database")) (since_delete t) = Some 1%nat
   /\ option_map (existsb (saw_absent "database")) (since_delete t) = Some false
   /\ option_map (existsb is_create) (since_delete t) = Some false
   /\ stdout (subprocess_result w t mysql_get_all) = foreign_listing)
  /\ (let w := lingering (fun _ => Some "delete") in
      let t := before_first_apply (snd (Ecom.perform_installation w [])) in
      apply_calls (snd (Ecom.perform_installation w [])) = 1%nat
      /\ option_map slept (since_delete t) = Some 5
      /\ option_map (existsb (saw_absent "application")) (since_delete t) = Some false
      /\ stdout (subprocess_result w t (ecom_get_all "application")) = foreign_listing)
  /\ (let w := lingering (fun _ => Some "2") in
      let t := before_first_apply (snd (Kafka.deploy_kafka_and_redpanda w 40 [])) in
      fst (Kafka.deploy_kafka_and_redpanda w 40 []) = Returned tt
      /\ apply_calls (snd (Kafka.deploy_kafka_and_redpanda w 40 [])) = 2%nat
      /\ option_map slept (since_delete t) = Some 16
      /\ option_map (times_run (get_namespace "streaming")) (since_delete t) = Some 8%nat
      /\ option_map (existsb (saw_absent "streaming")) (since_delete t) = Some true
      /\ option_map (existsb is_create) (since_delete t) = Some true
      /\ stdout (subprocess_result w t (ecom_get_all "streaming")) = "").
Proof. cbv zeta. repeat apply conj; vm_compute; reflexivity. Qed.

(* ===================================================================== *)
(** ** How scripts end, and what a normal return tells *)
(* ===================================================================== *)

Lemma bind_returned {A B} (m : Script A) (k : A -> Script B) (t t' : Trace) (b : B) :
  bind m k t = (Returned b, t') ->
  exists a t1, m t = (Returned a, t1) /\ k a t1 = (Returned b, t').
Proof.
  unfold bind. destruct (m t) as [[a|e|c|] t1]; try discriminate.
  intros H. now exists a, t1.
Qed.

Lemma try_except_returned {A} (body : Script A) (catches : Exn -> bool)
    (handler : Exn -> Script A) (t t' : Trace) (a : A) :
  try_except body catches handler t = (Returned a, t') ->
  body t = (Returned a, t')
  \/ exists e t1, body t = (Raised e, t1) /\ catches e = true
                  /\ handler e t1 = (Returned a, t').
Proof.
  unfold try_except. destruct (body t) as [[x|e|c|] t1]; try discriminate.
  - intros H. now left.
  - destruct (catches e) eqn:Ec; [|discriminate]. intros H. right. now exists e, t1.
Qed.

Section Ends.
Variables (okx : Exn -> bool) (okc : Z -> bool).
Variable w : World.


















End Ends.




Section KafkaEnds.
Variable w : World.







End KafkaEnds.

(* ===================================================================== *)
(** ** The deployment of deploy_mysql.py *)
(* ===================================================================== *)

Section MysqlDeploy.
Variable w : World.

Local Arguments String.append : simpl never.

Lemma mysql_wait_attempts_bounded (app_label : string) (left : nat) :
  forall t : Trace,
  exists (b : bool) (evs : Trace),
    Mysql.wait_attempts w left app_label t = (Returned b, t ++ evs)
    /\ (times_run (mysql_pods_phase app_label) evs <= left)%nat
    /\ forallb not_mutation evs = true
    /\ (if b
        then slept evs = 10 * (Z.of_nat (times_run (mysql_pods_phase app_label) evs) - 1)
             /\ exists evs',
                 evs = evs' ++ [EvRun (mysql_pods_phase app_label)
                                  (subprocess_result w (t ++ evs')
                                     (mysql_pods_phase app_label))]
                 /\ reports_running
                      (subprocess_result w (t ++ evs') (mysql_pods_phase app_label)) = true
        else times_run (mysql_pods_phase app_label) evs = left
             /\ slept evs = 10 * Z.of_nat left).
Proof.
  induction left as [|left IH]; intros t.
  - exists false, []. cbn. rewrite app_nil_r. repeat split; auto.
  - rewrite mysql_wait_attempt. cbv zeta. fold (mysql_pods_phase app_label).
    set (r := subprocess_result w t (mysql_pods_phase app_label)).
    fold (reports_running r).
    assert (H1 : times_run (mysql_pods_phase app_label) [EvRun (mysql_pods_phase app_label) r]
                 = 1%nat).
    { unfold times_run. cbn [filter is_run_of]. now rewrite same_command_refl. }
    destruct (reports_running r) eqn:Er.
    + exists true, [EvRun (mysql_pods_phase app_label) r].
      split; [reflexivity|]. rewrite H1. split; [lia|]. split; [reflexivity|].
      split; [reflexivity|]. exists []. rewrite app_nil_r. now split.
    + destruct (IH (t ++ [EvRun (mysql_pods_phase app_label) r; EvSleep 10]))
        as (b & evs & E & Hn & Hm & Hb).
      exists b, ([EvRun (mysql_pods_phase app_label) r; EvSleep 10] ++ evs).
      rewrite E. split; [now rewrite <- app_assoc|].
      assert (H2 : times_run (mysql_pods_phase app_label)
                     [EvRun (mysql_pods_phase app_label) r; EvSleep 10] = 1%nat).
      { unfold times_run. cbn [filter is_run_of]. now rewrite same_command_refl. }
      rewrite times_run_app, H2, forallb_app, Hm, slept_app.
      split; [lia|]. split; [reflexivity|].
      destruct b.
      * destruct Hb as (Hs & evs' & Et & Hr). rewrite Hs.
        split; [cbn [slept]; lia|].
        exists ([EvRun (mysql_pods_phase app_label) r; EvSleep 10] ++ evs').
        rewrite app_assoc. split; [|exact Hr].
        rewrite Et at 1. now rewrite <- app_assoc.
      * destruct Hb as (Hn' & Hs). rewrite Hn', Hs. split; [lia|cbn [slept]; lia].
Qed.

(** The loop of [wait_for_pods_ready], whole: how it ends and what it has
    done by then. *)
Lemma mysql_wait_for_pods_ready_spec (app_label : string) (t : Trace) :
  exists (b : bool) (evs : Trace),
    Mysql.wait_for_pods_ready w app_label t = (Returned b, t ++ evs)
    /\ (times_run (mysql_pods_phase app_label) evs <= 30)%nat
    /\ forallb not_mutation evs = true
    /\ (if b
        then slept evs = 10 * (Z.of_nat (times_run (mysql_pods_phase app_label) evs) - 1)
             /\ exists evs',
                 evs = evs' ++ [EvRun (mysql_pods_phase app_label)
                                  (subprocess_result w (t ++ evs')
                                     (mysql_pods_phase app_label))]
                 /\ reports_running
                      (subprocess_result w (t ++ evs') (mysql_pods_phase app_label)) = true
        else times_run (mysql_pods_phase app_label) evs = 30%nat
             /\ slept evs = 300).
Proof. apply (mysql_wait_attempts_bounded app_label 30 t). Qed.


(** While no listing of the application reports Running, the wait says
    [False]. *)
Lemma mysql_wait_never_running (app_label : string) (t : Trace) :
  (forall t', reports_running (subprocess_result w t' (mysql_pods_phase app_label)) = false) ->
  exists evs,
    Mysql.wait_for_pods_ready w app_label t = (Returned false, t ++ evs)
    /\ forallb not_mutation evs = true /\ slept evs = 300.
Proof.
  intros Hnr.
  destruct (mysql_wait_for_pods_ready_spec app_label t) as (b & evs & E & _ & Hm & Hb).
  destruct b.
  - destruct Hb as (_ & evs' & _ & Hr). now rewrite Hnr in Hr.
  - exists evs. destruct Hb as (_ & Hs). now repeat split.
Qed.

Lemma applied_app (a b : Trace) : applied (a ++ b) = applied a ++ applied b.
Proof.
  induction a as [|e a IH]; [reflexivity|].
  cbn [app applied]. destruct e; try exact IH.
  destruct (is_apply (EvRun c r)); [cbn; now rewrite IH|exact IH].
Qed.

Lemma applied_not_apply (evs : Trace) : forallb not_apply evs = true -> applied evs = [].
Proof.
  induction evs as [|e r IH]; [reflexivity|].
  cbn [forallb applied]. intros H. apply andb_prop in H as [He Hr].
  unfold not_apply in He. destruct e; auto.
  destruct (is_apply (EvRun c r0)); [discriminate|auto].
Qed.

Lemma applied_not_mutation (evs : Trace) :
  forallb not_mutation evs = true -> applied evs = [].
Proof. intros H. now apply applied_not_apply, not_mutation_not_apply. Qed.

Lemma applied_logs (evs : Trace) : forallb is_log evs = true -> applied evs = [].
Proof.
  induction evs as [|e r IH]; [reflexivity|].
  cbn [forallb applied]. intros H. apply andb_prop in H as [He Hr].
  destruct e; try discriminate. auto.
Qed.

Lemma mysql_handle_output_returns (output : string) (t : Trace) :
  exists h, Mysql.handle_kubectl_output output t = (Returned tt, t ++ h)
            /\ forallb is_log h = true.
Proof.
  unfold Mysql.handle_kubectl_output.
  destruct (PyStr.truthy (PyStr.strip output)).
  - now exists [EvLog INFO (PyStr.strip output)].
  - exists []. now rewrite app_nil_r.
Qed.

Lemma existsb_running_last (app_label : string) (evs : Trace) (r : CompletedProcess) :
  reports_running r = true ->
  existsb (running_listing app_label) (evs ++ [EvRun (mysql_pods_phase app_label) r]) = true.
Proof.
  intros Hr. rewrite existsb_app. cbn [existsb running_listing].
  now rewrite same_command_refl, Hr, orb_true_r.
Qed.

End MysqlDeploy.

Section MysqlOrder.
Variable w : World.

Local Arguments String.append : simpl never.

Lemma mysql_deploy_without_deletion (t : Trace) :
  exists (o : Outcome unit) (evs : Trace),
    Mysql.deploy_resources w false t = (o, t ++ evs)
    /\ ((exists rc, applied evs = [(mysql_apply "mysql.yaml", rc)] /\ o <> Returned tt
                    /\ (rc = 0 -> o = Exited 1 /\ slept evs = 300))
        \/ (exists rc, applied evs = [(mysql_apply "mysql.yaml", 0);
                                      (mysql_apply "phpmyadmin.yaml", rc)]
                       /\ existsb (running_listing "mysql") evs = true
                       /\ (o = Returned tt ->
                           rc = 0 /\ existsb (running_listing "phpmyadmin") evs = true))).
Proof.
  unfold Mysql.deploy_resources. unfold bind at 1. unfold ret at 1.
  unfold bind at 1. unfold subprocess_run at 1. fold (mysql_apply "mysql.yaml").
  set (r1 := subprocess_result w t (mysql_apply "mysql.yaml")).
  cbn [andb]. destruct (returncode r1 =? 0) eqn:E1; cbn [negb].
  2:{ exists (Raised (CalledProcessError (mysql_apply "mysql.yaml") (returncode r1))).
      exists [EvRun (mysql_apply "mysql.yaml") r1]. split; [reflexivity|].
      left. exists (returncode r1). split; [reflexivity|]. split; [discriminate|].
      intros H. rewrite H in E1. discriminate. }
  apply Z.eqb_eq in E1.
  set (a1 := EvRun (mysql_apply "mysql.yaml") r1).
  assert (Ha1 : applied [a1] = [(mysql_apply "mysql.yaml", 0)])
    by (cbn; now rewrite E1).
  destruct (mysql_handle_output_returns (stdout r1) (t ++ [a1])) as (h1 & Eh1 & Lh1).
  unfold bind at 1. rewrite Eh1.
  destruct (mysql_wait_for_pods_ready_spec w "mysql" ((t ++ [a1]) ++ h1))
    as (b1 & e1 & Ew1 & _ & Hm1 & Hb1).
  unfold bind at 1. rewrite Ew1. destruct b1; cbn [negb].
  2:{ exists (Exited 1).
      exists ([a1] ++ h1 ++ e1
                ++ [EvLog ERROR "Error: MySQL pods failed to reach ready state"]).
      split; [unfold bind, Mysql.print_message, log, emit, sys_exit;
              now rewrite <- !app_assoc|].
      left. exists 0. rewrite !applied_app, Ha1, (applied_logs _ Lh1),
        (applied_not_mutation _ Hm1).
      split; [reflexivity|]. split; [discriminate|]. intros _. split; [reflexivity|].
      rewrite !slept_app, (slept_logs _ Lh1). destruct Hb1 as (_ & ->). reflexivity. }
  destruct Hb1 as (_ & e1' & Ee1 & Hr1).
  assert (Hrun1 : existsb (running_listing "mysql") e1 = true)
    by (rewrite Ee1; now apply existsb_running_last).
  unfold bind at 1. unfold ret at 1.
  unfold bind at 1. unfold subprocess_run at 1. fold (mysql_apply "phpmyadmin.yaml").
  set (t2 := ((t ++ [a1]) ++ h1) ++ e1).
  set (r2 := subprocess_result w t2 (mysql_apply "phpmyadmin.yaml")).
  set (a2 := EvRun (mysql_apply "phpmyadmin.yaml") r2).
  assert (Ha2 : applied [a2] = [(mysql_apply "phpmyadmin.yaml", returncode r2)])
    by reflexivity.
  assert (Et2 : forall l, t2 ++ l = t ++ ([a1] ++ h1 ++ e1 ++ l))
    by (intros l; subst t2; now rewrite <- !app_assoc).
  cbn [andb]. destruct (returncode r2 =? 0) eqn:E2; cbn [negb].
  2:{ exists (Raised (CalledProcessError (mysql_apply "phpmyadmin.yaml") (returncode r2))).
      exists ([a1] ++ h1 ++ e1 ++ [a2]). split; [now rewrite Et2|].
      right. exists (returncode r2).
      rewrite !applied_app, Ha1, Ha2, (applied_logs _ Lh1), (applied_not_mutation _ Hm1).
      split; [reflexivity|]. rewrite !existsb_app, Hrun1, !orb_true_r.
      split; [reflexivity|]. discriminate. }
  apply Z.eqb_eq in E2.
  destruct (mysql_handle_output_returns (stdout r2) (t2 ++ [a2])) as (h2 & Eh2 & Lh2).
  unfold bind at 1. rewrite Eh2.
  destruct (mysql_wait_for_pods_ready_spec w "phpmyadmin" ((t2 ++ [a2]) ++ h2))
    as (b2 & e2 & Ew2 & _ & Hm2 & Hb2).
  unfold bind at 1. rewrite Ew2.
  assert (Happ : forall l,
             applied ([a1] ++ h1 ++ e1 ++ [a2] ++ h2 ++ e2 ++ l)
             = [(mysql_apply "mysql.yaml", 0); (mysql_apply "phpmyadmin.yaml", 0)]
                 ++ applied l).
  { intros l. rewrite !applied_app, Ha1, Ha2, (applied_logs _ Lh1), (applied_logs _ Lh2),
      (applied_not_mutation _ Hm1), (applied_not_mutation _ Hm2), E2. reflexivity. }
  assert (Hex : forall l,
             existsb (running_listing "mysql") ([a1] ++ h1 ++ e1 ++ l) = true).
  { intros l. rewrite !existsb_app, Hrun1, !orb_true_r. reflexivity. }
  destruct b2; cbn [negb].
  - exists (Returned tt), ([a1] ++ h1 ++ e1 ++ [a2] ++ h2 ++ e2 ++ []).
    split; [unfold ret; rewrite <- !app_assoc, Et2, app_nil_r; now rewrite <- ?app_assoc|].
    right. exists 0. rewrite Happ. split; [reflexivity|]. split; [apply Hex|].
    intros _. split; [reflexivity|].
    destruct Hb2 as (_ & e2' & Ee2 & Hr2).
    rewrite !existsb_app, Ee2, (existsb_running_last "phpmyadmin" e2' _ Hr2).
    now rewrite !orb_true_r.
  - exists (Exited 1).
    exists ([a1] ++ h1 ++ e1 ++ [a2] ++ h2 ++ e2
              ++ [EvLog ERROR "Error: PhpMyAdmin pods failed to reach ready state"]).
    split; [unfold bind, Mysql.print_message, log, emit, sys_exit;
            rewrite <- !app_assoc, Et2; now rewrite <- ?app_assoc|].
    right. exists 0. rewrite Happ. split; [reflexivity|]. split; [apply Hex|].
    discriminate.
Qed.

(** [deploy_resources] of deploy_mysql.py, whole: what it applied, in which
    order and with which result, however it ends. *)
Lemma mysql_deploy_resources_spec (deleting : bool) (t : Trace) :
  exists (o : Outcome unit) (evs : Trace),
    Mysql.deploy_resources w deleting t = (o, t ++ evs)
    /\ ((deleting = true /\ applied evs = [] /\ o <> Returned tt)
        \/ (exists rc, applied evs = [(mysql_apply "mysql.yaml", rc)] /\ o <> Returned tt)
        \/ (exists rc, applied evs = [(mysql_apply "mysql.yaml", 0);
                                      (mysql_apply "phpmyadmin.yaml", rc)]
                       /\ existsb (running_listing "mysql") evs = true
                       /\ (o = Returned tt ->
                           rc = 0 /\ existsb (running_listing "phpmyadmin") evs = true))).
Proof.
  assert (Hfalse : forall t0, exists (o : Outcome unit) (evs : Trace),
    Mysql.deploy_resources w false t0 = (o, t0 ++ evs)
    /\ ((exists rc, applied evs = [(mysql_apply "mysql.yaml", rc)] /\ o <> Returned tt)
        \/ (exists rc, applied evs = [(mysql_apply "mysql.yaml", 0);
                                      (mysql_apply "phpmyadmin.yaml", rc)]
                       /\ existsb (running_listing "mysql") evs = true
                       /\ (o = Returned tt ->
                           rc = 0 /\ existsb (running_listing "phpmyadmin") evs = true)))).
  { intros t0. destruct (mysql_deploy_without_deletion t0) as (o & evs & E & [H|H]).
    - exists o, evs. split; [exact E|]. left. destruct H as (rc & Ha & Ho & _).
      now exists rc.
    - exists o, evs. split; [exact E|]. now right. }
  destruct deleting.
  2:{ destruct (Hfalse t) as (o & evs & E & H). exists o, evs. split; [exact E|].
      now right. }
  pose (PRE := (result <- subprocess_run w (delete_namespace "database") true ;;
                Mysql.handle_kubectl_output (stdout result) ;;
                sleep 10 ;;
                Mysql.manage_namespace w)%script).
  assert (HP : only not_apply PRE).
  { unfold PRE, Mysql.handle_kubectl_output, Mysql.manage_namespace, Mysql.print_message.
    only_steps. }
  change (Mysql.deploy_resources w true t)
    with (bind PRE (fun _ => Mysql.deploy_resources w false) t).
  destruct (HP t) as (e0 & E0 & P0). unfold bind.
  destruct (PRE t) as [[u|e|c|] t0]; cbn [snd] in E0; subst t0.
  - destruct (Hfalse (t ++ e0)) as (o & evs & E & H).
    exists o, (e0 ++ evs). rewrite E. split; [now rewrite app_assoc|].
    right. rewrite applied_app, (applied_not_apply _ P0), existsb_app, existsb_app.
    cbn [app].
    destruct H as [H|(rc & Ha & Hr & Ho)]; [now left|right].
    exists rc. split; [exact Ha|]. rewrite Hr, orb_true_r. split; [reflexivity|].
    intros Hret. destruct (Ho Hret) as (-> & ->). now rewrite orb_true_r.
  - exists (Raised e), e0. split; [reflexivity|]. left.
    rewrite (applied_not_apply _ P0). repeat split. discriminate.
  - exists (Exited c), e0. split; [reflexivity|]. left.
    rewrite (applied_not_apply _ P0). repeat split. discriminate.
  - exists OutOfFuel, e0. split; [reflexivity|]. left.
    rewrite (applied_not_apply _ P0). repeat split. discriminate.
Qed.


End MysqlOrder.

Ltac inv_bind H :=
  let a := fresh "a" in
  let t := fresh "t" in
  let E := fresh "E" in
  apply bind_returned in H as (a & t & E & H).

Section MysqlRun.
Variable w : World.

Local Arguments String.append : simpl never.

Lemma mysql_print_message_run (m : string) (l : Level) (t t' : Trace) (u : unit) :
  Mysql.print_message m l t = (Returned u, t') -> t' = t ++ [EvLog l m].
Proof. unfold Mysql.print_message, log, emit. now intros [= <-]. Qed.

(** X4. What a normal return of [run] in deploy_mysql.py tells. Either
    the deployment already existed: nothing was applied and the last message
    says so. Or both manifests were applied with status 0, mysql.yaml before
    phpmyadmin.yaml, each followed by a listing of its pods that reported
    Running, nothing else was applied, and the last message reports
    success. *)
Theorem mysql_run_returns (t t' : Trace) :
  Mysql.run w t = (Returned tt, t') ->
  exists evs,
    t' = t ++ evs
    /\ ((applied evs = []
         /\ exists evs', evs = evs'
              ++ [EvLog INFO "Deployment already exists with expected resources"])
        \/ (applied evs = [(mysql_apply "mysql.yaml", 0);
                           (mysql_apply "phpmyadmin.yaml", 0)]
            /\ existsb (running_listing "mysql") evs = true
            /\ existsb (running_listing "phpmyadmin") evs = true
            /\ exists evs', evs = evs'
                 ++ [EvLog INFO "Deployment completed successfully"])).
Proof.
  intros H. unfold Mysql.run in H.
  inv_bind H. destruct (only_run _ _ _ _ _ (mysql_preconditions_not_apply w) E)
    as (e1 & -> & P1). clear E.
  inv_bind H.
  assert (Hc : only not_mutation (Mysql.check_existing_resources w)).
  { unfold Mysql.check_existing_resources, Mysql.get_namespace_resources. only_steps. }
  destruct (only_run _ _ _ _ _ Hc E) as (e2 & -> & P2). clear E Hc.
  rename a0 into status. unfold Mysql.reconcile in H.
  destruct (PyStr.eqb status "expected").
  - inv_bind H. apply mysql_print_message_run in E. subst t0.
    inv_bind H.
    destruct (only_run _ _ _ _ _ (mysql_display_resources_not_mutation w) E)
      as (e3 & -> & P3). clear E.
    apply mysql_print_message_run in H. subst t'.
    eexists. split; [rewrite <- !app_assoc; reflexivity|].
    left. split.
    + rewrite !applied_app, (applied_not_apply _ P1), (applied_not_mutation _ P2),
        (applied_not_mutation _ P3). reflexivity.
    + eexists. rewrite !app_assoc. reflexivity.
  - inv_bind H. rename t0 into t3. rename E into HM.
    inv_bind H. apply mysql_print_message_run in E. subst t0.
    inv_bind H.
    destruct (only_run _ _ _ _ _ (mysql_display_resources_not_mutation w) E)
      as (e5 & -> & P5). clear E.
    apply mysql_print_message_run in H. subst t'.
    assert (Hdep : exists (b : bool) (e3 : Trace),
               forallb not_apply e3 = true
               /\ Mysql.deploy_resources w b (((t ++ e1) ++ e2) ++ e3) = (Returned tt, t3)).
    { destruct (PyStr.eqb status "mixed").
      - inv_bind HM. apply mysql_print_message_run in E. subst t0.
        inv_bind HM.
        destruct (only_run _ _ _ _ _ (mysql_display_resources_not_mutation w) E)
          as (e3 & -> & P3). clear E.
        inv_bind HM. unfold input in E.
        destruct (terminal_line w _ _) as [line|] eqn:El; [|discriminate].
        injection E as <- <-.
        exists (Mysql.wants_delete line).
        eexists ([EvLog INFO _] ++ e3 ++ [EvInput _ (Some line)]).
        split; [rewrite !forallb_app, (not_mutation_not_apply _ P3); reflexivity|].
        destruct a0. rewrite <- HM. rewrite <- !app_assoc.
        now destruct (Mysql.wants_delete line).
      - exists false, []. rewrite app_nil_r. split; [reflexivity|].
        now destruct a0. }
    destruct Hdep as (b & e3 & P3 & Hdep).
    destruct (mysql_deploy_resources_spec w b (((t ++ e1) ++ e2) ++ e3))
      as (o & e4 & E4 & Hcases).
    rewrite E4 in Hdep. injection Hdep as -> <-.
    eexists. split; [rewrite <- !app_assoc; reflexivity|].
    right.
    destruct Hcases as [(_ & _ & Ho)|[(rc & _ & Ho)|(rc & Ha & Hr & Ho)]];
      [now elim Ho|now elim Ho|].
    destruct (Ho eq_refl) as (-> & Hr2).
    rewrite !applied_app, !existsb_app, (applied_not_apply _ P1),
      (applied_not_mutation _ P2), (applied_not_apply _ P3), Ha, Hr, Hr2,
      (applied_not_mutation _ P5).
    split; [reflexivity|]. rewrite !orb_true_r. split; [reflexivity|].
    split; [reflexivity|].
    eexists. rewrite !app_assoc. reflexivity.
Qed.

End MysqlRun.

(** X4 on a namespace with a foreign pod, the operator declining the
    deletion: both manifests are applied. *)
Lemma mysql_run_returns_witness :
  exists evs,
    snd (Mysql.run (cluster foreign_listing (fun _ => Some "no")) []) = [] ++ evs
    /\ ((applied evs = []
         /\ exists evs', evs = evs'
              ++ [EvLog INFO "Deployment already exists with expected resources"])
        \/ (applied evs = [(mysql_apply "mysql.yaml", 0);
                           (mysql_apply "phpmyadmin.yaml", 0)]
            /\ existsb (running_listing "mysql") evs = true
            /\ existsb (running_listing "phpmyadmin") evs = true
            /\ exists evs', evs = evs'
                 ++ [EvLog INFO "Deployment completed successfully"])).
Proof.
  apply (mysql_run_returns (cluster foreign_listing (fun _ => Some "no")) []).
  vm_compute. reflexivity.
Defined.

(* ===================================================================== *)
(** ** The deployment of deploy_kafka.py *)
(* ===================================================================== *)

Section KafkaDeploy.
Variable w : World.

Local Arguments String.append : simpl never.

Lemma kafka_copy_missing_calm (temp_dir repo_dir : string) (files : list string) :
  only calm (Kafka.copy_missing w temp_dir repo_dir files).
Proof.
  induction files as [|f r IH]; cbn [Kafka.copy_missing]; only_steps. exact IH.
Qed.

Lemma kafka_preconditions_calm : only calm (Kafka.preconditions w).
Proof.
  unfold Kafka.preconditions, Kafka.fetch_missing_files. only_steps.
  all: apply kafka_copy_missing_calm.
Qed.

Lemma kafka_extraneous_in_spec (data_lines : list string) :
  Kafka.extraneous_in data_lines = negb (forallb kafka_owned data_lines).
Proof.
  induction data_lines as [|l r IH]; [reflexivity|].
  cbn [Kafka.extraneous_in forallb]. fold (kafka_owned l).
  destruct (kafka_owned l); [exact IH|reflexivity].
Qed.

Lemma forallb_calm_facts (evs : Trace) :
  forallb calm evs = true -> apply_calls evs = 0%nat /\ forallb not_input evs = true.
Proof.
  induction evs as [|e r IH]; [now split|].
  cbn [forallb]. intros H. apply andb_prop in H as [He Hr].
  destruct (IH Hr) as [Ha Hi]. unfold calm in He. apply andb_prop in He as [H1 H2].
  split.
  - unfold apply_calls in *. cbn [filter]. unfold not_apply in H1.
    destruct (is_apply e); [discriminate|exact Ha].
  - now rewrite H2, Hi.
Qed.

(** X5. deploy_kafka.py is idempotent too, and says so by leaving the
    process. When the steps before the inspection pass, the listing of the
    namespace succeeds, has more than one line, and every line after the
    first mentions kafka or redpanda, [deploy_kafka_and_redpanda] exits with
    status 0 after the message that the expected resources are already
    running; it has applied nothing and has asked the operator nothing. *)
Theorem kafka_deploy_is_idempotent (fuel : nat) (t t1 : Trace) :
  Kafka.preconditions w (t ++ [EvLog INFO "Starting Kafka and Redpanda deployment script."])
  = (Returned tt, t1) ->
  returncode (subprocess_result w t1 kafka_get_all) = 0 ->
  (1 < length (PyStr.splitlines
                 (PyStr.strip (stdout (subprocess_result w t1 kafka_get_all)))))%nat ->
  forallb kafka_owned
    (tl (PyStr.splitlines
           (PyStr.strip (stdout (subprocess_result w t1 kafka_get_all))))) = true ->
  exists evs,
    Kafka.deploy_kafka_and_redpanda w fuel t
    = (Exited 0,
       t ++ evs
         ++ [EvLog INFO "Expected resources already running. Exiting deployment script."])
    /\ apply_calls evs = 0%nat
    /\ forallb not_input evs = true.
Proof.
  intros Hpre Hrc Hlen Hown.
  destruct (only_run _ _ _ _ _ kafka_preconditions_calm Hpre) as (e1 & E1 & P1).
  unfold Kafka.deploy_kafka_and_redpanda.
  unfold bind at 1. unfold log at 1, emit.
  unfold bind at 1. rewrite Hpre.
  unfold bind at 1. unfold Kafka.inspect.
  unfold bind at 1. unfold try_except, bind at 1, subprocess_run.
  cbv zeta. change (Argv ["kubectl"; "get"; "all"; "-n"; Kafka.NAMESPACE]) with kafka_get_all.
  rewrite Hrc. cbn [Z.eqb negb andb]. unfold ret at 1.
  apply Nat.leb_gt in Hlen. rewrite Hlen.
  rewrite kafka_extraneous_in_spec, Hown. cbn [negb].
  unfold Kafka.log_resources, bind, log, emit, sys_exit.
  eexists ([EvLog INFO _] ++ e1 ++ [EvRun kafka_get_all _; EvLog INFO _; EvLog INFO _;
                                    EvLog INFO _; EvLog INFO _; EvLog INFO _]).
  split; [rewrite E1; now rewrite <- !app_assoc|].
  destruct (forallb_calm_facts _ P1) as [Ha Hi].
  rewrite !apply_calls_app, !forallb_app, Ha, Hi. split; reflexivity.
Qed.

End KafkaDeploy.

(** X5 on a namespace that holds a Kafka pod. *)
Lemma kafka_deploy_is_idempotent_witness :
  exists evs,
    Kafka.deploy_kafka_and_redpanda (cluster kafka_listing (fun _ => None)) 0 []
    = (Exited 0,
       [] ++ evs
         ++ [EvLog INFO "Expected resources already running. Exiting deployment script."])
    /\ apply_calls evs = 0%nat
    /\ forallb not_input evs = true.
Proof.
  apply (kafka_deploy_is_idempotent (cluster kafka_listing (fun _ => None)) 0 []
           (snd (Kafka.preconditions (cluster kafka_listing (fun _ => None))
                   [EvLog INFO "Starting Kafka and Redpanda deployment script."]))).
  - vm_compute. reflexivity.
  - vm_compute. reflexivity.
  - vm_compute. apply le_n.
  - vm_compute. reflexivity.
Defined.

(* ===================================================================== *)
(** ** What may escape the deployments *)
(* ===================================================================== *)


Section Escapes.
Variable w : World.







End Escapes.

(* ===================================================================== *)
(** ** The cluster is asked for after [minikube status] only *)
(* ===================================================================== *)

Lemma guarded_quiet (a : Trace) :
  forallb not_kubectl a = true -> guarded_by_status a = true.
Proof.
  induction a as [|e r IH]; [reflexivity|]. cbn [forallb guarded_by_status].
  intros H. apply andb_prop in H as [He Hr]. rewrite He, (IH Hr). apply orb_true_r.
Qed.

Lemma guarded_app_quiet (a b : Trace) :
  forallb not_kubectl a = true -> guarded_by_status b = true ->
  guarded_by_status (a ++ b) = true.
Proof.
  intros Ha Hb. induction a as [|e r IH]; [exact Hb|].
  cbn [forallb] in Ha. apply andb_prop in Ha as [He Hr].
  cbn [app guarded_by_status]. rewrite He, (IH Hr). apply orb_true_r.
Qed.

Lemma guarded_app_passed (a b : Trace) :
  guarded_by_status a = true -> existsb status_running a = true ->
  guarded_by_status (a ++ b) = true.
Proof.
  induction a as [|e r IH]; [discriminate|].
  cbn [app guarded_by_status existsb]. intros Hg Hs.
  destruct (status_running e); [reflexivity|]. cbn [orb] in *.
  apply andb_prop in Hg as [He Hr]. now rewrite He, IH.
Qed.

Lemma existsb_app_r {A} (f : A -> bool) (a b : list A) :
  existsb f b = true -> existsb f (a ++ b) = true.
Proof. intros H. rewrite existsb_app, H. apply orb_true_r. Qed.

Lemma checks_bind_quiet {A B} (m : Script A) (k : A -> Script B) :
  only not_kubectl m -> (forall a, checks_status (k a)) -> checks_status (bind m k).
Proof.
  intros Hm Hk t. unfold bind. destruct (Hm t) as (e1 & E1 & P1).
  destruct (m t) as [[a|e|c|] t1]; cbn [snd] in *; subst t1;
    try (exists e1; split; [reflexivity|]; split;
         [now apply guarded_quiet|intros a H; discriminate H]).
  destruct (Hk a (t ++ e1)) as (e2 & E2 & G2 & R2).
  exists (e1 ++ e2). rewrite E2, app_assoc. split; [reflexivity|].
  split; [now apply guarded_app_quiet|].
  intros b Hb. apply existsb_app_r. now apply (R2 b).
Qed.

Lemma checks_bind_then {A B} (m : Script A) (k : A -> Script B) :
  checks_status m -> (forall a, only any_event (k a)) -> checks_status (bind m k).
Proof.
  intros Hm Hk t. unfold bind. destruct (Hm t) as (e1 & E1 & G1 & R1).
  destruct (m t) as [[a|e|c|] t1]; cbn [snd fst] in *; subst t1;
    try (exists e1; split; [reflexivity|]; split;
         [exact G1|intros a H; discriminate H]).
  destruct (Hk a (t ++ e1)) as (e2 & E2 & _).
  specialize (R1 a eq_refl).
  exists (e1 ++ e2). rewrite E2, app_assoc. split; [reflexivity|].
  split; [now apply guarded_app_passed|].
  intros b _. rewrite existsb_app, R1. reflexivity.
Qed.

Lemma guarded_status_first (r : CompletedProcess) (rest : Trace) :
  forallb not_kubectl rest = true ->
  guarded_by_status (EvRun minikube_status r :: rest) = true.
Proof.
  intros H. cbn [guarded_by_status]. rewrite (guarded_quiet _ H).
  replace (not_kubectl (EvRun minikube_status r)) with true by reflexivity.
  apply orb_true_r.
Qed.

Lemma status_running_passed (r : CompletedProcess) (rest : Trace) :
  PyStr.contains "Running" (stdout r) = true ->
  existsb status_running (EvRun minikube_status r :: rest) = true.
Proof.
  intros H. cbn [existsb]. unfold status_running at 1.
  now rewrite same_command_refl, H.
Qed.

Section Guarded.
Variable w : World.

Local Arguments String.append : simpl never.

Lemma mysql_check_minikube_checks : checks_status (Mysql.check_minikube_status w).
Proof.
  intros t. unfold Mysql.check_minikube_status, try_except, bind, subprocess_run.
  cbn [andb]. fold minikube_status.
  set (r := subprocess_result w t minikube_status).
  destruct (PyStr.contains "Running" (stdout r)) eqn:Hr; cbn [negb].
  - exists [EvRun minikube_status r]. split; [reflexivity|].
    split; [now apply guarded_status_first|]. intros _ _.
    now apply status_running_passed.
  - eexists [EvRun minikube_status r; EvLog ERROR _].
    unfold Mysql.print_message, log, emit, sys_exit. cbn [snd fst].
    split; [now rewrite <- app_assoc|].
    split; [now apply guarded_status_first|]. intros a H. discriminate H.
Qed.

Lemma ecom_check_minikube_checks : checks_status (Ecom.check_minikube_status w).
Proof.
  intros t. unfold Ecom.check_minikube_status, try_except, bind, subprocess_run.
  cbn [andb]. fold minikube_status.
  set (r := subprocess_result w t minikube_status).
  destruct (PyStr.contains "Running" (stdout r)) eqn:Hr;
    destruct (returncode r =? 0); cbn [negb orb].
  1: { eexists [EvRun minikube_status r; EvLog INFO _].
       unfold log, emit. cbn [snd fst]. split; [now rewrite <- app_assoc|].
       split; [now apply guarded_status_first|]. intros _ _.
       now apply status_running_passed. }
  all: eexists [EvRun minikube_status r; EvLog ERROR _];
    unfold log, emit, sys_exit; cbn [snd fst];
    (split; [now rewrite <- app_assoc|]);
    (split; [now apply guarded_status_first|]); intros a H; discriminate H.
Qed.

Lemma kafka_check_minikube_checks :
  checks_status
    (try_except
       (bind (subprocess_run w (Argv ["minikube"; "status"]) true)
          (fun result =>
             if negb (PyStr.contains "Running" (stdout result))
             then bind (log INFO "Minikube is not running. Please start Minikube and try again.")
                    (fun _ => sys_exit 0)
             else log DEBUG "Minikube status: Running."))
       is_CalledProcessError
       (fun e => bind (log ERROR ("Failed to get Minikube status: " ++ str_exn e)%string)
                   (fun _ => sys_exit 1))).
Proof.
  intros t. unfold try_except, bind, subprocess_run.
  cbn [andb]. fold minikube_status.
  set (r := subprocess_result w t minikube_status).
  destruct (returncode r =? 0); cbn [negb is_CalledProcessError].
  - destruct (PyStr.contains "Running" (stdout r)) eqn:Hr; cbn [negb].
    + eexists [EvRun minikube_status r; EvLog DEBUG _].
      unfold log, emit. cbn [snd fst]. split; [now rewrite <- app_assoc|].
      split; [now apply guarded_status_first|]. intros _ _.
      now apply status_running_passed.
    + eexists [EvRun minikube_status r; EvLog INFO _].
      unfold log, emit, sys_exit. cbn [snd fst]. split; [now rewrite <- app_assoc|].
      split; [now apply guarded_status_first|]. intros a H. discriminate H.
  - eexists [EvRun minikube_status r; EvLog ERROR _].
    unfold log, emit, sys_exit. cbn [snd fst]. split; [now rewrite <- app_assoc|].
    split; [now apply guarded_status_first|]. intros a H. discriminate H.
Qed.

Lemma mysql_wait_attempts_only_any (left : nat) (app_label : string) :
  only any_event (Mysql.wait_attempts w left app_label).
Proof.
  induction left as [|left IH]; cbn [Mysql.wait_attempts]; only_steps. exact IH.
Qed.

Lemma mysql_run_checks : checks_status (Mysql.run w).
Proof.
  unfold Mysql.run, Mysql.preconditions.
  apply checks_bind_then.
  - apply checks_bind_quiet; [unfold Mysql.verify_user, Mysql.print_message; only_steps|].
    intros _. apply checks_bind_quiet; [unfold Mysql.verify_directories; only_steps|].
    intros _. apply checks_bind_quiet;
      [unfold Mysql.verify_files, Mysql.print_message; only_steps|].
    intros _. apply checks_bind_then; [apply mysql_check_minikube_checks|].
    intros _. unfold Mysql.manage_namespace, Mysql.print_message. only_steps.
  - intros _.
    unfold Mysql.check_existing_resources, Mysql.get_namespace_resources, Mysql.reconcile,
      Mysql.display_resources, Mysql.get_namespace_resources, Mysql.deploy_resources,
      Mysql.manage_namespace, Mysql.handle_kubectl_output, Mysql.wait_for_pods_ready,
      Mysql.print_message.
    only_steps.
    all: apply mysql_wait_attempts_only_any.
Qed.

Lemma ecom_copy_fetched_only (P : Event -> bool) (temp_dir : string) (files : list string) :
  (forall op b, P (EvFs op b) = true) -> (forall l m, P (EvLog l m) = true) ->
  only P (Ecom.copy_fetched w temp_dir files).
Proof.
  intros Hf Hl. induction files as [|f r IH]; cbn [Ecom.copy_fetched].
  - apply only_ret.
  - apply only_bind; [apply only_fs_test; intros; apply Hf|intros present].
    destruct present.
    + apply only_bind; [apply only_fs_do; intros; apply Hf|intros _].
      apply only_bind; [apply only_log; apply Hl|intros _]. exact IH.
    + apply only_bind; [apply only_log; apply Hl|intros _]. apply only_sys_exit.
Qed.

Lemma ecom_perform_installation_checks : checks_status (Ecom.perform_installation w).
Proof.
  unfold Ecom.perform_installation, Ecom.preconditions.
  apply checks_bind_then.
  - apply checks_bind_quiet; [unfold Ecom.check_user; only_steps|].
    intros _. apply checks_bind_quiet; [unfold Ecom.ensure_directory; only_steps|].
    intros _. apply checks_bind_quiet; [unfold Ecom.change_directory; only_steps|].
    intros _. apply checks_bind_quiet.
    { unfold Ecom.verify_files, Ecom.fetch_files. only_steps.
      all: apply ecom_copy_fetched_only; reflexivity. }
    intros _. apply checks_bind_then; [apply ecom_check_minikube_checks|].
    intros _. unfold Ecom.ensure_namespace. only_steps.
  - intros _.
    unfold Ecom.manage_existing_resources, Ecom.get_resources, Ecom.display_resources,
      Ecom.deploy_resources, Ecom.display_deployed_resources, Ecom.ensure_namespace,
      Ecom.get_resources, Ecom.display_resources.
    only_steps.
Qed.

Lemma kafka_copy_missing_only (P : Event -> bool) (temp_dir repo_dir : string)
    (files : list string) :
  (forall op b, P (EvFs op b) = true) -> (forall l m, P (EvLog l m) = true) ->
  only P (Kafka.copy_missing w temp_dir repo_dir files).
Proof.
  intros Hf Hl. induction files as [|f r IH]; cbn [Kafka.copy_missing].
  - apply only_ret.
  - apply only_bind; [apply only_fs_test; intros; apply Hf|intros present].
    destruct present.
    + apply only_bind; [|intros _; exact IH].
      apply only_try_except.
      * apply only_bind; [apply only_fs_do; intros; apply Hf|intros _].
        apply only_log; apply Hl.
      * intros e. apply only_bind; [apply only_log; apply Hl|intros _].
        apply only_bind; [apply only_fs_do; intros; apply Hf|intros _].
        apply only_sys_exit.
    + apply only_bind; [apply only_log; apply Hl|intros _].
      apply only_bind; [apply only_fs_do; intros; apply Hf|intros _].
      apply only_sys_exit.
Qed.

Lemma kafka_check_lines_only (P : Event -> bool) (lines : list string) :
  (forall l m, P (EvLog l m) = true) ->
  forall b, only P (Kafka.check_lines lines b).
Proof.
  intros Hl. induction lines as [|l r IH]; intros b; cbn [Kafka.check_lines].
  - apply only_ret.
  - destruct (length (PyStr.split l) <? 2)%nat; [apply IH|].
    destruct (Kafka.parse_ready _) as [[x y]|].
    + destruct (negb (x =? y)); [|apply IH].
      apply only_bind; [apply only_log; apply Hl|intros _; apply IH].
    + apply only_bind; [apply only_log; apply Hl|intros _; apply IH].
Qed.

Lemma kafka_wait_loop_only_any (fuel : nat) (ns : string) (timeout interval : Z) :
  forall elapsed, only any_event (Kafka.wait_loop w fuel ns timeout interval elapsed).
Proof.
  induction fuel as [|fuel IH]; intros elapsed; cbn [Kafka.wait_loop].
  - apply only_out_of_fuel.
  - destruct (elapsed <? timeout); [|only_steps].
    apply only_bind; [unfold Kafka.run_command; only_steps|intros output].
    apply only_bind; [destruct (PyStr.truthy output);
                      [now apply kafka_check_lines_only|apply only_ret]|intros all_ready].
    destruct (PyStr.truthy output && all_ready); [only_steps|].
    apply only_bind; [now apply only_sleep|intros _; apply IH].
Qed.

Lemma kafka_ask_choice_only_any (fuel : nat) : only any_event (Kafka.ask_choice w fuel).
Proof.
  induction fuel as [|fuel IH]; cbn [Kafka.ask_choice]; only_steps. exact IH.
Qed.

Lemma kafka_poll_deleted_only_any (left : nat) : only any_event (Kafka.poll_deleted w left).
Proof.
  induction left as [|left IH]; cbn [Kafka.poll_deleted]; only_steps. exact IH.
Qed.

Lemma kafka_deploy_checks (fuel : nat) :
  checks_status (Kafka.deploy_kafka_and_redpanda w fuel).
Proof.
  unfold Kafka.deploy_kafka_and_redpanda, Kafka.preconditions.
  apply checks_bind_quiet; [only_steps|intros _].
  apply checks_bind_then.
  - apply checks_bind_quiet; [only_steps|intros _].
    apply checks_bind_quiet; [only_steps|intros missing].
    apply checks_bind_quiet.
    { destruct missing; [only_steps|].
      unfold Kafka.fetch_missing_files. only_steps.
      all: apply kafka_copy_missing_only; reflexivity. }
    intros _. apply checks_bind_then; [apply kafka_check_minikube_checks|].
    intros _. only_steps.
  - intros _. apply only_bind; [unfold Kafka.inspect, Kafka.log_resources; only_steps|].
    intros [resources_output extraneous].
    apply only_bind.
    { unfold Kafka.resolve. destruct extraneous; [|apply only_ret].
      only_steps. apply kafka_ask_choice_only_any. }
    intros choice. apply only_bind.
    { destruct (extraneous && PyStr.eqb choice "2"); [|apply only_ret].
      unfold Kafka.recreate_namespace. only_steps.
      all: apply kafka_poll_deleted_only_any. }
    intros _. unfold Kafka.deploy_steps, Kafka.wait_for_pods, Kafka.log_resources.
    only_steps.
    all: apply kafka_wait_loop_only_any.
Qed.

(** X8. No script touches the cluster before it has seen Minikube
    running. In the history that [run] of deploy_mysql.py,
    [perform_installation] of deploy_ecom_app.py and
    [deploy_kafka_and_redpanda] add, whatever the world and however they
    end, no [kubectl] command comes before a run of [minikube status] whose
    output mentions Running. *)
Theorem cluster_untouched_until_running (fuel : nat) (t : Trace) :
  (exists evs, snd (Mysql.run w t) = t ++ evs /\ guarded_by_status evs = true)
  /\ (exists evs, snd (Ecom.perform_installation w t) = t ++ evs
                  /\ guarded_by_status evs = true)
  /\ (exists evs, snd (Kafka.deploy_kafka_and_redpanda w fuel t) = t ++ evs
                  /\ guarded_by_status evs = true).
Proof.
  split; [|split].
  - destruct (mysql_run_checks t) as (evs & E & G & _). now exists evs.
  - destruct (ecom_perform_installation_checks t) as (evs & E & G & _). now exists evs.
  - destruct (kafka_deploy_checks fuel t) as (evs & E & G & _). now exists evs.
Qed.

End Guarded.

(* ===================================================================== *)
(** ** Removal of a namespace *)
(* ===================================================================== *)

Section Removal.
Variable w : World.

Local Arguments String.append : simpl never.



(** X11. Only muser deploys. When the current user is not muser, [run] of
    deploy_mysql.py and [perform_installation] of deploy_ecom_app.py leave
    with status 1 after the look-up of the user and one error message:
    no command is run, no directory is made or entered and no file is
    tested. *)
Theorem wrong_user_fails_fast (t : Trace) :
  PyStr.eqb (user_name w t) "muser" = false ->
  Mysql.run w t
  = (Exited 1,
     t ++ [EvUser (user_name w t);
           EvLog ERROR ("Error: This script must be run by 'muser'. Current user: "
                        ++ user_name w t)%string])
  /\ Ecom.perform_installation w t
     = (Exited 1,
        t ++ [EvUser (user_name w t);
              EvLog ERROR "This script must be executed by 'muser'."]).
Proof.
  intros H. split.
  - unfold Mysql.run, Mysql.preconditions, Mysql.verify_user, Mysql.print_message,
      bind, getuser, log, emit, sys_exit.
    rewrite H. cbn [negb]. now rewrite <- app_assoc.
  - unfold Ecom.perform_installation, Ecom.preconditions, Ecom.check_user,
      bind, getuser, log, emit, sys_exit.
    rewrite H. cbn [negb]. now rewrite <- app_assoc.
Qed.

End Removal.

(** X11 for root on a cluster in working order. *)
Lemma wrong_user_fails_fast_witness :
  Mysql.run (cluster_of "root") []
  = (Exited 1,
     [] ++ [EvUser (user_name (cluster_of "root") []);
            EvLog ERROR ("Error: This script must be run by 'muser'. Current user: "
                         ++ user_name (cluster_of "root") [])%string])
  /\ Ecom.perform_installation (cluster_of "root") []
     = (Exited 1,
        [] ++ [EvUser (user_name (cluster_of "root") []);
               EvLog ERROR "This script must be executed by 'muser'."]).
Proof. apply (wrong_user_fails_fast (cluster_of "root") []). reflexivity. Defined.

(* ===================================================================== *)
(** ** deploy_kubernetes_dashboard.py: the NodePort and the manifests *)
(* ===================================================================== *)

Lemma prefix_split (p s : string) :
  String.prefix p s = true -> exists post, s = (p ++ post)%string.
Proof.
  revert s. induction p as [|c p IH]; intros s H.
  - now exists s.
  - destruct s as [|d s]; [discriminate|]. cbn [String.prefix] in H.
    destruct (ascii_dec c d) as [->|]; [|discriminate].
    destruct (IH s H) as (post & ->). now exists post.
Qed.

Lemma prefix_app_same (p post : string) : String.prefix p (p ++ post) = true.
Proof.
  induction p as [|c p IH]; [apply prefix_empty|].
  cbn [String.append String.prefix]. now destruct (ascii_dec c c).
Qed.

Lemma span_digits_spec (s : string) :
  s = (fst (Dashboard.span_digits s) ++ snd (Dashboard.span_digits s))%string
  /\ all_digits (fst (Dashboard.span_digits s)) = true.
Proof.
  induction s as [|c r [IH1 IH2]]; [now split|].
  cbn [Dashboard.span_digits]. destruct (Dashboard.isdigit c) eqn:Hc; [|now split].
  destruct (Dashboard.span_digits r) as [d rest]. cbn [fst snd] in *.
  split; [cbn; now f_equal|]. cbn [all_digits]. now rewrite Hc, IH2.
Qed.

Lemma span_digits_app (d rest : string) :
  all_digits d = true ->
  match rest with
  | EmptyString => True
  | String c _ => Dashboard.isdigit c = false
  end ->
  Dashboard.span_digits (d ++ rest) = (d, rest).
Proof.
  intros Hd Hr. induction d as [|c d IH].
  - destruct rest as [|c r]; [reflexivity|]. cbn. now rewrite Hr.
  - cbn [all_digits] in Hd. apply andb_prop in Hd as [Hc Hd].
    cbn. rewrite Hc, (IH Hd). reflexivity.
Qed.

Lemma match_port_sound (s d : string) :
  Dashboard.match_port s = Some d ->
  PyStr.truthy d = true /\ all_digits d = true
  /\ exists post, s = (":" ++ d ++ "/TCP" ++ post)%string.
Proof.
  destruct s as [|c r]; [discriminate|]. unfold Dashboard.match_port.
  destruct (Ascii.eqb_spec c ":"%char) as [->|Hc].
  - destruct (span_digits_spec r) as [E D].
    destruct (Dashboard.span_digits r) as [d' rest]. cbn [fst snd] in *.
    destruct (PyStr.truthy d') eqn:Ht; [|discriminate]. cbn [andb].
    destruct (PyStr.startswith rest "/TCP") eqn:Hp; [|discriminate].
    intros H. injection H as <-. split; [exact Ht|]. split; [exact D|].
    apply prefix_split in Hp as (post & ->). exists post.
    cbn. f_equal. exact E.
  - destruct c as [[] [] [] [] [] [] [] []]; try discriminate. now elim Hc.
Qed.

Lemma search_port_sound (s d : string) :
  Dashboard.search_port s = Some d ->
  PyStr.truthy d = true /\ all_digits d = true
  /\ exists pre post, s = (pre ++ ":" ++ d ++ "/TCP" ++ post)%string.
Proof.
  induction s as [|c r IH].
  - cbn. discriminate.
  - cbn [Dashboard.search_port].
    destruct (Dashboard.match_port (String c r)) as [d'|] eqn:Hm.
    + intros H. injection H as <-.
      destruct (match_port_sound _ _ Hm) as (Ht & Hd & post & E).
      split; [exact Ht|]. split; [exact Hd|]. exists ""%string, post. exact E.
    + intros H. destruct (IH H) as (Ht & Hd & pre & post & E).
      split; [exact Ht|]. split; [exact Hd|].
      exists (String c pre), post. cbn. now f_equal.
Qed.

Lemma match_port_no_colon (c : ascii) (r : string) :
  Ascii.eqb c ":"%char = false -> Dashboard.match_port (String c r) = None.
Proof.
  intros H. unfold Dashboard.match_port.
  destruct c as [[] [] [] [] [] [] [] []]; try reflexivity. discriminate H.
Qed.

(** X12. The search for [:(\d+)/TCP] finds the port of a service line.
    In a text that has no colon before it, a colon followed by one or
    more decimal digits and by /TCP is found, and the digits are what the
    search returns, whatever follows. *)
Theorem dashboard_search_port_finds_port (pre port post : string) :
  no_colon pre = true -> all_digits port = true -> PyStr.truthy port = true ->
  Dashboard.search_port (pre ++ ":" ++ port ++ "/TCP" ++ post) = Some port.
Proof.
  intros Hpre Hd Ht. induction pre as [|c pre IH].
  - change ("" ++ ":" ++ port ++ "/TCP" ++ post)%string
      with (String ":"%char (port ++ "/TCP" ++ post)).
    cbn [Dashboard.search_port]. unfold Dashboard.match_port.
    rewrite span_digits_app by (try exact Hd; reflexivity).
    rewrite Ht. unfold PyStr.startswith.
    now rewrite (prefix_app_same "/TCP" post).
  - cbn [no_colon] in Hpre. apply andb_prop in Hpre as [Hc Hpre].
    apply negb_true_iff in Hc.
    change (String c pre ++ ":" ++ port ++ "/TCP" ++ post)%string
      with (String c (pre ++ ":" ++ port ++ "/TCP" ++ post)).
    cbn [Dashboard.search_port]. rewrite (match_port_no_colon _ _ Hc). now apply IH.
Qed.

(** X12 on a line of [kubectl get svc]. *)
Lemma dashboard_search_port_finds_port_witness :
  Dashboard.search_port
    ("kubernetes-dashboard-kong-proxy NodePort 10.96.12.7 <none> 443"
     ++ ":" ++ "30243" ++ "/TCP" ++ " 5m")
  = Some "30243"%string.
Proof.
  apply (dashboard_search_port_finds_port
           "kubernetes-dashboard-kong-proxy NodePort 10.96.12.7 <none> 443"
           "30243" " 5m"); reflexivity.
Defined.

Section DashboardSteps.
Variable w : World.

Local Arguments String.append : simpl never.

Lemma dashboard_run_command_checked (cmd : string) (t : Trace) :
  let t1 := t ++ [EvLog INFO ("Executing command: " ++ cmd)%string] in
  let r := subprocess_result w t1 (Shell cmd) in
  Dashboard.run_command w cmd true t
  = if returncode r =? 0
    then (Returned (PyStr.strip (stdout r)), t1 ++ [EvRun (Shell cmd) r])
    else (Exited 1,
          t1 ++ [EvRun (Shell cmd) r;
                 EvLog ERROR ("Command failed with code " ++ str_Z (returncode r) ++ ": "
                              ++ cmd ++ PyStr.nl ++ "Stdout: " ++ stdout r ++ PyStr.nl
                              ++ "Stderr: " ++ stderr r)%string]).
Proof.
  cbv zeta. unfold Dashboard.run_command, bind, log, emit, subprocess_run, sys_exit, ret.
  cbn [andb].
  destruct (returncode _ =? 0); cbn [negb]; [reflexivity|].
  now rewrite <- app_assoc.
Qed.

(** X13. The NodePort that [extract_nodeport] returns. When it returns, it
    has run one command, the listing of the proxy service, which ended with
    status 0; the value returned is a non-empty text of decimal digits, and
    it stands in the trimmed output of that listing between a colon and
    /TCP. *)
Theorem dashboard_extract_nodeport_returns_port (namespace nodeport : string)
    (t t' : Trace) :
  Dashboard.extract_nodeport w namespace t = (Returned nodeport, t') ->
  PyStr.truthy nodeport = true /\ all_digits nodeport = true
  /\ exists evs r pre post,
       t' = t ++ evs
       /\ runs evs = [(get_proxy_service namespace, 0)]
       /\ In (EvRun (get_proxy_service namespace) r) evs
       /\ PyStr.strip (stdout r) = (pre ++ ":" ++ nodeport ++ "/TCP" ++ post)%string.
Proof.
  unfold Dashboard.extract_nodeport. unfold bind at 1. unfold log at 1, emit.
  unfold bind at 1. rewrite dashboard_run_command_checked. cbv zeta.
  fold (get_proxy_service namespace).
  set (r := subprocess_result w _ (get_proxy_service namespace)).
  destruct (returncode r =? 0) eqn:Hr; [|discriminate].
  destruct (Dashboard.search_port (PyStr.strip (stdout r))) as [d|] eqn:Hs.
  - unfold bind, log, emit, ret. intros H. injection H as <- <-.
    destruct (search_port_sound _ _ Hs) as (Ht & Hd & pre & post & E).
    split; [exact Ht|]. split; [exact Hd|].
    eexists [EvLog INFO _; EvLog INFO _; EvRun (get_proxy_service namespace) r; EvLog INFO _].
    exists r, pre, post. split; [now rewrite <- !app_assoc|].
    apply Z.eqb_eq in Hr. cbn [runs]. rewrite Hr.
    split; [reflexivity|]. split; [cbn; auto|exact E].
  - unfold bind, log, emit, sys_exit. discriminate.
Qed.

(** X14. [verify_and_apply_yaml] tests both manifests before it applies
    any. When one of them is not a file it leaves with status 1 and has run
    no command. Otherwise it applies the ingress manifest, and the secret
    manifest only after the ingress manifest was applied with status 0; it
    returns normally iff both applications ended with status 0 and leaves
    with status 1 at the first that did not. *)
Theorem dashboard_yaml_all_or_nothing (t : Trace) :
  exists (o : Outcome unit) (evs : Trace) (b1 b2 : bool),
    Dashboard.verify_and_apply_yaml w t = (o, t ++ evs)
    /\ fs_ops evs = [(IsFile "kubernetes-dashboard-ingress.yaml", b1);
                     (IsFile "kubernetes-dashboard-secret.yaml", b2)]
    /\ if b1 && b2 then
         (exists rc, rc <> 0 /\ o = Exited 1
                     /\ runs evs = [(apply_file "kubernetes-dashboard-ingress.yaml", rc)])
         \/ (exists rc,
               runs evs = [(apply_file "kubernetes-dashboard-ingress.yaml", 0);
                           (apply_file "kubernetes-dashboard-secret.yaml", rc)]
               /\ o = if rc =? 0 then Returned tt else Exited 1)
       else o = Exited 1 /\ runs evs = [].
Proof.
  unfold Dashboard.verify_and_apply_yaml, Dashboard.yaml_files.
  cbn [missing_of]. unfold bind at 1. unfold bind at 1. unfold fs_test at 1.
  set (b1 := fs_result w t _). set (t1 := t ++ [EvFs _ b1]).
  unfold bind at 1. unfold bind at 1. unfold fs_test at 1.
  set (b2 := fs_result w t1 _). set (t2 := t1 ++ [EvFs _ b2]).
  unfold bind at 1. unfold ret at 1. unfold ret at 1. unfold ret at 1.
  assert (Et2 : forall l, t2 ++ l = t ++ [EvFs (IsFile "kubernetes-dashboard-ingress.yaml") b1;
                                         EvFs (IsFile "kubernetes-dashboard-secret.yaml") b2] ++ l).
  { intros l. subst t2 t1. now rewrite <- !app_assoc. }
  destruct b1 eqn:E1, b2 eqn:E2; cbn [andb].
  2-4: (exists (Exited 1); eexists (_ :: _ :: [EvLog ERROR _]); exists b1, b2;
        unfold bind, log, emit, sys_exit; rewrite Et2; subst b1 b2; rewrite ?E1, ?E2;
        split; [reflexivity|]; split; [reflexivity|]; now split).
  cbn [Dashboard.apply_yaml]. unfold bind at 1. unfold log at 1, emit.
  unfold bind at 1. rewrite dashboard_run_command_checked. cbv zeta.
  fold (apply_file "kubernetes-dashboard-ingress.yaml").
  set (r1 := subprocess_result w _ (apply_file "kubernetes-dashboard-ingress.yaml")).
  destruct (returncode r1 =? 0) eqn:H1.
  - unfold bind at 1. unfold log at 1, emit.
    unfold bind at 1. rewrite dashboard_run_command_checked. cbv zeta.
    fold (apply_file "kubernetes-dashboard-secret.yaml").
    set (r2 := subprocess_result w _ (apply_file "kubernetes-dashboard-secret.yaml")).
    apply Z.eqb_eq in H1.
    destruct (returncode r2 =? 0) eqn:H2.
    + exists (Returned tt).
      eexists (_ :: _ :: [EvLog INFO _; EvLog INFO _; EvRun _ r1;
                          EvLog INFO _; EvLog INFO _; EvRun _ r2]).
      exists true, true. unfold ret. rewrite <- !app_assoc, Et2.
      split; [reflexivity|]. split; [reflexivity|]. right.
      exists (returncode r2). cbn [runs]. rewrite H1, H2. now split.
    + exists (Exited 1).
      eexists (_ :: _ :: [EvLog INFO _; EvLog INFO _; EvRun _ r1;
                          EvLog INFO _; EvLog INFO _; EvRun _ r2; EvLog ERROR _]).
      exists true, true. rewrite <- !app_assoc, Et2.
      split; [reflexivity|]. split; [reflexivity|]. right.
      exists (returncode r2). cbn [runs]. rewrite H1, H2. now split.
  - exists (Exited 1).
    eexists (_ :: _ :: [EvLog INFO _; EvLog INFO _; EvRun _ r1; EvLog ERROR _]).
    exists true, true. rewrite <- !app_assoc, Et2.
    split; [reflexivity|]. split; [reflexivity|]. left.
    exists (returncode r1). apply Z.eqb_neq in H1. now repeat split.
Qed.

End DashboardSteps.

(** X13 on a cluster whose proxy service has the NodePort 30243. *)
Lemma dashboard_extract_nodeport_returns_port_witness :
  PyStr.truthy "30243" = true /\ all_digits "30243" = true
  /\ exists evs r pre post,
       snd (Dashboard.extract_nodeport
              (proxy_world "kubernetes-dashboard-kong-proxy NodePort 10.96.12.7 <none> 443:30243/TCP 5m")
              "kubernetes-dashboard" [])
       = [] ++ evs
       /\ runs evs = [(get_proxy_service "kubernetes-dashboard", 0)]
       /\ In (EvRun (get_proxy_service "kubernetes-dashboard") r) evs
       /\ PyStr.strip (stdout r) = (pre ++ ":" ++ "30243" ++ "/TCP" ++ post)%string.
Proof.
  apply (dashboard_extract_nodeport_returns_port
           (proxy_world "kubernetes-dashboard-kong-proxy NodePort 10.96.12.7 <none> 443:30243/TCP 5m")
           "kubernetes-dashboard" "30243" []).
  vm_compute. reflexivity.
Defined.

(* ===================================================================== *)
(** ** deploy_kafka.py: the waiter and the prompt *)
(* ===================================================================== *)

Section KafkaEdges.
Variable w : World.

Local Arguments String.append : simpl never.

(** X15. [wait_for_pods] of deploy_kafka.py never returns [False]: it
    returns [True], or leaves the process with status 1 at the timeout. So
    the test [if not wait_for_pods(...)] of its caller never succeeds. It
    raises only the [ValueError] of a sleep of negative length, and only
    when [interval] is negative. *)
Theorem kafka_wait_for_pods_outcomes (fuel : nat) (ns : string) (timeout interval : Z)
    (t : Trace) :
  match fst (Kafka.wait_for_pods w fuel ns timeout interval t) with
  | Returned b => b = true
  | Exited c => c = 1
  | Raised e => e = ValueError /\ interval < 0
  | OutOfFuel => True
  end.
Proof.
  unfold Kafka.wait_for_pods, bind, log, emit.
  destruct (Kafka.wait_loop w fuel ns timeout interval 0 _) as [o t1] eqn:E.
  apply kafka_wait_loop_outcome in E. cbn [fst].
  destruct o as [b|e|c|]; try tauto.
Qed.

Lemma kafka_wait_loop_zero_interval (ns : string) (timeout : Z) :
  0 < timeout ->
  (forall t, Kafka.poll_ready (poll_output w ns t) = false) ->
  forall (fuel : nat) (t : Trace),
  exists evs,
    Kafka.wait_loop w fuel ns timeout 0 0 t = (OutOfFuel, t ++ evs)
    /\ polls ns evs = fuel /\ slept evs = 0.
Proof.
  intros Ht Hnr. induction fuel as [|fuel IH]; intros t.
  - exists []. cbn. now rewrite app_nil_r.
  - destruct (kafka_wait_round w fuel ns timeout 0 0 t Ht) as (round & Hp & Hs & _ & E).
    rewrite E, Hnr. cbn [Z.ltb Z.compare Z.add].
    destruct (IH (t ++ round ++ [EvSleep 0])) as (evs & E' & Hp' & Hs').
    exists (round ++ [EvSleep 0] ++ evs). rewrite E'.
    split; [now rewrite <- !app_assoc|].
    unfold polls in *. rewrite !times_run_app, !slept_app, Hp, Hp', Hs, Hs'.
    split; reflexivity.
Qed.

(** X16. With an interval of 0 the waiter of deploy_kafka.py has no
    timeout. While no listing is ready, [elapsed] stays 0 and the loop goes
    on: whatever the number of rounds allowed, the waiter is still running
    after them, has taken that many listings and has slept 0 seconds. *)
Theorem kafka_wait_zero_interval_never_ends (fuel : nat) (ns : string) (timeout : Z)
    (t : Trace) :
  0 < timeout ->
  (forall t', Kafka.poll_ready (poll_output w ns t') = false) ->
  exists evs,
    Kafka.wait_for_pods w fuel ns timeout 0 t = (OutOfFuel, t ++ evs)
    /\ polls ns evs = fuel /\ slept evs = 0.
Proof.
  intros Ht Hnr. unfold Kafka.wait_for_pods, bind, log, emit.
  destruct (kafka_wait_loop_zero_interval ns timeout Ht Hnr fuel
              (t ++ [EvLog INFO "Waiting for Streaming pods to be in Ready state (all containers ready)..."]))
    as (evs & E & Hp & Hs).
  rewrite E. eexists (EvLog INFO _ :: evs). split; [now rewrite <- app_assoc|].
  split; [exact Hp|exact Hs].
Qed.

Lemma prompts_app (a b : Trace) : prompts (a ++ b) = (prompts a + prompts b)%nat.
Proof. unfold prompts. now rewrite filter_app, length_app. Qed.

Lemma runs_app (a b : Trace) : runs (a ++ b) = runs a ++ runs b.
Proof.
  induction a as [|e r IH]; [reflexivity|].
  destruct e; cbn [app runs]; now rewrite ?IH.
Qed.

(** X17. The prompt of deploy_kafka.py is repeated until the answer,
    trimmed, is 1 or 2. When the terminal yields its lines in order and the
    next [n] lines are none of the two, the script asks [n + 1] times; it
    returns the trimmed line [n + 1] when that is 1 or 2, and leaves with
    status 1 when the input has ended there. Meanwhile it runs no command
    and does not sleep. *)
Theorem kafka_ask_choice_reprompts (answers : nat -> option string) (n fuel : nat)
    (t : Trace) :
  (forall t' p, terminal_line w t' p = answers (prompts t')) ->
  (forall k, (k < n)%nat ->
     exists a, answers (prompts t + k)%nat = Some a
               /\ PyStr.mem (PyStr.strip a) ["1"; "2"] = false) ->
  match answers (prompts t + n)%nat with
  | Some a => PyStr.mem (PyStr.strip a) ["1"; "2"] = true
  | None => True
  end ->
  (n < fuel)%nat ->
  exists evs,
    Kafka.ask_choice w fuel t
    = (match answers (prompts t + n)%nat with
       | Some a => Returned (PyStr.strip a)
       | None => Exited 1
       end, t ++ evs)
    /\ prompts evs = S n /\ runs evs = [] /\ slept evs = 0.
Proof.
  intros Hterm. revert fuel t.
  induction n as [|n IH]; intros fuel t Hbad Hlast Hf.
  - destruct fuel as [|fuel]; [lia|]. rewrite Nat.add_0_r in *.
    cbn [Kafka.ask_choice]. unfold bind at 1. unfold try_except, bind at 1, input.
    rewrite Hterm. destruct (answers (prompts t)) as [a|].
    + unfold ret at 1. rewrite Hlast. unfold ret.
      eexists [EvInput _ (Some a)]. now repeat split.
    + cbn [is_EOFError]. unfold bind, log, emit, sys_exit.
      eexists [EvInput _ None; EvLog ERROR _].
      split; [now rewrite <- app_assoc|]. now repeat split.
  - destruct fuel as [|fuel]; [lia|].
    destruct (Hbad 0%nat ltac:(lia)) as (a & Ha & Hm). rewrite Nat.add_0_r in Ha.
    cbn [Kafka.ask_choice]. unfold bind at 1. unfold try_except, bind at 1, input.
    rewrite Hterm, Ha. unfold ret at 1. rewrite Hm.
    unfold bind at 1. unfold log at 1, emit.
    set (t1 := (t ++ _) ++ _).
    assert (Hp : prompts t1 = S (prompts t)).
    { subst t1. rewrite !prompts_app. cbn. lia. }
    destruct (IH fuel t1) as (evs & E & Hn & Hr & Hs).
    + intros k Hk. rewrite Hp. replace (S (prompts t) + k)%nat
        with (prompts t + S k)%nat by lia. apply Hbad. lia.
    + rewrite Hp. now replace (S (prompts t) + n)%nat with (prompts t + S n)%nat by lia.
    + lia.
    + rewrite Hp in E.
      replace (S (prompts t) + n)%nat with (prompts t + S n)%nat in E by lia.
      eexists ([EvInput _ (Some a); EvLog INFO _] ++ evs).
      rewrite E. subst t1. split; [now rewrite <- !app_assoc|].
      rewrite prompts_app, runs_app, slept_app, Hn, Hr, Hs. now repeat split.
Qed.

End KafkaEdges.

(** X16 on a namespace that never has a pod, for fifty rounds. *)
Lemma kafka_wait_zero_interval_never_ends_witness :
  exists evs,
    Kafka.wait_for_pods (snapshot_world (fun _ => ""%string)) 50 "streaming" 300 0 []
    = (OutOfFuel, [] ++ evs)
    /\ polls "streaming" evs = 50%nat /\ slept evs = 0.
Proof.
  apply (kafka_wait_zero_interval_never_ends
           (snapshot_world (fun _ => ""%string)) 50 "streaming" 300 []).
  - lia.
  - intros t'. reflexivity.
Defined.

(** X17 for an operator who answers 3, then nothing, then 2 between
    spaces. *)
Lemma kafka_ask_choice_reprompts_witness :
  exists evs,
    Kafka.ask_choice (scripted (fun _ _ => ok "") hesitant "muser") 3 []
    = (match hesitant (prompts [] + 2)%nat with
       | Some a => Returned (PyStr.strip a)
       | None => Exited 1
       end, [] ++ evs)
    /\ prompts evs = 3%nat /\ runs evs = [] /\ slept evs = 0.
Proof.
  apply (kafka_ask_choice_reprompts (scripted (fun _ _ => ok "") hesitant "muser")
           hesitant 2 3 []).
  - intros t' p. reflexivity.
  - intros k Hk. destruct k as [|[|k]]; [now eexists|now eexists|lia].
  - reflexivity.
  - lia.
Defined.

(* ===================================================================== *)
(** ** The service account of the dashboard *)
(* ===================================================================== *)

Section DashboardAccount.
Variable w : World.

Local Arguments String.append : simpl never.

(** X18. [check_and_create_sa_and_binding] creates what is missing and
    nothing else. It looks the service account up and creates it iff the
    look-up failed; when that creation fails it leaves with status 1 and
    the binding is not looked at. Otherwise it looks the cluster role
    binding up and creates it iff that look-up failed; it returns normally
    unless that creation fails, which ends the process with status 1. *)
Theorem dashboard_account_created_on_need (namespace : string) (t : Trace) :
  exists (o : Outcome unit) (evs : Trace) (rc1 c1 rc2 c2 : Z),
    Dashboard.check_and_create_sa_and_binding w namespace t = (o, t ++ evs)
    /\ if (rc1 =? 0) || (c1 =? 0) then
         runs evs = ensured (get_sa namespace) (create_sa namespace) rc1 c1
                    ++ ensured get_crb create_crb rc2 c2
         /\ o = (if (rc2 =? 0) || (c2 =? 0) then Returned tt else Exited 1)
       else
         runs evs = ensured (get_sa namespace) (create_sa namespace) rc1 c1
         /\ o = Exited 1.
Proof.
  unfold Dashboard.check_and_create_sa_and_binding.
  unfold bind at 1. unfold subprocess_run at 1. cbn [andb].
  fold (get_sa namespace).
  set (g1 := subprocess_result w t (get_sa namespace)).
  assert (Crb : forall (pre : Trace) (rc1 c1 : Z),
             (rc1 =? 0) || (c1 =? 0) = true ->
             runs pre = ensured (get_sa namespace) (create_sa namespace) rc1 c1 ->
             exists (o : Outcome unit) (evs : Trace) (rc2 c2 : Z),
               bind (subprocess_run w get_crb false)
                 (fun crb_check =>
                    if negb (returncode crb_check =? 0)
                    then bind (log INFO "ClusterRoleBinding 'dashboard-admin-sa' not found. Creating...")
                           (fun _ => bind (Dashboard.run_command w "kubectl create clusterrolebinding dashboard-admin-sa --clusterrole=cluster-admin --serviceaccount=kubernetes-dashboard:dashboard-admin-sa" true)
                                       (fun _ => ret tt))
                    else log INFO "ClusterRoleBinding 'dashboard-admin-sa' already exists.")
                 (t ++ pre) = (o, t ++ pre ++ evs)
               /\ runs (pre ++ evs)
                  = ensured (get_sa namespace) (create_sa namespace) rc1 c1
                    ++ ensured get_crb create_crb rc2 c2
               /\ o = (if (rc2 =? 0) || (c2 =? 0) then Returned tt else Exited 1)).
  { intros pre rc1 c1 Hok Hpre. unfold bind at 1. unfold subprocess_run at 1. cbn [andb].
    set (g2 := subprocess_result w (t ++ pre) get_crb).
    destruct (returncode g2 =? 0) eqn:H2; cbn [negb].
    - exists (Returned tt). eexists [EvRun get_crb g2; EvLog INFO _].
      exists (returncode g2), 0. unfold log, emit.
      split; [now rewrite <- !app_assoc|].
      rewrite runs_app, Hpre.
      split; [f_equal; unfold ensured; now rewrite H2|now rewrite H2].
    - unfold bind at 1. unfold log at 1, emit.
      unfold bind at 1. rewrite dashboard_run_command_checked. cbv zeta.
      fold create_crb.
      set (k2 := subprocess_result w _ create_crb).
      destruct (returncode k2 =? 0) eqn:K2.
      + exists (Returned tt).
        eexists [EvRun get_crb g2; EvLog INFO _; EvLog INFO _; EvRun create_crb k2].
        exists (returncode g2), (returncode k2). unfold ret.
        split; [now rewrite <- !app_assoc|].
        rewrite runs_app, Hpre.
        split; [f_equal; unfold ensured; now rewrite H2|now rewrite K2, orb_true_r].
      + exists (Exited 1).
        eexists [EvRun get_crb g2; EvLog INFO _; EvLog INFO _; EvRun create_crb k2;
                 EvLog ERROR _].
        exists (returncode g2), (returncode k2).
        split; [now rewrite <- !app_assoc|].
        rewrite runs_app, Hpre.
        split; [f_equal; unfold ensured; now rewrite H2|now rewrite H2, K2]. }
  destruct (returncode g1 =? 0) eqn:H1; cbn [negb].
  - unfold bind at 1. unfold log at 1, emit.
    destruct (Crb [EvRun (get_sa namespace) g1;
                   EvLog INFO "ServiceAccount 'dashboard-admin-sa' already exists."]
                (returncode g1) 0) as (o & evs & rc2 & c2 & E & Hr & Ho).
    { now rewrite H1. }
    { unfold ensured. now rewrite H1. }
    exists o. eexists. exists (returncode g1), 0, rc2, c2. rewrite H1. cbn [orb].
    split; [|split; [exact Hr|exact Ho]].
    rewrite <- E. now rewrite <- !app_assoc.
  - unfold bind at 1. unfold bind at 1. unfold log at 1, emit.
    unfold bind at 1. rewrite dashboard_run_command_checked. cbv zeta.
    fold (create_sa namespace).
    set (k1 := subprocess_result w _ (create_sa namespace)).
    destruct (returncode k1 =? 0) eqn:K1.
    + unfold ret at 1.
      destruct (Crb [EvRun (get_sa namespace) g1;
                     EvLog INFO "ServiceAccount 'dashboard-admin-sa' not found. Creating...";
                     EvLog INFO ("Executing command: " ++ "kubectl create serviceaccount dashboard-admin-sa -n " ++ namespace)%string;
                     EvRun (create_sa namespace) k1]
                  (returncode g1) (returncode k1)) as (o & evs & rc2 & c2 & E & Hr & Ho).
      { rewrite K1. apply orb_true_r. }
      { unfold ensured. now rewrite H1. }
      exists o. eexists. exists (returncode g1), (returncode k1), rc2, c2.
      rewrite H1, K1. cbn [orb].
      split; [|split; [exact Hr|exact Ho]].
      rewrite <- E. now rewrite <- !app_assoc.
    + exists (Exited 1).
      eexists [EvRun (get_sa namespace) g1; EvLog INFO _; EvLog INFO _;
               EvRun (create_sa namespace) k1; EvLog ERROR _].
      exists (returncode g1), (returncode k1), 0, 0. rewrite H1, K1. cbn [orb].
      split; [now rewrite <- !app_assoc|].
      unfold ensured. rewrite H1. split; reflexivity.
Qed.

End DashboardAccount.

(* ===================================================================== *)
(** ** Fetching the required files *)
(* ===================================================================== *)

Lemma fs_ops_app (a b : Trace) : fs_ops (a ++ b) = fs_ops a ++ fs_ops b.
Proof.
  induction a as [|e r IH]; [reflexivity|].
  destruct e; cbn [app fs_ops]; now rewrite ?IH.
Qed.


Lemma ecom_copied_no_removal (path temp_dir : string) (files : list string) :
  existsb (is_removal path) (flat_map (ecom_copied temp_dir) files) = false.
Proof. induction files as [|f r IH]; [reflexivity|exact IH]. Qed.

Section Fetch.
Variable w : World.

Local Arguments String.append : simpl never.



(** The loop of [fetch_files] of deploy_ecom_app.py removes nothing. *)
Lemma ecom_copy_fetched_spec (temp_dir : string) (files : list string) :
  forall t : Trace,
  exists (o : Outcome unit) (evs : Trace),
    Ecom.copy_fetched w temp_dir files t = (o, t ++ evs)
    /\ runs evs = []
    /\ existsb (is_removal temp_dir) (fs_ops evs) = false
    /\ match o with
       | Returned _ => fs_ops evs = flat_map (ecom_copied temp_dir) files
       | Raised e => e = OSError
       | Exited c => c = 1
       | OutOfFuel => False
       end.
Proof.
  induction files as [|f rest IH]; intros t.
  - exists (Returned tt), []. cbn. now rewrite app_nil_r.
  - cbn [Ecom.copy_fetched]. unfold bind at 1. unfold fs_test at 1.
    set (src := (temp_dir ++ "/" ++ f)%string).
    set (b := fs_result w t (IsFile src)). set (t1 := t ++ [EvFs (IsFile src) b]).
    destruct b eqn:Eb.
    + unfold bind at 1. unfold fs_do at 1.
      set (c := fs_result w t1 (Copy src ".")).
      destruct c eqn:Ec.
      * unfold bind at 1. unfold log at 1, emit.
        match goal with |- context [Ecom.copy_fetched w temp_dir rest ?t'] =>
          destruct (IH t') as (o & evs & E & Hr & Hn & Ho) end.
        exists o. eexists ([EvFs (IsFile src) true; EvFs (Copy src ".") true; EvLog INFO _]
                           ++ evs).
        rewrite E. subst t1. split; [now rewrite <- !app_assoc|].
        rewrite runs_app, fs_ops_app, Hr. split; [reflexivity|].
        split; [cbn [fs_ops app existsb is_removal fst orb]; exact Hn|].
        destruct o as [u|e|code|]; try exact Ho.
        cbn [fs_ops app flat_map ecom_copied]. now rewrite Ho.
      * exists (Raised OSError).
        eexists [EvFs (IsFile src) true; EvFs (Copy src ".") false].
        subst t1. split; [now rewrite <- !app_assoc|]. now repeat split.
    + exists (Exited 1). eexists [EvFs (IsFile src) false; EvLog ERROR _].
      unfold bind, log, emit, sys_exit.
      subst t1. split; [now rewrite <- !app_assoc|]. now repeat split.
Qed.

(** X20. [fetch_files] of deploy_ecom_app.py cleans up on success only. It
    never raises: it returns normally or leaves with status 1. When it
    returns, the clone ended with status 0, each of the four required files
    was found in temp_repo and copied, and temp_repo was removed last. When
    it leaves with status 1, temp_repo has not been removed: no removal was
    tried, or the removal is what failed. *)
Theorem ecom_fetch_cleans_up_on_success_only (t : Trace) :
  exists (o : Outcome unit) (evs : Trace),
    Ecom.fetch_files w t = (o, t ++ evs)
    /\ match o with
       | Returned _ =>
           runs evs = [(ecom_clone, 0)]
           /\ fs_ops evs
              = flat_map (ecom_copied "temp_repo") Ecom.REQUIRED_FILES
                ++ [(Rmtree "temp_repo", true)]
       | Exited c =>
           c = 1
           /\ forall op, In op (fs_ops evs) -> is_removal "temp_repo" op = true ->
                         snd op = false
       | _ => False
       end.
Proof.
  unfold Ecom.fetch_files. unfold try_except. unfold bind at 1.
  unfold subprocess_run at 1. cbn [andb]. fold ecom_clone.
  set (g := subprocess_result w t ecom_clone).
  destruct (returncode g =? 0) eqn:Hg; cbn [negb is_Exception].
  - unfold bind at 1.
    match goal with |- context [Ecom.copy_fetched w "temp_repo" Ecom.REQUIRED_FILES ?t'] =>
      destruct (ecom_copy_fetched_spec "temp_repo" Ecom.REQUIRED_FILES t')
        as (o & evs & E & Hr & Hn & Ho) end.
    rewrite E. apply Z.eqb_eq in Hg.
    assert (Hnone : forall op, In op (fs_ops evs) -> is_removal "temp_repo" op = true ->
                               snd op = false).
    { intros op Hin Hrm. exfalso.
      assert (H : existsb (is_removal "temp_repo") (fs_ops evs) = true)
        by (apply existsb_exists; now exists op).
      congruence. }
    destruct o as [u|e|code|]; [| | |elim Ho].
    + unfold fs_do at 1.
      set (d := fs_result w _ (Rmtree "temp_repo")).
      destruct d eqn:Ed.
      * exists (Returned tt).
        eexists ([EvRun ecom_clone g] ++ evs ++ [EvFs (Rmtree "temp_repo") true]).
        split; [now rewrite <- !app_assoc|].
        rewrite !runs_app, !fs_ops_app, Hr, Ho. cbn [runs app]. rewrite Hg.
        now split.
      * exists (Exited 1).
        eexists ([EvRun ecom_clone g] ++ evs ++ [EvFs (Rmtree "temp_repo") false; EvLog ERROR _]).
        unfold bind, log, emit, sys_exit.
        split; [now rewrite <- !app_assoc|]. split; [reflexivity|].
        intros op Hin Hrm. rewrite !fs_ops_app in Hin. cbn [fs_ops app] in Hin.
        apply in_app_or in Hin as [Hin|[<-|[]]]; [now apply Hnone|reflexivity].
    + exists (Exited 1).
      eexists ([EvRun ecom_clone g] ++ evs ++ [EvLog ERROR _]).
      unfold bind, log, emit, sys_exit.
      split; [now rewrite <- !app_assoc|]. split; [reflexivity|].
      intros op Hin Hrm. rewrite !fs_ops_app in Hin. cbn [fs_ops app] in Hin.
      rewrite app_nil_r in Hin. now apply Hnone.
    + exists (Exited code).
      eexists ([EvRun ecom_clone g] ++ evs).
      split; [now rewrite <- !app_assoc|]. split; [exact Ho|].
      intros op Hin Hrm. rewrite !fs_ops_app in Hin. cbn [fs_ops app] in Hin.
      now apply Hnone.
  - exists (Exited 1). eexists [EvRun ecom_clone g; EvLog ERROR _].
    unfold bind, log, emit, sys_exit.
    split; [now rewrite <- !app_assoc|]. split; [reflexivity|].
    intros op [].
Qed.

(** X21. [verify_files] of deploy_mysql.py tests each of the four required
    files once, in order, and runs no command. When all are there it does
    nothing more and returns. When one is missing it clones the repository
    into the namespace directory, once, and that is the last it does to the
    file system: it returns normally when the clone succeeded, without
    testing whether the missing files are there now, and leaves with
    status 1 when the clone failed. *)
Theorem mysql_verify_files_clones_once (t : Trace) :
  exists (o : Outcome unit) (evs : Trace) (results : list bool),
    Mysql.verify_files w t = (o, t ++ evs)
    /\ runs evs = []
    /\ length results = 4%nat
    /\ if forallb (fun b => b) results then
         fs_ops evs = mysql_tests results /\ o = Returned tt
       else
         exists cloned,
           fs_ops evs = mysql_tests results
                        ++ [(CloneFrom Mysql.github_repo Mysql.namespace_dir, cloned)]
           /\ o = if cloned then Returned tt else Exited 1.
Proof.
  unfold Mysql.verify_files, Mysql.required_files. cbn [missing_of].
  unfold bind at 1. unfold bind at 1. unfold fs_test at 1.
  set (b1 := fs_result w t _). set (t1 := t ++ [EvFs _ b1]).
  unfold bind at 1. unfold bind at 1. unfold fs_test at 1.
  set (b2 := fs_result w t1 _). set (t2 := t1 ++ [EvFs _ b2]).
  unfold bind at 1. unfold bind at 1. unfold fs_test at 1.
  set (b3 := fs_result w t2 _). set (t3 := t2 ++ [EvFs _ b3]).
  unfold bind at 1. unfold bind at 1. unfold fs_test at 1.
  set (b4 := fs_result w t3 _). set (t4 := t3 ++ [EvFs _ b4]).
  unfold bind at 1. unfold ret at 1. unfold ret at 1. unfold ret at 1.
  unfold ret at 1. unfold ret at 1.
  assert (Et4 : forall l, t4 ++ l
      = t ++ [EvFs (Exists (Mysql.namespace_dir ++ "/" ++ "debug-pod.yaml")) b1;
              EvFs (Exists (Mysql.namespace_dir ++ "/" ++ "init-db.sql")) b2;
              EvFs (Exists (Mysql.namespace_dir ++ "/" ++ "mysql.yaml")) b3;
              EvFs (Exists (Mysql.namespace_dir ++ "/" ++ "phpmyadmin.yaml")) b4] ++ l).
  { intros l. subst t4 t3 t2 t1. now rewrite <- !app_assoc. }
  assert (Hclone : forall (missing : list string),
    exists (cloned : bool) (evs' : Trace),
      bind (Mysql.print_message ("Missing files: " ++ repr_list missing
                                 ++ ". Fetching from GitHub...")%string INFO)
        (fun _ =>
           try_except
             (bind (fs_do w (CloneFrom Mysql.github_repo Mysql.namespace_dir) GitCommandError)
                (fun _ => Mysql.print_message "Successfully fetched files from GitHub" INFO))
             is_GitCommandError
             (fun e => bind (Mysql.print_message
                               ("Error fetching files: " ++ str_exn e)%string ERROR)
                         (fun _ => sys_exit 1))) t4
      = ((if cloned then Returned tt else Exited 1), t4 ++ evs')
      /\ runs evs' = []
      /\ fs_ops evs' = [(CloneFrom Mysql.github_repo Mysql.namespace_dir, cloned)]).
  { intros missing. unfold bind at 1. unfold Mysql.print_message at 1, log at 1, emit.
    unfold try_except, bind at 1. unfold fs_do at 1.
    set (c := fs_result w _ (CloneFrom _ _)).
    exists c. destruct c eqn:Ec.
    - eexists [EvLog INFO _; EvFs (CloneFrom _ _) true; EvLog INFO _].
      unfold Mysql.print_message, log, emit.
      split; [now rewrite <- !app_assoc|]. now split.
    - cbn [is_GitCommandError].
      eexists [EvLog INFO _; EvFs (CloneFrom _ _) false; EvLog ERROR _].
      unfold bind, Mysql.print_message, log, emit, sys_exit.
      split; [now rewrite <- !app_assoc|]. now split. }
  destruct b1 eqn:E1, b2 eqn:E2, b3 eqn:E3, b4 eqn:E4.
  1: { exists (Returned tt). eexists. exists [true; true; true; true].
       unfold ret. rewrite <- (app_nil_r t4), Et4.
       split; [reflexivity|]. now repeat split. }
  all: match goal with
       | |- context [repr_list ?m] =>
           destruct (Hclone m) as (cloned & evs' & E & Hr & Hf)
       end;
    exists (if cloned then Returned tt else Exited 1);
    eexists (_ :: _ :: _ :: _ :: evs');
    exists [b1; b2; b3; b4];
    rewrite E, Et4; subst b1 b2 b3 b4; rewrite ?E1, ?E2, ?E3, ?E4;
    (split; [reflexivity|]);
    (split; [cbn [runs]; exact Hr|]);
    (split; [reflexivity|]);
    cbn [forallb andb]; exists cloned;
    (split; [cbn [fs_ops]; rewrite Hf; reflexivity|reflexivity]).
Qed.

End Fetch.

(* ===================================================================== *)
(** ** The stages of deploy_kafka.py *)
(* ===================================================================== *)

Lemma stages_app (a b : Trace) : stages (a ++ b) = stages a ++ stages b.
Proof.
  induction a as [|e r IH]; [reflexivity|].
  cbn [app stages]. destruct (stage_of e); cbn [app]; now rewrite IH.
Qed.

Lemma stages_none (evs : Trace) : forallb no_stage evs = true -> stages evs = [].
Proof.
  induction evs as [|e r IH]; [reflexivity|]. cbn [forallb stages].
  intros H. apply andb_prop in H as [He Hr]. unfold no_stage in He.
  destruct (stage_of e); [discriminate|]. now apply IH.
Qed.

Lemma stages_logs (evs : Trace) : forallb is_log evs = true -> stages evs = [].
Proof.
  induction evs as [|e r IH]; [reflexivity|]. cbn [forallb stages].
  intros H. apply andb_prop in H as [He Hr]. destruct e; try discriminate.
  now apply IH.
Qed.

Lemma yields_only {A} (m : Script A) : only no_stage m -> yields [] m.
Proof.
  intros H t a t' E. destruct (only_run _ _ _ _ _ H E) as (evs & -> & P).
  exists evs. split; [reflexivity|now apply stages_none].
Qed.

Lemma yields_bind {A B} (S1 S2 S : list Stage) (m : Script A) (k : A -> Script B) :
  S = S1 ++ S2 -> yields S1 m -> (forall a, yields S2 (k a)) -> yields S (bind m k).
Proof.
  intros -> Hm Hk t b t' E. apply bind_returned in E as (a & t1 & E1 & E2).
  destruct (Hm _ _ _ E1) as (e1 & -> & H1).
  destruct (Hk a _ _ _ E2) as (e2 & -> & H2).
  exists (e1 ++ e2). split; [now rewrite app_assoc|].
  now rewrite stages_app, H1, H2.
Qed.

Lemma yields_try_except {A} (S : list Stage) (body : Script A) (catches : Exn -> bool)
    (handler : Exn -> Script A) :
  yields S body ->
  (forall e t a t', handler e t <> (Returned a, t')) ->
  yields S (try_except body catches handler).
Proof.
  intros Hb Hh t a t' E. apply try_except_returned in E as [E|(e & t1 & _ & _ & E)].
  - now apply (Hb _ _ _ E).
  - now elim (Hh _ _ _ _ E).
Qed.

Lemma closes_bind {A B} (e : Event) (m : Script A) (k : A -> Script B) :
  (forall a, closes e (k a)) -> closes e (bind m k).
Proof.
  intros Hk t b t' E. apply bind_returned in E as (a & t1 & _ & E2).
  now apply (Hk a _ _ _ E2).
Qed.

Lemma closes_try_except {A} (e : Event) (body : Script A) (catches : Exn -> bool)
    (handler : Exn -> Script A) :
  closes e body ->
  (forall x t a t', handler x t <> (Returned a, t')) ->
  closes e (try_except body catches handler).
Proof.
  intros Hb Hh t a t' E. apply try_except_returned in E as [E|(x & t1 & _ & _ & E)].
  - now apply (Hb _ _ _ E).
  - now elim (Hh _ _ _ _ E).
Qed.

Lemma log_then_exit_never_returns {A} (l : Level) (m : string) (c : Z) (t t' : Trace) (a : A) :
  bind (log l m) (fun _ => sys_exit c) t <> (Returned a, t').
Proof. unfold bind, log, emit, sys_exit. discriminate. Qed.

Section KafkaStages.
Variable w : World.

Local Arguments String.append : simpl never.

Lemma kafka_wait_round_stages (fuel : nat) (timeout interval elapsed : Z) (t : Trace) :
  elapsed < timeout ->
  exists round,
    stages round
    = (if Kafka.poll_ready (poll_output w "streaming" t) then [PodsReady] else [])
    /\ Kafka.wait_loop w (S fuel) "streaming" timeout interval elapsed t
       = if Kafka.poll_ready (poll_output w "streaming" t) then
           (Returned true,
            t ++ round ++
              [EvLog INFO "All pods are ready (all containers in each pod are running)."])
         else if interval <? 0 then (Raised ValueError, t ++ round)
         else Kafka.wait_loop w fuel "streaming" timeout interval (elapsed + interval)
                (t ++ round ++ [EvSleep interval]).
Proof.
  intros Hlt. apply Z.ltb_lt in Hlt.
  cbn [Kafka.wait_loop]. rewrite Hlt.
  unfold bind at 1. rewrite kafka_run_command_unchecked. cbv zeta.
  fold (poll_output w "streaming" t).
  set (r := subprocess_result w _ _).
  set (t1 := (t ++ _) ++ _).
  assert (Et1 : forall l, t1 ++ l
      = t ++ ([EvLog INFO ("Executing command: " ++ Kafka.get_pods "streaming")%string;
               EvRun (Shell (Kafka.get_pods "streaming")) r] ++ l)).
  { intros l. subst t1. now rewrite <- !app_assoc. }
  assert (Hst : forall logs, forallb is_log logs = true ->
      stages ([EvLog INFO ("Executing command: " ++ Kafka.get_pods "streaming")%string;
               EvRun (Shell (Kafka.get_pods "streaming")) r] ++ logs)
      = if Kafka.poll_ready (poll_output w "streaming" t) then [PodsReady] else []).
  { intros logs L. rewrite stages_app, (stages_logs _ L), app_nil_r.
    cbn [stages stage_of is_apply]. rewrite same_command_refl.
    cbn [same_command andb]. change (PyStr.strip (stdout r)) with (poll_output w "streaming" t).
    now destruct (Kafka.poll_ready _). }
  destruct (PyStr.truthy (poll_output w "streaming" t)) eqn:Htr.
  - destruct (kafka_check_lines_spec
                (PyStr.splitlines (poll_output w "streaming" t)) true t1)
      as (logs & E & L).
    exists ([EvLog INFO ("Executing command: " ++ Kafka.get_pods "streaming")%string;
             EvRun (Shell (Kafka.get_pods "streaming")) r] ++ logs).
    split; [now apply Hst|].
    unfold bind at 1. rewrite E. unfold Kafka.poll_ready. rewrite Htr. cbn [andb].
    destruct (Kafka.all_ready_after _ true).
    + unfold bind, log, emit, ret. f_equal.
      now rewrite <- app_assoc, Et1, <- app_assoc.
    + unfold bind at 1. unfold sleep.
      destruct (interval <? 0).
      * unfold raise. f_equal. apply Et1.
      * unfold emit. f_equal. now rewrite <- app_assoc, Et1, <- app_assoc.
  - exists [EvLog INFO ("Executing command: " ++ Kafka.get_pods "streaming")%string;
            EvRun (Shell (Kafka.get_pods "streaming")) r].
    split; [apply (Hst []); reflexivity|].
    unfold Kafka.poll_ready. rewrite Htr.
    unfold bind at 1. unfold ret at 1. cbn [andb].
    unfold bind at 1. unfold sleep.
    destruct (interval <? 0).
    + unfold raise. f_equal. rewrite <- (app_nil_r t1), Et1. now rewrite app_nil_r.
    + unfold emit. f_equal. apply Et1.
Qed.

Lemma kafka_wait_loop_yields (fuel : nat) (timeout interval : Z) :
  forall elapsed, yields [PodsReady] (Kafka.wait_loop w fuel "streaming" timeout interval elapsed).
Proof.
  induction fuel as [|fuel IH]; intros elapsed t a t' E.
  - discriminate E.
  - destruct (Z.lt_ge_cases elapsed timeout) as [Hlt|Hge].
    + destruct (kafka_wait_round_stages fuel timeout interval elapsed t Hlt)
        as (round & Hs & E').
      rewrite E' in E. clear E'.
      destruct (Kafka.poll_ready _).
      * injection E as <- <-. eexists. split; [reflexivity|].
        rewrite stages_app, Hs. reflexivity.
      * destruct (interval <? 0); [discriminate E|].
        apply IH in E as (evs & -> & H).
        exists (round ++ [EvSleep interval] ++ evs).
        split; [now rewrite <- !app_assoc|].
        now rewrite !stages_app, Hs, H.
    + rewrite kafka_wait_loop_expired in E by assumption. discriminate E.
Qed.

Lemma kafka_wait_for_pods_yields (fuel : nat) (timeout interval : Z) :
  yields [PodsReady] (Kafka.wait_for_pods w fuel "streaming" timeout interval).
Proof.
  unfold Kafka.wait_for_pods.
  apply (yields_bind [] [PodsReady]); [reflexivity| |intros _; apply kafka_wait_loop_yields].
  apply yields_only. only_steps.
Qed.

Lemma kafka_apply_yields (manifest : string) :
  yields [Applied (kafka_apply manifest) 0]
    (bind (subprocess_run w (Argv ["kubectl"; "apply"; "-f"; manifest; "-n"; Kafka.NAMESPACE])
             true)
       (fun _ => ret tt)).
Proof.
  intros t a t'. unfold bind, subprocess_run, ret. cbn [andb].
  fold (kafka_apply manifest).
  destruct (returncode _ =? 0) eqn:H; cbn [negb]; [|discriminate].
  intros E. injection E as <- <-. eexists [_]. split; [reflexivity|].
  apply Z.eqb_eq in H. cbn [stages stage_of]. 
  replace (is_apply (EvRun (kafka_apply manifest) _)) with true by reflexivity.
  now rewrite H.
Qed.

Lemma kafka_topic_yields :
  yields [TopicCreated 0]
    (bind (subprocess_run w (Argv Kafka.KAFKA_EXEC_CMD) true)
       (fun _ => log INFO ("Kafka topic '" ++ Kafka.TOPIC_NAME ++ "' created successfully.")%string)).
Proof.
  intros t a t'. unfold bind, subprocess_run, log, emit. cbn [andb].
  destruct (returncode _ =? 0) eqn:H; cbn [negb]; [|discriminate].
  intros E. injection E as <- <-. eexists [_; _]. split; [now rewrite <- app_assoc|].
  apply Z.eqb_eq in H. cbn [stages stage_of].
  replace (is_apply (EvRun (Argv Kafka.KAFKA_EXEC_CMD) _)) with false by reflexivity.
  rewrite same_command_refl. now rewrite H.
Qed.

Lemma kafka_deploy_steps_yields (fuel : nat) :
  yields [Applied (kafka_apply "kafka.yaml") 0; PodsReady; TopicCreated 0;
          Applied (kafka_apply "redpanda.yaml") 0; PodsReady]
    (Kafka.deploy_steps w fuel).
Proof.
  unfold Kafka.deploy_steps.
  eapply (yields_bind []); [reflexivity|apply yields_only; only_steps|intros _].
  eapply (yields_bind [Applied (kafka_apply "kafka.yaml") 0]); [reflexivity| |intros _].
  { apply yields_try_except; [apply kafka_apply_yields|].
    intros; apply log_then_exit_never_returns. }
  eapply (yields_bind [PodsReady]); [reflexivity|apply kafka_wait_for_pods_yields|].
  intros ready.
  eapply (yields_bind []); [reflexivity|apply yields_only; only_steps|intros _].
  eapply (yields_bind []); [reflexivity|apply yields_only; only_steps|intros _].
  eapply (yields_bind [TopicCreated 0]); [reflexivity| |intros _].
  { apply yields_try_except; [apply kafka_topic_yields|].
    intros; apply log_then_exit_never_returns. }
  eapply (yields_bind []); [reflexivity|apply yields_only; only_steps|intros _].
  eapply (yields_bind [Applied (kafka_apply "redpanda.yaml") 0]); [reflexivity| |intros _].
  { apply yields_try_except; [apply kafka_apply_yields|].
    intros; apply log_then_exit_never_returns. }
  eapply (yields_bind [PodsReady]); [reflexivity|apply kafka_wait_for_pods_yields|].
  intros ready'.
  eapply (yields_bind []); [reflexivity|apply yields_only; only_steps|intros _].
  apply yields_only. unfold Kafka.log_resources. only_steps.
Qed.

Lemma kafka_deploy_steps_closes (fuel : nat) :
  closes (EvLog INFO "Deployment under the 'streaming' namespace was successful.")
    (Kafka.deploy_steps w fuel).
Proof.
  unfold Kafka.deploy_steps.
  do 10 (apply closes_bind; intros ?).
  apply closes_try_except; [|intros; apply log_then_exit_never_returns].
  apply closes_bind; intros result. apply closes_bind; intros _.
  intros t0 u t1 E. unfold log, emit in E. injection E as _ <-. now exists t0.
Qed.

Lemma kafka_ask_choice_no_stage (fuel : nat) : only no_stage (Kafka.ask_choice w fuel).
Proof.
  induction fuel as [|fuel IH]; cbn [Kafka.ask_choice]; only_steps. exact IH.
Qed.

Lemma kafka_poll_deleted_no_stage (left : nat) : only no_stage (Kafka.poll_deleted w left).
Proof.
  induction left as [|left IH]; cbn [Kafka.poll_deleted]; only_steps. exact IH.
Qed.

Lemma kafka_deploy_yields (fuel : nat) :
  yields [Applied (kafka_apply "kafka.yaml") 0; PodsReady; TopicCreated 0;
          Applied (kafka_apply "redpanda.yaml") 0; PodsReady]
    (Kafka.deploy_kafka_and_redpanda w fuel).
Proof.
  unfold Kafka.deploy_kafka_and_redpanda.
  eapply (yields_bind []); [reflexivity|apply yields_only; only_steps|intros _].
  eapply (yields_bind []); [reflexivity|apply yields_only|intros _].
  { unfold Kafka.preconditions, Kafka.fetch_missing_files. only_steps.
    all: try (apply kafka_copy_missing_only; reflexivity). }
  eapply (yields_bind []); [reflexivity|apply yields_only|].
  { unfold Kafka.inspect, Kafka.log_resources. only_steps. }
  intros [resources_output extraneous].
  eapply (yields_bind []); [reflexivity|apply yields_only|intros choice].
  { unfold Kafka.resolve. destruct extraneous; [|apply only_ret].
    only_steps. apply kafka_ask_choice_no_stage. }
  eapply (yields_bind []); [reflexivity|apply yields_only|intros _].
  { destruct (extraneous && PyStr.eqb choice "2"); [|apply only_ret].
    unfold Kafka.recreate_namespace. only_steps.
    all: apply kafka_poll_deleted_no_stage. }
  apply kafka_deploy_steps_yields.
Qed.

Lemma kafka_deploy_closes (fuel : nat) :
  closes (EvLog INFO "Deployment under the 'streaming' namespace was successful.")
    (Kafka.deploy_kafka_and_redpanda w fuel).
Proof.
  unfold Kafka.deploy_kafka_and_redpanda.
  apply closes_bind; intros _. apply closes_bind; intros _.
  apply closes_bind; intros [resources_output extraneous].
  apply closes_bind; intros choice. apply closes_bind; intros _.
  apply kafka_deploy_steps_closes.
Qed.

(** X22. What a normal return of [deploy_kafka_and_redpanda] tells. The
    stages of the history it has added are, in this order and with nothing
    else among them: kafka.yaml applied with status 0, a listing of the pods
    that the waiter took for ready, the topic created with status 0,
    redpanda.yaml applied with status 0, and again a listing taken for
    ready. No other manifest was applied, and the last event is the message
    that the deployment was successful. *)
Theorem kafka_deploy_returns (fuel : nat) (t t' : Trace) :
  Kafka.deploy_kafka_and_redpanda w fuel t = (Returned tt, t') ->
  exists evs,
    t' = t ++ evs
    /\ stages evs = [Applied (kafka_apply "kafka.yaml") 0; PodsReady; TopicCreated 0;
                     Applied (kafka_apply "redpanda.yaml") 0; PodsReady]
    /\ exists evs',
         evs = evs'
               ++ [EvLog INFO "Deployment under the 'streaming' namespace was successful."].
Proof.
  intros E.
  destruct (kafka_deploy_yields fuel _ _ _ E) as (evs & -> & Hs).
  destruct (kafka_deploy_closes fuel _ _ _ E) as (pre & Hp).
  exists evs. split; [reflexivity|]. split; [exact Hs|].
  destruct (exists_last (l := evs)) as (evs' & x & ->).
  { intros ->. discriminate Hs. }
  exists evs'. rewrite app_assoc in Hp. apply app_inj_tail in Hp as [_ ->]. reflexivity.
Qed.

End KafkaStages.

(** X22 on a namespace with a foreign pod, the operator choosing to
    continue. *)
Lemma kafka_deploy_returns_witness :
  exists evs,
    snd (Kafka.deploy_kafka_and_redpanda (streaming_cluster (fun _ => Some "1"%string)) 2 [])
    = [] ++ evs
    /\ stages evs = [Applied (kafka_apply "kafka.yaml") 0; PodsReady; TopicCreated 0;
                     Applied (kafka_apply "redpanda.yaml") 0; PodsReady]
    /\ exists evs',
         evs = evs'
               ++ [EvLog INFO "Deployment under the 'streaming' namespace was successful."].
Proof.
  apply (kafka_deploy_returns (streaming_cluster (fun _ => Some "1"%string)) 2 []).
  vm_compute. reflexivity.
Defined.

(* ===================================================================== *)
(** ** What a normal return of deploy_ecom_app.py tells *)
(* ===================================================================== *)

Lemma gives_bind {A B} (Q : B -> Prop) (m : Script A) (k : A -> Script B) :
  (forall a, gives Q (k a)) -> gives Q (bind m k).
Proof.
  intros Hk t b t' E. apply bind_returned in E as (a & t1 & _ & E2).
  now apply (Hk a _ _ _ E2).
Qed.

Lemma gives_ret {A} (Q : A -> Prop) (a : A) : Q a -> gives Q (ret a).
Proof. intros H t b t' E. unfold ret in E. now injection E as <- _. Qed.

Lemma gives_sys_exit {A} (Q : A -> Prop) (c : Z) : gives Q (@sys_exit A c).
Proof. intros t b t' E. discriminate E. Qed.

Lemma forallb_not_run_runs (evs : Trace) : forallb not_run evs = true -> runs evs = [].
Proof.
  induction evs as [|e r IH]; [reflexivity|]. cbn [forallb].
  intros H. apply andb_prop in H as [He Hr]. destruct e; try discriminate; now apply IH.
Qed.

Lemma forallb_not_run_applied (evs : Trace) : forallb not_run evs = true -> applied evs = [].
Proof.
  induction evs as [|e r IH]; [reflexivity|]. cbn [forallb].
  intros H. apply andb_prop in H as [He Hr]. destruct e; try discriminate; now apply IH.
Qed.

Section EcomReturn.
Variable w : World.

Local Arguments String.append : simpl never.

Lemma ecom_manage_not_apply (namespace : string) :
  only not_apply (Ecom.manage_existing_resources w namespace).
Proof.
  unfold Ecom.manage_existing_resources, Ecom.get_resources, Ecom.display_resources,
    Ecom.ensure_namespace.
  only_steps.
Qed.

(** [manage_existing_resources] returns [None] after the message that the
    resources are already running, and [True] otherwise: never [False]. *)
Lemma ecom_manage_returned (namespace : string) (t t' : Trace) (p : option bool) :
  Ecom.manage_existing_resources w namespace t = (Returned p, t') ->
  p = Some true
  \/ (p = None
      /\ exists pre,
           t' = t ++ pre
                ++ [EvLog INFO "Exiting since application resources are already running."]).
Proof.
  unfold Ecom.manage_existing_resources. intros H.
  apply bind_returned in H as (out & t1 & E1 & H).
  assert (Hg : only any_event (Ecom.get_resources w namespace))
    by (unfold Ecom.get_resources; only_steps).
  destruct (only_run _ _ _ _ _ Hg E1) as (e1 & -> & _).
  destruct (PyStr.truthy out).
  - destruct (Ecom.resources_belong_to_app out).
    + right. unfold bind, log, emit, ret, Ecom.display_resources, print in H.
      injection H as <- <-. split; [reflexivity|].
      eexists (e1 ++ [_; _; _; _; _]). now rewrite <- !app_assoc.
    + left. revert H. generalize (t ++ e1) p t'.
      change (gives (fun p => p = Some true)
        (bind (print "Some resources are already running under the 'application' namespace:")
           (fun _ => bind (Ecom.display_resources out)
              (fun _ => bind (input w "Enter 'continue' to deploy without deleting, or 'delete' to delete the namespace and deploy new resources: ")
                 (fun answer =>
                    let choice := Ecom.read_choice answer in
                    if PyStr.eqb choice "delete" then
                      bind (log INFO "User opted to delete the namespace.")
                        (fun _ => bind (subprocess_run w (Argv ["kubectl"; "delete"; "namespace"; namespace]) true)
                           (fun _ => bind (sleep 5)
                              (fun _ => bind (Ecom.ensure_namespace w namespace)
                                 (fun _ => ret (Some true)))))
                    else if PyStr.eqb choice "continue" then
                      bind (log INFO "User opted to continue without deleting the namespace.")
                        (fun _ => ret (Some true))
                    else bind (log INFO "Invalid selection. Exiting.")
                           (fun _ => sys_exit 1)))))).
      do 3 (apply gives_bind; intros ?). cbv zeta.
      destruct (PyStr.eqb _ "delete").
      * do 4 (apply gives_bind; intros ?). now apply gives_ret.
      * destruct (PyStr.eqb _ "continue").
        -- apply gives_bind; intros ?. now apply gives_ret.
        -- apply gives_bind; intros ?. apply gives_sys_exit.
  - left. unfold bind, log, emit, ret in H. now injection H as <- _.
Qed.

Lemma ecom_deploy_resources_returned (t t' : Trace) (u : unit) :
  Ecom.deploy_resources w t = (Returned u, t') ->
  exists r, returncode r = 0
            /\ t' = t ++ [EvRun ecom_apply r;
                          EvLog INFO "Deployment command executed successfully."].
Proof.
  unfold Ecom.deploy_resources, try_except, bind, subprocess_run, log, emit, sys_exit.
  cbn [andb]. fold ecom_apply.
  set (r := subprocess_result w t ecom_apply).
  destruct (returncode r =? 0) eqn:H; cbn [negb is_CalledProcessError]; [|discriminate].
  intros E. injection E as _ <-. exists r. apply Z.eqb_eq in H.
  split; [exact H|]. now rewrite <- app_assoc.
Qed.

Lemma ecom_display_deployed_spec (namespace : string) (t : Trace) :
  exists r evs,
    Ecom.display_deployed_resources w namespace t
    = (Returned tt, t ++ EvRun (ecom_get_all namespace) r :: evs)
    /\ forallb not_run evs = true.
Proof.
  unfold Ecom.display_deployed_resources. unfold bind at 1.
  rewrite ecom_get_resources_spec. cbv zeta.
  set (r := subprocess_result w t (ecom_get_all namespace)).
  exists r. destruct (returncode r =? 0).
  - destruct (PyStr.truthy (PyStr.strip (stdout r))).
    + eexists [EvPrint _; EvPrint _; EvPrint _; EvLog INFO _].
      unfold Ecom.display_resources, bind, print, log, emit.
      split; [now rewrite <- !app_assoc|reflexivity].
    + eexists [EvLog INFO _]. unfold log, emit.
      split; [now rewrite <- !app_assoc|reflexivity].
  - cbn [PyStr.truthy]. eexists [EvLog ERROR _; EvLog INFO _]. unfold log, emit.
    split; [now rewrite <- !app_assoc|reflexivity].
Qed.

(** X23. What a normal return of [perform_installation] tells. Either the
    application was already there: nothing was applied and the last
    message says that the resources are already running. Or ecom_app.yaml,
    and nothing else, was applied with status 0; the last two commands are
    that application and one listing of the namespace, and the last
    message reports success whatever the status and the content of that
    listing: the script does not wait for the pods. *)
Theorem ecom_install_returns (t t' : Trace) :
  Ecom.perform_installation w t = (Returned tt, t') ->
  exists evs,
    t' = t ++ evs
    /\ ((applied evs = []
         /\ exists evs',
              evs = evs'
                ++ [EvLog INFO "Exiting since application resources are already running."])
        \/ (applied evs = [(ecom_apply, 0)]
            /\ (exists pre rc,
                  runs evs = pre ++ [(ecom_apply, 0); (ecom_get_all "application", rc)])
            /\ exists evs',
                 evs = evs'
                   ++ [EvLog INFO "Ecommerce application resource deployment under the 'application' namespace is successful."])).
Proof.
  unfold Ecom.perform_installation. intros H.
  apply bind_returned in H as (u & t1 & E1 & H).
  destruct (only_run _ _ _ _ _ (ecom_preconditions_not_apply w) E1) as (e1 & -> & P1).
  apply bind_returned in H as (p & t2 & E2 & H).
  destruct (only_run _ _ _ _ _ (ecom_manage_not_apply "application") E2) as (e2 & -> & P2).
  destruct (ecom_manage_returned _ _ _ _ E2) as [->|(-> & pre & Hpre)].
  - cbn [Ecom.falsy] in H.
    apply bind_returned in H as (u1 & t3 & E3 & H).
    apply ecom_deploy_resources_returned in E3 as (r & Hr & ->).
    apply bind_returned in H as (u2 & t4 & E4 & H).
    destruct (ecom_display_deployed_spec "application"
                (((t ++ e1) ++ e2) ++
                   [EvRun ecom_apply r;
                    EvLog INFO "Deployment command executed successfully."]))
      as (r' & e4 & E4' & P4).
    rewrite E4' in E4. injection E4 as _ <-.
    unfold log, emit in H. injection H as <-.
    exists (e1 ++ e2 ++ [EvRun ecom_apply r; EvLog INFO "Deployment command executed successfully."]
            ++ (EvRun (ecom_get_all "application") r' :: e4)
            ++ [EvLog INFO "Ecommerce application resource deployment under the 'application' namespace is successful."]).
    split; [now rewrite <- !app_assoc|]. right. split; [|split].
    + rewrite !applied_app, (applied_not_apply _ P1), (applied_not_apply _ P2).
      cbn [app applied is_apply]. 
      replace (PyStr.eqb "kubectl" "kubectl" && PyStr.eqb "apply" "apply") with true
        by reflexivity.
      replace (is_apply (EvRun (ecom_get_all "application") r')) with false by reflexivity.
      rewrite (forallb_not_run_applied _ P4), Hr. reflexivity.
    + exists (runs e1 ++ runs e2), (returncode r').
      rewrite !runs_app. cbn [runs app]. rewrite (forallb_not_run_runs _ P4), Hr.
      cbn [app]. now rewrite <- !app_assoc.
    + eexists. rewrite !app_assoc. reflexivity.
  - cbn [Ecom.falsy] in H. unfold ret in H. injection H as <-.
    exists (e1 ++ e2). split; [now rewrite app_assoc|]. left.
    rewrite applied_app, (applied_not_apply _ P1), (applied_not_apply _ P2).
    split; [reflexivity|].
    apply app_inv_head in Hpre. subst e2.
    exists (e1 ++ pre). now rewrite app_assoc.
Qed.

End EcomReturn.

(** X23 on a running cluster whose application namespace is empty. *)
Lemma ecom_install_returns_witness :
  exists evs,
    snd (Ecom.perform_installation (cluster "" (fun _ => None)) []) = [] ++ evs
    /\ ((applied evs = []
         /\ exists evs',
              evs = evs'
                ++ [EvLog INFO "Exiting since application resources are already running."])
        \/ (applied evs = [(ecom_apply, 0)]
            /\ (exists pre rc,
                  runs evs = pre ++ [(ecom_apply, 0); (ecom_get_all "application", rc)])
            /\ exists evs',
                 evs = evs'
                   ++ [EvLog INFO "Ecommerce application resource deployment under the 'application' namespace is successful."])).
Proof.
  apply (ecom_install_returns (cluster "" (fun _ => None)) []).
  vm_compute. reflexivity.
Defined.

(* ===================================================================== *)
(** ** The operator's answer and the recreation of the namespace *)
(* ===================================================================== *)

(** X24. deploy_ecom_app.py reads the operator's answer through [strip]
    and [lower]: two answers that differ only in surrounding whitespace and
    in the case of their letters are read alike, so that the script takes
    the same branch on both. *)
Theorem ecom_choice_is_normalised (ws1 a ws2 b : string) :
  blank ws1 = true -> blank ws2 = true -> PyStr.lower a = PyStr.lower b ->
  Ecom.read_choice (ws1 ++ a ++ ws2) = Ecom.read_choice b.
Proof.
  intros H1 H2 H. rewrite ecom_read_choice_trims by assumption.
  now apply ecom_read_choice_case.
Qed.

(** X24 for the answer DELETE between a tab and a line end. *)
Lemma ecom_choice_is_normalised_witness :
  Ecom.read_choice (String (ascii_of_nat 9) "" ++ "DELETE" ++ PyStr.nl)
  = Ecom.read_choice "delete".
Proof.
  apply (ecom_choice_is_normalised (String (ascii_of_nat 9) "") "DELETE" PyStr.nl "delete");
    reflexivity.
Defined.

